(** * Keenetic monitor bot: a shallow embedding of [main.py]

    The development follows the layout of the program:

    - [Unicode]  the character classes behind [str.isdigit], [str.strip] and
                 [int], and the decoding of UTF-8;
    - [Py]       the Python values the program handles (parsed JSON, floats,
                 truthiness, [==], [dict.get], [str.split], [str.isdigit],
                 [int]);
    - [Hash]     MD5 and SHA-256 as [hashlib] computes them, rendered as
                 lowercase hexadecimal;
    - [Http]     the [requests] session: requests, responses, and a trace of
                 the requests issued so far;
    - [Keenetic] [keen_get], [keen_auth], [update_clients];
    - [Memory]   the memory accounting of the [start] handler;
    - [Monitor]  the polling loop [check_status_change].

    Strings are byte strings holding the UTF-8 encoding of the Python text, so
    that [str.encode()] is the identity on the representation; [str.isdigit],
    [str.strip] and [int] work on the code points, with the character classes
    of Unicode 14.0 (CPython 3.11).  Integers are unbounded; the conversions
    between [int] and [str] stop at 4300 digits, the default of
    [sys.set_int_max_str_digits].  A [float] is a binary64 number, and the
    arithmetic on floats rounds to the nearest, ties to even.  The exceptions
    are those derived from [Exception].  The pause between two turns of the
    polling loop ([asyncio.sleep]) has no counterpart here: a run of the loop
    is the sequence of its turns. *)

From Stdlib Require Import ZArith QArith String Ascii List Lia Permutation Sorted.
From stdpp Require Import base gmap strings list.

Set Warnings "-register-all".

Local Open Scope string_scope.
Local Open Scope Z_scope.
Local Open Scope list_scope.

(* ===================================================================== *)
(** ** Characters *)
(* ===================================================================== *)

Module Unicode.

(** The code points for which [str.isspace] holds, as closed intervals. *)
Definition space_ranges : list (Z * Z) :=
  [(9, 13); (28, 32); (133, 133); (160, 160); (5760, 5760); (8192, 8202);
   (8232, 8233); (8239, 8239); (8287, 8287); (12288, 12288)].

(** The decimal digits (category Nd): every interval is made of runs of ten
    digits, zero to nine. *)
Definition decimal_ranges : list (Z * Z) :=
  [(48, 57); (1632, 1641); (1776, 1785); (1984, 1993); (2406, 2415);
   (2534, 2543); (2662, 2671); (2790, 2799); (2918, 2927); (3046, 3055);
   (3174, 3183); (3302, 3311); (3430, 3439); (3558, 3567); (3664, 3673);
   (3792, 3801); (3872, 3881); (4160, 4169); (4240, 4249); (6112, 6121);
   (6160, 6169); (6470, 6479); (6608, 6617); (6784, 6793); (6800, 6809);
   (6992, 7001); (7088, 7097); (7232, 7241); (7248, 7257); (42528, 42537);
   (43216, 43225); (43264, 43273); (43472, 43481); (43504, 43513);
   (43600, 43609); (44016, 44025); (65296, 65305); (66720, 66729);
   (68912, 68921); (69734, 69743); (69872, 69881); (69942, 69951);
   (70096, 70105); (70384, 70393); (70736, 70745); (70864, 70873);
   (71248, 71257); (71360, 71369); (71472, 71481); (71904, 71913);
   (72016, 72025); (72784, 72793); (73040, 73049); (73120, 73129);
   (92768, 92777); (92864, 92873); (93008, 93017); (120782, 120831);
   (123200, 123209); (123632, 123641); (125264, 125273); (130032, 130041)].

(** The code points for which [str.isdigit] holds: the decimal digits and
    the other digits (superscripts, subscripts, circled digits, ...). *)
Definition digit_ranges : list (Z * Z) :=
  [(48, 57); (178, 179); (185, 185); (1632, 1641); (1776, 1785);
   (1984, 1993); (2406, 2415); (2534, 2543); (2662, 2671); (2790, 2799);
   (2918, 2927); (3046, 3055); (3174, 3183); (3302, 3311); (3430, 3439);
   (3558, 3567); (3664, 3673); (3792, 3801); (3872, 3881); (4160, 4169);
   (4240, 4249); (4969, 4977); (6112, 6121); (6160, 6169); (6470, 6479);
   (6608, 6618); (6784, 6793); (6800, 6809); (6992, 7001); (7088, 7097);
   (7232, 7241); (7248, 7257); (8304, 8304); (8308, 8313); (8320, 8329);
   (9312, 9320); (9332, 9340); (9352, 9360); (9450, 9450); (9461, 9469);
   (9471, 9471); (10102, 10110); (10112, 10120); (10122, 10130);
   (42528, 42537); (43216, 43225); (43264, 43273); (43472, 43481);
   (43504, 43513); (43600, 43609); (44016, 44025); (65296, 65305);
   (66720, 66729); (68160, 68163); (68912, 68921); (69216, 69224);
   (69714, 69722); (69734, 69743); (69872, 69881); (69942, 69951);
   (70096, 70105); (70384, 70393); (70736, 70745); (70864, 70873);
   (71248, 71257); (71360, 71369); (71472, 71481); (71904, 71913);
   (72016, 72025); (72784, 72793); (73040, 73049); (73120, 73129);
   (92768, 92777); (92864, 92873); (93008, 93017); (120782, 120831);
   (123200, 123209); (123632, 123641); (125264, 125273); (127232, 127242);
   (130032, 130041)].

Definition within (c : Z) (r : Z * Z) : bool := (fst r <=? c) && (c <=? snd r).

Definition is_space (c : Z) : bool := existsb (within c) space_ranges.

Definition is_digit (c : Z) : bool := existsb (within c) digit_ranges.

(** [unicodedata.decimal]: the value of a decimal digit. *)
Definition decimal (c : Z) : option Z :=
  match List.find (within c) decimal_ranges with
  | Some r => Some ((c - fst r) mod 10)
  | None => None
  end.

(** *** UTF-8 *)

Definition byte (b : ascii) : Z := Z.of_N (N_of_ascii b).

Definition continuation (b : ascii) : bool := (128 <=? byte b) && (byte b <? 192).

Definition low_bits (b : ascii) : Z := byte b - 128.

(** A byte that starts no character stands for a code point that is no
    character, as with [errors='surrogateescape']. *)
Definition stray (b : ascii) : Z := 56320 + byte b.

(** The characters of a text, each with its code point and its encoding.
    The shortest encoding only is accepted, and no surrogate. *)
Fixpoint chars (s : string) : list (Z * string) :=
  match s with
  | EmptyString => []
  | String b0 s0 =>
      let n0 := byte b0 in
      let single :=
        ((if n0 <? 128 then n0 else stray b0), String b0 EmptyString) :: chars s0 in
      match s0 with
      | String b1 s1 =>
          let c2 := (n0 - 192) * 64 + low_bits b1 in
          if (194 <=? n0) && (n0 <? 224) && continuation b1 then
            (c2, String b0 (String b1 EmptyString)) :: chars s1
          else
            match s1 with
            | String b2 s2 =>
                let c3 := ((n0 - 224) * 64 + low_bits b1) * 64 + low_bits b2 in
                if (224 <=? n0) && (n0 <? 240) && continuation b1 && continuation b2
                   && (2048 <=? c3) && negb ((55296 <=? c3) && (c3 <? 57344)) then
                  (c3, String b0 (String b1 (String b2 EmptyString))) :: chars s2
                else
                  match s2 with
                  | String b3 s3 =>
                      let c4 :=
                        (((n0 - 240) * 64 + low_bits b1) * 64 + low_bits b2) * 64
                        + low_bits b3 in
                      if (240 <=? n0) && (n0 <? 248) && continuation b1
                         && continuation b2 && continuation b3
                         && (65536 <=? c4) && (c4 <? 1114112) then
                        (c4, String b0 (String b1 (String b2 (String b3 EmptyString))))
                        :: chars s3
                      else single
                  | EmptyString => single
                  end
            | EmptyString => single
            end
      | EmptyString => single
      end
  end.

(** The text of a list of characters. *)
Fixpoint text (cs : list (Z * string)) : string :=
  match cs with
  | [] => EmptyString
  | c :: cs' => snd c +:+ text cs'
  end.

End Unicode.

(* ===================================================================== *)
(** ** Python values *)
(* ===================================================================== *)

Module Py.

(** Exceptions the program can meet.  [RequestException] stands for the
    [requests.RequestException] hierarchy (connection errors, timeouts and the
    [HTTPError] of [raise_for_status]); [JSONDecodeError] is the one of
    [requests], which is a [RequestException] and a [ValueError] at once (as
    are [InvalidURL] and [MissingSchema]); [OtherException] is any other
    exception. *)
Inductive exn : Type :=
| KeyError
| TypeError
| AttributeError
| ValueError
| OverflowError
| ZeroDivisionError
| RecursionError
| RequestException
| JSONDecodeError
| OtherException.

(** [isinstance(e, ValueError)] and [isinstance(e, requests.RequestException)] *)
Definition is_ValueError (e : exn) : bool :=
  match e with ValueError | JSONDecodeError => true | _ => false end.

Definition is_RequestException (e : exn) : bool :=
  match e with RequestException | JSONDecodeError => true | _ => false end.

(** A computation that either raises or returns. *)
Inductive result (A : Type) : Type :=
| Raise (e : exn)
| Return (a : A).
Arguments Raise {A} e.
Arguments Return {A} a.

Definition bind {A B} (r : result A) (k : A -> result B) : result B :=
  match r with
  | Raise e => Raise e
  | Return a => k a
  end.

(** *** Floats

    A finite float is given by the rational it stands for; the sign of a
    zero is not kept (no comparison of the program tells the two zeros
    apart). *)
Inductive float : Type :=
| Finite (q : Q)
| Infinity (negative : bool)
| NaN.

(** The largest [e] with [2 ^ e <= a / b], for positive [a] and [b]. *)
Definition floor_log2 (a b : Z) : Z :=
  let e := Z.log2 a - Z.log2 b in
  if (if 0 <=? e then b * 2 ^ e <=? a else b <=? a * 2 ^ (- e)) then e else e - 1.

(** [n / d] rounded to the nearest integer, a tie going to the even one. *)
Definition round_half_even (n d : Z) : Z :=
  let q := n / d in
  let r := n mod d in
  if (d <? 2 * r) || ((d =? 2 * r) && Z.odd q) then q + 1 else q.

(** The binary64 number nearest to [a / b], for positive [a] and [b]: a
    significand [m] of at most 53 bits and an exponent [u] of [- 1074] at
    least, standing for [m * 2 ^ u]. *)
Definition nearest (a b : Z) : Z * Z :=
  let u := Z.max (floor_log2 a b - 52) (- 1074) in
  (if 0 <=? u then round_half_even a (b * 2 ^ u)
   else round_half_even (a * 2 ^ (- u)) b, u).

Definition scaled (m u : Z) : Q :=
  if 0 <=? u then inject_Z (m * 2 ^ u) else Qmake m (Z.to_pos (2 ^ (- u))).

(** A rational rounded to binary64; past the largest float, an infinity. *)
Definition round (q : Q) : float :=
  let a := Z.abs (Qnum q) in
  if a =? 0 then Finite (Qmake 0 1)
  else
    let (m, u) := nearest a (Zpos (Qden q)) in
    if (0 <? m) && (1024 <=? Z.log2 m + u) then Infinity (Qnum q <? 0)
    else Finite (scaled (Z.sgn (Qnum q) * m) u).

(** [a / b] for two integers: the quotient, correctly rounded; a quotient
    that rounds past the largest float raises [OverflowError]. *)
Definition true_div (a b : Z) : result float :=
  if b =? 0 then Raise ZeroDivisionError
  else
    match round (Qmake (Z.sgn b * a) (Z.to_pos (Z.abs b))) with
    | Infinity _ => Raise OverflowError
    | f => Return f
    end.

Definition is_zero (f : float) : bool :=
  match f with Finite q => Qeq_bool q (Qmake 0 1) | _ => false end.

Definition is_negative (f : float) : bool :=
  match f with
  | Finite q => Qnum q <? 0
  | Infinity negative => negative
  | NaN => false
  end.

(** [x * y] for two floats: an overflow gives an infinity, and raises
    nothing. *)
Definition fmul (x y : float) : float :=
  match x, y with
  | NaN, _ | _, NaN => NaN
  | Finite p, Finite q => round (Qmult p q)
  | _, _ =>
      if is_zero x || is_zero y then NaN
      else Infinity (xorb (is_negative x) (is_negative y))
  end.

(** [x == y] for two floats, and for a float and an integer. *)
Definition float_eq (x y : float) : bool :=
  match x, y with
  | Finite p, Finite q => Qeq_bool p q
  | Infinity a, Infinity b => Bool.eqb a b
  | _, _ => false
  end.

Definition float_eq_int (x : float) (n : Z) : bool := float_eq x (Finite (inject_Z n)).

(** [int(x)] for a float: the fraction is dropped. *)
Definition int_of_float (x : float) : result Z :=
  match x with
  | Finite q => Return (Z.quot (Qnum q) (Zpos (Qden q)))
  | Infinity _ => Raise OverflowError
  | NaN => Raise ValueError
  end.

(** *** Parsed JSON

    What [r.json()] delivers: [None], [bool], [int], [str], [list], [dict]
    and [float] (the parser accepts [NaN], [Infinity] and [-Infinity]).  A
    [dict] keeps its items in an association list whose keys are pairwise
    distinct, looked up from the front. *)
Inductive json : Type :=
| JNull
| JBool (b : bool)
| JNum (n : Z)
| JStr (s : string)
| JArr (l : list json)
| JObj (o : list (string * json))
| JFloat (x : float).

Definition empty_dict : json := JObj [].

Fixpoint assoc {A} (k : string) (o : list (string * A)) : option A :=
  match o with
  | [] => None
  | (k', v) :: o' => if String.eqb k k' then Some v else assoc k o'
  end.

(** [bool(v)]: the values Python treats as false are [None], [False], the
    zeros, the empty string, the empty list and the empty dict. *)
Definition truthy (v : json) : bool :=
  match v with
  | JNull => false
  | JBool b => b
  | JNum n => negb (n =? 0)
  | JStr s => negb (String.eqb s "")
  | JArr l => match l with [] => false | _ => true end
  | JObj o => match o with [] => false | _ => true end
  | JFloat x => negb (is_zero x)
  end.

Definition bool_to_Z (b : bool) : Z := if b then 1 else 0.

(** The comparison behind [==].  [bool] is a subclass of [int], so
    [True == 1] and [False == 0], and an integer equals the float of the same
    value; lists compare element by element, dicts as maps.  [NaN] differs
    from itself; but the elements of a list and the values of a dict are first
    compared by identity, and every [NaN] of the parser is one and the same
    object: [same] tells whether the two values stand at such a place. *)
Fixpoint rich_eq (same : bool) (a b : json) {struct a} : bool :=
  match a, b with
  | JNull, JNull => true
  | JBool x, JBool y => Bool.eqb x y
  | JBool x, JNum n => bool_to_Z x =? n
  | JNum n, JBool y => n =? bool_to_Z y
  | JNum n, JNum m => n =? m
  | JFloat NaN, JFloat NaN => same
  | JFloat x, JFloat y => float_eq x y
  | JFloat x, JNum n => float_eq_int x n
  | JNum n, JFloat y => float_eq_int y n
  | JFloat x, JBool b => float_eq_int x (bool_to_Z b)
  | JBool b, JFloat y => float_eq_int y (bool_to_Z b)
  | JStr s, JStr t => String.eqb s t
  | JArr l, JArr m =>
      (fix all2 (l : list json) (m : list json) {struct l} : bool :=
         match l, m with
         | [], [] => true
         | x :: l', y :: m' => rich_eq true x y && all2 l' m'
         | _, _ => false
         end) l m
  | JObj o, JObj p =>
      (length o =? length p)%nat &&
      (fix sub (o : list (string * json)) {struct o} : bool :=
         match o with
         | [] => true
         | (k, v) :: o' =>
             match assoc k p with
             | Some w => rich_eq true v w && sub o'
             | None => false
             end
         end) o
  | _, _ => false
  end.

(** [a == b] and [a != b] *)
Definition py_eq (a b : json) : bool := rich_eq false a b.

Definition py_ne (a b : json) : bool := negb (py_eq a b).

(** [v is not None] *)
Definition is_not_None (v : json) : bool :=
  match v with JNull => false | _ => true end.

(** [d.get(k, default)] on an arbitrary value: only a dict has [get]. *)
Definition get (d : json) (k : string) (default : json) : result json :=
  match d with
  | JObj o => Return (match assoc k o with Some v => v | None => default end)
  | _ => Raise AttributeError
  end.

(** [d[k]]: a dict raises [KeyError] on a missing key; a list, a string, a
    number or [None] subscripted by a string raise [TypeError]. *)
Definition getitem (d : json) (k : string) : result json :=
  match d with
  | JObj o => match assoc k o with Some v => Return v | None => Raise KeyError end
  | _ => Raise TypeError
  end.

(** [isinstance(v, dict)] *)
Definition is_dict (v : json) : bool :=
  match v with JObj _ => true | _ => false end.

(** [k in d] for a dict [d]. *)
Definition contains (o : list (string * json)) (k : string) : bool :=
  match assoc k o with Some _ => true | None => false end.

(** [a or b] *)
Definition py_or (a b : json) : json := if truthy a then a else b.

(** *** Strings *)

(** [s.split(sep)] for a one-character separator: never the empty list. *)
Fixpoint split (sep : ascii) (s : string) : list string :=
  match s with
  | EmptyString => [EmptyString]
  | String c s' =>
      if Ascii.eqb c sep then EmptyString :: split sep s'
      else match split sep s' with
           | [] => [String c EmptyString]
           | w :: ws => String c w :: ws
           end
  end.

(** [s.isdigit()]: at least one character, and digits only. *)
Definition isdigit (s : string) : bool :=
  match Unicode.chars s with
  | [] => false
  | cs => forallb (fun c => Unicode.is_digit (fst c)) cs
  end.

Fixpoint drop_spaces (cs : list (Z * string)) : list (Z * string) :=
  match cs with
  | c :: cs' => if Unicode.is_space (fst c) then drop_spaces cs' else cs
  | [] => []
  end.

(** [s.strip()]: the white space at both ends is removed. *)
Definition strip (s : string) : string :=
  Unicode.text (rev (drop_spaces (rev (drop_spaces (Unicode.chars s))))).

(** What [int] makes of a character before it reads the number: below 127
    the character itself, a space for white space, the ASCII digit for a
    decimal digit, and a question mark for anything else. *)
Definition to_ascii (c : Z) : Z :=
  if c <? 127 then c
  else if Unicode.is_space c then 32
  else match Unicode.decimal c with
       | Some d => 48 + d
       | None => 63
       end.

(** The white space [int] skips at both ends of the number: tab, line feed,
    vertical tab, form feed, carriage return and space. *)
Definition is_blank (c : Z) : bool := ((9 <=? c) && (c <=? 13)) || (c =? 32).

Definition is_ascii_digit (c : Z) : bool := (48 <=? c) && (c <=? 57).

Fixpoint skip_blanks (l : list Z) : list Z :=
  match l with
  | c :: l' => if is_blank c then skip_blanks l' else l
  | [] => []
  end.

(** Digits with single underscores allowed between them, then blanks to the
    end; [prev_digit] tells whether the character just read was a digit. *)
Fixpoint int_body (prev_digit : bool) (acc : Z) (l : list Z) : option Z :=
  match l with
  | [] => if prev_digit then Some acc else None
  | c :: l' =>
      if is_ascii_digit c then int_body true (10 * acc + (c - 48)) l'
      else if c =? 95 then
             if prev_digit then int_body false acc l' else None
           else if prev_digit && forallb is_blank l then Some acc else None
  end.

(** The most digits [int] reads and [str] writes. *)
Definition max_str_digits : Z := 4300.

(** [int(s)] for a string: [None] stands for [ValueError]. *)
Definition int_of_str (s : string) : option Z :=
  let l := skip_blanks (map (fun c => to_ascii (fst c)) (Unicode.chars s)) in
  if Z.of_nat (length (List.filter is_ascii_digit l)) <=? max_str_digits then
    match l with
    | [] => None
    | c :: l' =>
        if c =? 45 then option_map Z.opp (int_body false 0 l')
        else if c =? 43 then int_body false 0 l'
        else int_body false 0 l
    end
  else None.

(** [int(v)] for a parsed value. *)
Definition int (v : json) : result Z :=
  match v with
  | JNum n => Return n
  | JBool b => Return (bool_to_Z b)
  | JStr s => match int_of_str s with Some n => Return n | None => Raise ValueError end
  | JFloat x => int_of_float x
  | _ => Raise TypeError
  end.

(** A decimal number as one writes it, one to 4300 ASCII digits, and the
    number it writes. *)
Fixpoint all_ascii_digits (s : string) : bool :=
  match s with
  | EmptyString => true
  | String c s' => is_ascii_digit (Unicode.byte c) && all_ascii_digits s'
  end.

Definition is_decimal (s : string) : bool :=
  negb (String.eqb s "") && all_ascii_digits s &&
  (Z.of_nat (String.length s) <=? max_str_digits).

Fixpoint decimal_value_from (acc : Z) (s : string) : Z :=
  match s with
  | EmptyString => acc
  | String c s' => decimal_value_from (10 * acc + (Unicode.byte c - 48)) s'
  end.

Definition decimal_value (s : string) : Z := decimal_value_from 0 s.

(** *** Tuples of integers, ordered as Python orders tuples *)

Fixpoint tuple_le (a b : list Z) : bool :=
  match a, b with
  | [], _ => true
  | _ :: _, [] => false
  | x :: a', y :: b' =>
      if x <? y then true else if y <? x then false else tuple_le a' b'
  end.

(** *** [sorted(l, key=...)], on a list already paired with its keys.

    [sorted] is stable: an element stays in front of every later element
    whose key is not smaller. *)
Fixpoint insert_by_key {A} (x : list Z * A) (l : list (list Z * A)) : list (list Z * A) :=
  match l with
  | [] => [x]
  | y :: l' =>
      if tuple_le (fst x) (fst y) then x :: y :: l' else y :: insert_by_key x l'
  end.

(** The order [sorted] establishes between keyed elements. *)
Definition key_le {A} (x y : list Z * A) : Prop := tuple_le (fst x) (fst y) = true.

Fixpoint sort_by_key {A} (l : list (list Z * A)) : list (list Z * A) :=
  match l with
  | [] => []
  | x :: l' => insert_by_key x (sort_by_key l')
  end.

(** Applies a fallible function to every element, stopping at the first
    exception. *)
Fixpoint map_result {A B} (f : A -> result B) (l : list A) : result (list B) :=
  match l with
  | [] => Return []
  | x :: l' =>
      match f x with
      | Raise e => Raise e
      | Return y =>
          match map_result f l' with
          | Raise e => Raise e
          | Return ys => Return (y :: ys)
          end
      end
  end.

Definition sorted {A} (key : A -> result (list Z)) (l : list A) : result (list A) :=
  match map_result (fun x => bind (key x) (fun k => Return (k, x))) l with
  | Raise e => Raise e
  | Return kl => Return (map snd (sort_by_key kl))
  end.

(** [try: r except <handles>: h] *)
Definition catch {A} (r : result A) (handles : exn -> bool) (h : result A) : result A :=
  match r with
  | Raise e => if handles e then h else Raise e
  | Return a => Return a
  end.

Definition any_exception (e : exn) : bool := true.

(** *** Dictionary keys

    The hashable parsed values, up to [==]: [True], [1] and [1.0] are one
    key, as are [False], [0] and [0.0].  A float that is no integer is a key
    of its own, given by its reduced fraction; so are the infinities, and so
    is [NaN], which a dict finds by identity.  Lists and dicts are
    unhashable. *)
Inductive key : Type :=
| KNone
| KInt (n : Z)
| KStr (s : string)
| KFrac (num : Z) (den : positive)
| KInf (negative : bool)
| KNaN.

Definition hash_float (x : float) : key :=
  match x with
  | Finite q =>
      match Qden (Qred q) with
      | xH => KInt (Qnum (Qred q))
      | d => KFrac (Qnum (Qred q)) d
      end
  | Infinity negative => KInf negative
  | NaN => KNaN
  end.

Definition hash_key (v : json) : result key :=
  match v with
  | JNull => Return KNone
  | JBool b => Return (KInt (bool_to_Z b))
  | JNum n => Return (KInt n)
  | JStr s => Return (KStr s)
  | JFloat x => Return (hash_float x)
  | JArr _ | JObj _ => Raise TypeError
  end.

#[global] Instance key_eq_dec : EqDecision key.
Proof. solve_decision. Defined.

Definition key_encode (k : key) : unit + (Z + (string + (Z * positive + (bool + unit)))) :=
  match k with
  | KNone => inl tt
  | KInt n => inr (inl n)
  | KStr s => inr (inr (inl s))
  | KFrac n d => inr (inr (inr (inl (n, d))))
  | KInf b => inr (inr (inr (inr (inl b))))
  | KNaN => inr (inr (inr (inr (inr tt))))
  end.

Definition key_decode (x : unit + (Z + (string + (Z * positive + (bool + unit))))) : key :=
  match x with
  | inl _ => KNone
  | inr (inl n) => KInt n
  | inr (inr (inl s)) => KStr s
  | inr (inr (inr (inl (n, d)))) => KFrac n d
  | inr (inr (inr (inr (inl b)))) => KInf b
  | inr (inr (inr (inr (inr _)))) => KNaN
  end.

#[global] Instance key_countable : Countable key.
Proof.
  refine (inj_countable' key_encode key_decode _).
  intros []; reflexivity.
Defined.

(** What iterating over a value yields: the elements of a list, the keys of
    a dict, the characters of a string; anything else is not iterable. *)
Definition iter (v : json) : result (list json) :=
  match v with
  | JArr l => Return l
  | JObj o => Return (map (fun kv => JStr (fst kv)) o)
  | JStr s => Return (map (fun c => JStr (snd c)) (Unicode.chars s))
  | _ => Raise TypeError
  end.

End Py.
(* ===================================================================== *)
(** ** [hashlib.md5] and [hashlib.sha256] *)
(* ===================================================================== *)

Module Hash.

(** Bytes are integers in [0, 256); words are integers in [0, 2^32). *)
Definition bytes_of_string (s : string) : list Z :=
  map (fun c => Z.of_N (N_of_ascii c)) (list_ascii_of_string s).

Definition w32 (x : Z) : Z := x mod 4294967296.
Definition add32 (x y : Z) : Z := w32 (x + y).
Definition not32 (x : Z) : Z := Z.lxor x 4294967295.
Definition rotl32 (x n : Z) : Z :=
  Z.lor (w32 (Z.shiftl x n)) (Z.shiftr x (32 - n)).
Definition rotr32 (x n : Z) : Z :=
  Z.lor (Z.shiftr x n) (w32 (Z.shiftl x (32 - n))).

(** The [n] low bytes of [x], least significant first. *)
Fixpoint le_bytes (n : nat) (x : Z) : list Z :=
  match n with
  | O => []
  | S n' => x mod 256 :: le_bytes n' (x / 256)
  end.

Definition be_bytes (n : nat) (x : Z) : list Z := rev (le_bytes n x).

Definition le_word (bs : list Z) : Z :=
  fold_right (fun b acc => b + 256 * acc) 0 bs.

Definition be_word (bs : list Z) : Z :=
  fold_left (fun acc b => 256 * acc + b) bs 0.

(** Message padding shared by both functions: a [0x80] byte, zeros up to 56
    modulo 64, then the bit length on 8 bytes in the byte order [len_bytes]. *)
Definition pad (len_bytes : nat -> Z -> list Z) (msg : list Z) : list Z :=
  let n := Z.of_nat (length msg) in
  msg ++ [128] ++ repeat 0 (Z.to_nat ((55 - n) mod 64)) ++ len_bytes 8%nat (8 * n).

(** Cuts a list into consecutive pieces of [k] elements; [fuel] bounds the
    number of pieces. *)
Fixpoint chunks {A} (fuel k : nat) (l : list A) : list (list A) :=
  match fuel with
  | O => []
  | S fuel' =>
      match l with
      | [] => []
      | _ => firstn k l :: chunks fuel' k (skipn k l)
      end
  end.

Definition blocks (word : list Z -> Z) (m : list Z) : list (list Z) :=
  map (fun blk => map word (chunks 16 4 blk)) (chunks (length m) 64 m).

Definition hex_digit (n : Z) : ascii :=
  if n <? 10 then ascii_of_N (Z.to_N (48 + n)) else ascii_of_N (Z.to_N (87 + n)).

Fixpoint hex (bs : list Z) : string :=
  match bs with
  | [] => EmptyString
  | b :: bs' => String (hex_digit (b / 16)) (String (hex_digit (b mod 16)) (hex bs'))
  end.

(** The alphabet of [hexdigest]: decimal digits and the letters a to f. *)
Definition is_lower_hex (c : ascii) : bool :=
  let n := Z.of_N (N_of_ascii c) in
  ((48 <=? n) && (n <=? 57)) || ((97 <=? n) && (n <=? 102)).

Fixpoint all_chars (p : ascii -> bool) (s : string) : bool :=
  match s with
  | EmptyString => true
  | String c s' => p c && all_chars p s'
  end.

(** *** MD5 (RFC 1321) *)

Definition md5_K : list Z :=
    [3614090360; 3905402710; 606105819; 3250441966; 4118548399; 1200080426;
     2821735955; 4249261313; 1770035416; 2336552879; 4294925233; 2304563134;
     1804603682; 4254626195; 2792965006; 1236535329; 4129170786; 3225465664;
     643717713; 3921069994; 3593408605; 38016083; 3634488961; 3889429448;
     568446438; 3275163606; 4107603335; 1163531501; 2850285829; 4243563512;
     1735328473; 2368359562; 4294588738; 2272392833; 1839030562; 4259657740;
     2763975236; 1272893353; 4139469664; 3200236656; 681279174; 3936430074;
     3572445317; 76029189; 3654602809; 3873151461; 530742520; 3299628645;
     4096336452; 1126891415; 2878612391; 4237533241; 1700485571; 2399980690;
     4293915773; 2240044497; 1873313359; 4264355552; 2734768916; 1309151649;
     4149444226; 3174756917; 718787259; 3951481745].

Definition md5_shift : list Z :=
  concat (map (fun r => r ++ r ++ r ++ r)
            [[7; 12; 17; 22]; [5; 9; 14; 20]; [4; 11; 16; 23]; [6; 10; 15; 21]]).

Definition md5_step (M : list Z) (st : Z * Z * Z * Z) (i : nat) : Z * Z * Z * Z :=
  let '(a, b, c, d) := st in
  let z := Z.of_nat i in
  let '(f, g) :=
    if z <? 16 then (Z.lor (Z.land b c) (Z.land (not32 b) d), z)
    else if z <? 32 then (Z.lor (Z.land d b) (Z.land (not32 d) c), (5 * z + 1) mod 16)
    else if z <? 48 then (Z.lxor (Z.lxor b c) d, (3 * z + 5) mod 16)
    else (Z.lxor c (Z.lor b (not32 d)), (7 * z) mod 16) in
  let f' := add32 (add32 (add32 f a) (nth i md5_K 0)) (nth (Z.to_nat g) M 0) in
  (d, add32 b (rotl32 f' (nth i md5_shift 0)), b, c).

Definition md5_block (h : Z * Z * Z * Z) (M : list Z) : Z * Z * Z * Z :=
  let '(a0, b0, c0, d0) := h in
  let '(a, b, c, d) := fold_left (md5_step M) (seq 0 64) h in
  (add32 a0 a, add32 b0 b, add32 c0 c, add32 d0 d).

Definition md5 (msg : list Z) : list Z :=
  let '(a, b, c, d) :=
    fold_left md5_block (blocks le_word (pad le_bytes msg))
      (1732584193, 4023233417, 2562383102, 271733878) in
  le_bytes 4 a ++ le_bytes 4 b ++ le_bytes 4 c ++ le_bytes 4 d.

(** [hashlib.md5(s.encode()).hexdigest()] *)
Definition md5_hexdigest (s : string) : string := hex (md5 (bytes_of_string s)).

(** *** SHA-256 (FIPS 180-4) *)

Definition sha256_K : list Z :=
    [1116352408; 1899447441; 3049323471; 3921009573; 961987163; 1508970993;
     2453635748; 2870763221; 3624381080; 310598401; 607225278; 1426881987;
     1925078388; 2162078206; 2614888103; 3248222580; 3835390401; 4022224774;
     264347078; 604807628; 770255983; 1249150122; 1555081692; 1996064986;
     2554220882; 2821834349; 2952996808; 3210313671; 3336571891; 3584528711;
     113926993; 338241895; 666307205; 773529912; 1294757372; 1396182291;
     1695183700; 1986661051; 2177026350; 2456956037; 2730485921; 2820302411;
     3259730800; 3345764771; 3516065817; 3600352804; 4094571909; 275423344;
     430227734; 506948616; 659060556; 883997877; 958139571; 1322822218;
     1537002063; 1747873779; 1955562222; 2024104815; 2227730452; 2361852424;
     2428436474; 2756734187; 3204031479; 3329325298].

Definition sha256_H0 : list Z :=
  [1779033703; 3144134277; 1013904242; 2773480762;
   1359893119; 2600822924; 528734635; 1541459225].

Definition xor3 (x y z : Z) : Z := Z.lxor (Z.lxor x y) z.
Definition Sigma0 (x : Z) : Z := xor3 (rotr32 x 2) (rotr32 x 13) (rotr32 x 22).
Definition Sigma1 (x : Z) : Z := xor3 (rotr32 x 6) (rotr32 x 11) (rotr32 x 25).
Definition sigma0 (x : Z) : Z := xor3 (rotr32 x 7) (rotr32 x 18) (Z.shiftr x 3).
Definition sigma1 (x : Z) : Z := xor3 (rotr32 x 17) (rotr32 x 19) (Z.shiftr x 10).
Definition Ch (x y z : Z) : Z := Z.lxor (Z.land x y) (Z.land (not32 x) z).
Definition Maj (x y z : Z) : Z := xor3 (Z.land x y) (Z.land x z) (Z.land y z).

(** The message schedule: 16 block words extended to 64. *)
Definition schedule_step (W : list Z) (t : nat) : list Z :=
  W ++ [add32 (add32 (sigma1 (nth (t - 2) W 0)) (nth (t - 7) W 0))
              (add32 (sigma0 (nth (t - 15) W 0)) (nth (t - 16) W 0))].

Definition schedule (M : list Z) : list Z := fold_left schedule_step (seq 16 48) M.

Definition sha256_step (W : list Z) (st : list Z) (t : nat) : list Z :=
  match st with
  | [a; b; c; d; e; f; g; h] =>
      let T1 := add32 (add32 (add32 h (Sigma1 e)) (Ch e f g))
                      (add32 (nth t sha256_K 0) (nth t W 0)) in
      let T2 := add32 (Sigma0 a) (Maj a b c) in
      [add32 T1 T2; a; b; c; add32 d T1; e; f; g]
  | _ => st
  end.

Fixpoint add32_all (xs ys : list Z) : list Z :=
  match xs, ys with
  | x :: xs', y :: ys' => add32 x y :: add32_all xs' ys'
  | _, _ => []
  end.

Definition sha256_block (h : list Z) (M : list Z) : list Z :=
  add32_all h (fold_left (sha256_step (schedule M)) (seq 0 64) h).

Definition sha256 (msg : list Z) : list Z :=
  concat (map (be_bytes 4)
            (fold_left sha256_block (blocks be_word (pad be_bytes msg)) sha256_H0)).

(** [hashlib.sha256(s.encode()).hexdigest()] *)
Definition sha256_hexdigest (s : string) : string := hex (sha256 (bytes_of_string s)).

End Hash.

(* ===================================================================== *)
(** ** The [requests] session *)
(* ===================================================================== *)

Module Http.
Import Py.

Record response : Type := {
  status_code : Z;
  headers : list (string * string);
  body : result json   (* what [r.json()] does: the parsed body, or the
                          exception raised, a [ValueError] when the body is
                          not JSON *)
}.

Inductive request : Type :=
| GET (url : string) (auth : option (string * string))
| POST (url : string) (payload : json).

Inductive outcome : Type :=
| Fails (e : exn)
| Responds (r : response).

(** The router, seen from the client: what it answers to a request, given
    the requests it has received before. *)
Definition network : Type := list request -> request -> outcome.

Definition url_of (rq : request) : string :=
  match rq with GET u _ => u | POST u _ => u end.

Definition is_post (rq : request) : bool :=
  match rq with POST _ _ => true | GET _ _ => false end.

(** [r.raise_for_status()]: an [HTTPError] for a 4xx or 5xx status. *)
Definition raise_for_status (r : response) : result unit :=
  if (400 <=? status_code r) && (status_code r <? 600)
  then Raise RequestException else Return tt.

(** [r.json()] *)
Definition json_of (r : response) : result json := body r.

Definition lower_ascii (c : ascii) : ascii :=
  let n := N_of_ascii c in
  if ((65 <=? n) && (n <=? 90))%N then ascii_of_N (n + 32) else c.

Fixpoint lower (s : string) : string :=
  match s with
  | EmptyString => EmptyString
  | String c s' => String (lower_ascii c) (lower s')
  end.

(** [r.headers.get(name, default)]: header names compare without case. *)
Fixpoint headers_get (hs : list (string * string)) (name default : string) : string :=
  match hs with
  | [] => default
  | (n, v) :: hs' =>
      if String.eqb (lower n) (lower name) then v else headers_get hs' name default
  end.

End Http.

(* ===================================================================== *)
(** ** Process state and the monad of the program *)
(* ===================================================================== *)

Module State.
Import Py Http.

(** The message of a status notification, by its fields. *)
Record notification : Type := {
  connected : bool;   (* the banner: connected / disconnected *)
  name : json;
  mac : json;
  ip : json;
  wifi : bool
}.

Inductive level : Type := INFO | WARNING | ERROR.

(** The module-level globals, with the requests issued, the messages handed
    to the chat API and the log lines written so far. *)
Record world : Type := {
  sent_requests : list request;
  ACTIVE_CLIENTS : list json;
  PREV_STATUS : gmap key json;
  outbox : list (Z * notification);
  log : list (level * string)
}.

Definition initial : world :=
  {| sent_requests := []; ACTIVE_CLIENTS := []; PREV_STATUS := ∅;
     outbox := []; log := [] |}.

Definition M (A : Type) : Type := world -> result A * world.

Definition ret {A} (a : A) : M A := fun w => (Return a, w).

Definition raise {A} (e : exn) : M A := fun w => (Raise e, w).

Definition lift {A} (r : result A) : M A := fun w => (r, w).

Definition mbind {A B} (m : M A) (k : A -> M B) : M B :=
  fun w =>
    match m w with
    | (Raise e, w') => (Raise e, w')
    | (Return a, w') => k a w'
    end.

(** [try: m except <handles>: h]; the effects of [m] up to the exception
    stay. *)
Definition try_except {A} (m : M A) (handles : exn -> bool) (h : M A) : M A :=
  fun w =>
    match m w with
    | (Raise e, w') => if handles e then h w' else (Raise e, w')
    | (Return a, w') => (Return a, w')
    end.

Definition logging (l : level) (msg : string) : M unit :=
  fun w =>
    (Return tt,
     {| sent_requests := sent_requests w; ACTIVE_CLIENTS := ACTIVE_CLIENTS w;
        PREV_STATUS := PREV_STATUS w; outbox := outbox w;
        log := log w ++ [(l, msg)] |}).

Definition set_ACTIVE_CLIENTS (l : list json) : M unit :=
  fun w =>
    (Return tt,
     {| sent_requests := sent_requests w; ACTIVE_CLIENTS := l;
        PREV_STATUS := PREV_STATUS w; outbox := outbox w; log := log w |}).

Definition get_ACTIVE_CLIENTS : M (list json) := fun w => (Return (ACTIVE_CLIENTS w), w).

Definition get_PREV_STATUS : M (gmap key json) := fun w => (Return (PREV_STATUS w), w).

Definition set_PREV_STATUS (m : gmap key json) : M unit :=
  fun w =>
    (Return tt,
     {| sent_requests := sent_requests w; ACTIVE_CLIENTS := ACTIVE_CLIENTS w;
        PREV_STATUS := m; outbox := outbox w; log := log w |}).

Definition post_message (user_id : Z) (n : notification) : M unit :=
  fun w =>
    (Return tt,
     {| sent_requests := sent_requests w; ACTIVE_CLIENTS := ACTIVE_CLIENTS w;
        PREV_STATUS := PREV_STATUS w; outbox := outbox w ++ [(user_id, n)];
        log := log w |}).

(** One HTTP exchange: the router answers, the request joins the trace, and
    a transport failure is raised. *)
Definition exchange (net : network) (rq : request) : M response :=
  fun w =>
    let w' :=
      {| sent_requests := sent_requests w ++ [rq]; ACTIVE_CLIENTS := ACTIVE_CLIENTS w;
         PREV_STATUS := PREV_STATUS w; outbox := outbox w; log := log w |} in
    match net (sent_requests w) rq with
    | Fails e => (Raise e, w')
    | Responds r => (Return r, w')
    end.

(** [for x in l: body x], left at the first exception. *)
Fixpoint for_each {A} (l : list A) (body : A -> M unit) : M unit :=
  match l with
  | [] => ret tt
  | x :: l' => mbind (body x) (fun _ => for_each l' body)
  end.

End State.

Declare Scope py_scope.
Delimit Scope py_scope with py.
Notation "'let*' x ':=' m 'in' k" :=
  (State.mbind m (fun x => k))
  (at level 10, x name, m at level 100, k at level 200) : py_scope.
Notation "m ';;' k" :=
  (State.mbind m (fun _ => k))
  (at level 100, k at level 200, right associativity) : py_scope.

(* ===================================================================== *)
(** ** The router client *)
(* ===================================================================== *)

Module Keenetic.
Import Py Http State.
Local Open Scope py_scope.

Record config : Type := {
  WIFI_HOST : string;
  WIFI_LOGIN : string;
  WIFI_PASSWORD : string;
  ALLOWED_USERS : list Z
}.

Definition auth_url (cfg : config) : string := WIFI_HOST cfg +:+ "/auth".

Definition rci_url (cfg : config) (path : string) : string :=
  WIFI_HOST cfg +:+ "/rci/show/" +:+ path.

(** The request of [keen_get]: the login and the password travel as HTTP
    basic credentials. *)
Definition query (cfg : config) (path : string) : request :=
  GET (rci_url cfg path) (Some (WIFI_LOGIN cfg, WIFI_PASSWORD cfg)).

Definition probe (cfg : config) : request := GET (auth_url cfg) None.

Definition login_request (cfg : config) (digest : string) : request :=
  POST (auth_url cfg)
    (JObj [("login", JStr (WIFI_LOGIN cfg)); ("password", JStr digest)]).

(** The digest of the handshake: the two [hashlib] lines of [keen_auth]. *)
Definition auth_digest (login password realm challenge : string) : string :=
  let md5 := Hash.md5_hexdigest (login +:+ ":" +:+ realm +:+ ":" +:+ password) in
  Hash.sha256_hexdigest (challenge +:+ md5).

(** [ip_sort], the sort key of [update_clients]. *)
Definition ip_sort (dev : json) : result (list Z) :=
  bind (get dev "ip" (JStr "0.0.0.0")) (fun ip =>
    catch
      (match ip with
       | JStr s =>
           map_result
             (fun x => match int_of_str x with
                       | Some n => Return n
                       | None => Raise ValueError
                       end)
             (List.filter isdigit (split "."%char s))
       | _ => Raise AttributeError
       end)
      any_exception
      (Return [0; 0; 0; 0])).

(** An address made of four dot-separated decimal numbers. *)
Definition dotted_quad (s : string) : bool :=
  match split "."%char s with
  | [a; b; c; d] => is_decimal a && is_decimal b && is_decimal c && is_decimal d
  | _ => false
  end.

(** The key of a device, [()] standing in where [ip_sort] raises. *)
Definition sort_key (dev : json) : list Z :=
  match ip_sort dev with
  | Return k => k
  | Raise _ => []
  end.

Section Client.

Variable cfg : config.
Variable net : network.

Definition keen_get (path : string) : M json :=
  try_except
    (let* r := exchange net (query cfg path) in
     lift (raise_for_status r) ;;
     try_except (lift (json_of r)) is_ValueError
       (logging ERROR "JSON decode error" ;; ret empty_dict))
    is_RequestException
    (logging ERROR "Keenetic request failed" ;; ret empty_dict).

Definition keen_auth : M bool :=
  try_except
    (let* r := exchange net (probe cfg) in
     if status_code r =? 200 then ret true
     else if status_code r =? 401 then
       let realm := headers_get (headers r) "X-NDM-Realm" "" in
       let challenge := headers_get (headers r) "X-NDM-Challenge" "" in
       if negb (truthy (JStr realm)) || negb (truthy (JStr challenge)) then
         logging ERROR "No auth headers in response" ;; ret false
       else
         let sha := auth_digest (WIFI_LOGIN cfg) (WIFI_PASSWORD cfg) realm challenge in
         let* r2 := exchange net (login_request cfg sha) in
         ret (status_code r2 =? 200)
     else logging ERROR "Auth failed" ;; ret false)
    any_exception
    (logging ERROR "Auth exception" ;; ret false).

Definition update_clients : M unit :=
  try_except
    (let* data := keen_get "device-list" in
     if negb (truthy data) then
       logging WARNING "No data from device-list" ;; set_ACTIVE_CLIENTS []
     else
       let* hosts := lift (get data "host" (JArr [])) in
       if negb (truthy hosts) then
         logging WARNING "No hosts in device-list" ;; set_ACTIVE_CLIENTS []
       else
         let* l := lift (bind (iter hosts) (sorted ip_sort)) in
         set_ACTIVE_CLIENTS l)
    any_exception
    (logging ERROR "Error updating clients" ;; set_ACTIVE_CLIENTS []).

End Client.

End Keenetic.

(* ===================================================================== *)
(** ** Memory accounting of the [start] handler *)
(* ===================================================================== *)

Module Memory.
Import Py.

Record usage : Type := {
  used_mb : float;
  total_mb : float;
  mem_percent : float
}.

(** [(part / whole * 100) if whole > 0 else 0]; the integer [0] of the
    [else] branch is written as the float of the same value, which [.1f]
    renders alike. *)
Definition percent (part whole : Z) : result float :=
  if 0 <? whole then
    bind (true_div part whole) (fun q => Return (fmul q (Finite (inject_Z 100))))
  else Return (Finite (Qmake 0 1)).

(** Lines 326 to 330, and 339 to 343. *)
Definition account (used_kb total_kb : Z) : result usage :=
  bind (true_div used_kb 1024) (fun used_mb =>
  bind (true_div total_kb 1024) (fun total_mb =>
  bind (percent used_kb total_kb) (fun mem_percent =>
  Return {| used_mb := used_mb; total_mb := total_mb; mem_percent := mem_percent |}))).

(** [used_kb, total_kb = map(int, memory_str.split('/'))] *)
Definition parse_combined (memory_str : json) : result (Z * Z) :=
  match memory_str with
  | JStr s =>
      match split "/"%char s with
      | [a; b] =>
          match int_of_str a, int_of_str b with
          | Some used_kb, Some total_kb => Return (used_kb, total_kb)
          | _, _ => Raise ValueError
          end
      | _ => Raise ValueError
      end
  | _ => Raise AttributeError
  end.

(** [except (ValueError, AttributeError)] *)
Definition handled (e : exn) : bool :=
  is_ValueError e || match e with AttributeError => true | _ => false end.

(** [sys_info.get(k, default)], with the key added to the list of the keys
    read so far. *)
Definition read (sys_info : json) (k : string) (default : json)
    (reads : list string) : result json * list string :=
  (get sys_info k default, reads ++ [k]).

(** Lines 320 to 343 of [start]: the usage, and the keys of [sys_info] read
    on the way.  The handler of the [try] covers the parsing and the
    accounting of the parsed pair. *)
Definition memory_usage (sys_info : json) : result usage * list string :=
  match read sys_info "memory" (JStr "0/0") [] with
  | (Raise e, reads) => (Raise e, reads)
  | (Return memory_str, reads) =>
      match bind (parse_combined memory_str)
              (fun parsed => account (fst parsed) (snd parsed)) with
      | Return u => (Return u, reads)
      | Raise e =>
          if handled e then
            match read sys_info "memtotal" (JNum 0) reads with
            | (Raise e', reads) => (Raise e', reads)
            | (Return t, reads) =>
                match int t with
                | Raise e' => (Raise e', reads)
                | Return mem_total =>
                    match read sys_info "memfree" (JNum 0) reads with
                    | (Raise e', reads) => (Raise e', reads)
                    | (Return f, reads) =>
                        match int f with
                        | Raise e' => (Raise e', reads)
                        | Return mem_free =>
                            (account (mem_total - mem_free) mem_total, reads)
                        end
                    end
                end
            end
          else (Raise e, reads)
      end
  end.

End Memory.

(* ===================================================================== *)
(** ** The presence monitor *)
(* ===================================================================== *)

Module Monitor.
Import Py Http State Keenetic.
Local Open Scope py_scope.

Section Loop.

Variable cfg : config.
Variable net : network.
(** Whether the chat API accepts a message for a user. *)
Variable deliver : Z -> notification -> bool.

(** The inner [for user_id in ALLOWED_USERS] loop: a failed delivery is
    logged and the next user is served. *)
Definition notify_all (n : notification) : M unit :=
  for_each (ALLOWED_USERS cfg) (fun user_id =>
    try_except
      (post_message user_id n ;;
       if deliver user_id n then logging INFO "Status notification sent"
       else raise OtherException)
      any_exception
      (logging ERROR "Failed to send status message")).

(** [prev is not None and prev != current] *)
Definition changed (prev current : json) : bool :=
  is_not_None prev && py_ne prev current.

(** The fields of the message built for a device whose status changed. *)
Definition describe (d mac current : json) : result notification :=
  bind (get d "name" JNull) (fun nm =>
  bind (get d "hostname" JNull) (fun hn =>
  bind (get d "ip" (JStr "—")) (fun ip =>
  Return {| connected := truthy current;
            name := py_or (py_or nm hn) mac;
            mac := mac;
            ip := ip;
            wifi := match d with JObj o => contains o "ssid" | _ => false end |}))).

(** The body of [for d in ACTIVE_CLIENTS]. *)
Definition check_device (d : json) : M unit :=
  let* mac := lift (getitem d "mac") in
  let* k := lift (hash_key mac) in
  let* status := get_PREV_STATUS in
  let prev := match status !! k with Some v => v | None => JNull end in
  let* current := lift (get d "active" (JBool false)) in
  (if changed prev current then
     let* n := lift (describe d mac current) in
     notify_all n
   else ret tt) ;;
  let* status := get_PREV_STATUS in
  set_PREV_STATUS (<[k := current]> status).

(** The dictionary key under which a device is remembered, and the status
    recorded for it. *)
Definition device_key (d : json) : result key := bind (getitem d "mac") hash_key.

Definition device_status (d : json) : result json := get d "active" (JBool false).

(** One turn of [while True]. *)
Definition cycle : M unit :=
  try_except
    (update_clients cfg net ;;
     let* clients := get_ACTIVE_CLIENTS in
     for_each clients check_device)
    any_exception
    (logging ERROR "Error in status check").

(** The first [n] turns of the loop. *)
Fixpoint check_status_change (n : nat) : M unit :=
  match n with
  | O => ret tt
  | S n' => cycle ;; check_status_change n'
  end.

End Loop.

End Monitor.

(* ===================================================================== *)
(** ** Concrete routers and polls *)
(* ===================================================================== *)

Module Scenario.
Import Py Http State Keenetic.

Definition cfg0 : config :=
  {| WIFI_HOST := "http://192.168.1.1"; WIFI_LOGIN := "admin";
     WIFI_PASSWORD := "secret"; ALLOWED_USERS := [1001; 1002] |}.

Definition always (r : response) : network := fun _ _ => Responds r.

(** A router whose session has expired: every request is answered 401,
    with the two challenge headers. *)
Definition unauthorized : response :=
  {| status_code := 401;
     headers := [("X-NDM-Realm", "Keenetic Giga"); ("X-NDM-Challenge", "XYZCHALLENGE")];
     body := Raise ValueError |}.

(** A 401 that carries the challenge but no realm. *)
Definition unauthorized_no_realm : response :=
  {| status_code := 401;
     headers := [("Content-Type", "text/html"); ("X-NDM-Challenge", "XYZCHALLENGE")];
     body := Raise ValueError |}.



Definition not_found : response :=
  {| status_code := 404; headers := []; body := Return (JObj [("error", JStr "no such path")]) |}.

Definition device_list (hosts : list json) : response :=
  {| status_code := 200; headers := []; body := Return (JObj [("host", JArr hosts)]) |}.

(** A router that answers its [n]-th request with the [n]-th response of a
    script, and fails to answer once the script is over. *)
Definition scripted (script : list response) : network :=
  fun history _ =>
    match nth_error script (length history) with
    | Some r => Responds r
    | None => Fails RequestException
    end.

Definition accept_all : Z -> notification -> bool := fun _ _ => true.

Definition device (mac ip : string) (active : json) : json :=
  JObj [("mac", JStr mac); ("ip", JStr ip); ("active", active)].

(** A device whose record carries no ["ip"]. *)
Definition device_without_ip (mac : string) (active : json) : json :=
  JObj [("mac", JStr mac); ("active", active)].

(** The three devices of the sorting example, as the router lists them. *)
Definition three_hosts : list json :=
  [device "AA:00:00:00:00:05" "10.0.0.5" (JBool true);
   device "AA:00:00:00:00:20" "10.0.0.20" (JBool true);
   device_without_ip "AA:00:00:00:00:99" (JBool false)].

(** A device with a malformed address listed before one with a well-formed
    address. *)
Definition malformed_hosts : list json :=
  [device "BB:00:00:00:00:01" "10.0.0.x" (JBool true);
   device "BB:00:00:00:00:02" "9.9.9.9" (JBool true)].

(** The same host reported twice. *)
Definition duplicate_hosts : list json :=
  [device "CC:00:00:00:00:01" "10.0.0.7" (JBool true);
   device "CC:00:00:00:00:01" "10.0.0.7" (JBool true)].

(** A router that reports the status of one device as [null] in a first
    poll and as [true] in the next. *)
Definition null_then_true : network :=
  scripted [device_list [device "DD:00:00:00:00:01" "10.0.0.9" JNull];
            device_list [device "DD:00:00:00:00:01" "10.0.0.9" (JBool true)]].

(** The state of a process that has seen the device online. *)
Definition seen_online : world :=
  {| sent_requests := []; ACTIVE_CLIENTS := [];
     PREV_STATUS := {[ KStr "DD:00:00:00:00:01" := JBool true ]};
     outbox := []; log := [] |}.

(** A host array whose second entry, in address order, has no ["mac"]. *)
Definition hosts_with_faulty_entry : list json :=
  [device "EE:00:00:00:00:03" "10.0.0.3" (JBool true);
   JObj [("ip", JStr "10.0.0.2"); ("active", JBool true)];
   device "EE:00:00:00:00:01" "10.0.0.1" (JBool true)].



(** The decimal writing of ten to the power 320, a number too large for a
    float. *)
Definition huge : string := String "1"%char (string_of_list_ascii (repeat "0"%char 320)).

(** The device seen online, now reported offline, next to another one. *)
Definition gone_offline : list json :=
  [device "DD:00:00:00:00:01" "10.0.0.9" (JBool false);
   device "DD:00:00:00:00:02" "10.0.0.10" (JBool true)].

(** A device whose status is the float [NaN]. *)
Definition restless : json := device "DD:00:00:00:00:03" "10.0.0.11" (JFloat NaN).

End Scenario.

(* ===================================================================== *)
(** ** Text: rendering integers, joining, searching *)
(* ===================================================================== *)

Module Text.
Import Py.

Definition digit_char (d : Z) : ascii := ascii_of_N (Z.to_N (48 + d)).

(** The decimal digits of a natural number in front of [acc], most
    significant first; [fuel] bounds the number of digits. *)
Fixpoint render (fuel : nat) (n : Z) (acc : string) : string :=
  match fuel with
  | O => acc
  | S fuel' =>
      let acc' := String (digit_char (n mod 10)) acc in
      if n <? 10 then acc' else render fuel' (n / 10) acc'
  end.

Definition digits (n : Z) : string := render (S (Z.to_nat (Z.log2 n))) n "".

(** [str(n)] for an integer, as an f-string interpolates it. *)
Definition str_of_int (n : Z) : string :=
  if n <? 0 then String "-"%char (digits (- n)) else digits n.

(** [f"{n:02d}"]: at least two characters, zeros in front. *)
Definition fmt_02d (n : Z) : string :=
  if (0 <=? n) && (n <? 10) then String "0"%char (str_of_int n) else str_of_int n.

(** [str(n)] as the interpreter computes it: a number of more than 4300
    digits is not converted. *)
Definition render_int (n : Z) : result string :=
  if Z.abs n <? 10 ^ max_str_digits then Return (str_of_int n) else Raise ValueError.

(** [sep.join(l)] *)
Fixpoint join (sep : string) (l : list string) : string :=
  match l with
  | [] => ""
  | [x] => x
  | x :: l' => x +:+ sep +:+ join sep l'
  end.

(** [s.startswith(p)] *)
Definition startswith (p s : string) : bool := String.prefix p s.

(** [p in s] for two strings: [p] occurs in [s]. *)
Fixpoint is_substring (p s : string) : bool :=
  String.prefix p s ||
  match s with
  | EmptyString => false
  | String _ s' => is_substring p s'
  end.

(** The values that are neither a list nor a dict. *)
Definition is_scalar (v : json) : bool :=
  match v with
  | JArr _ | JObj _ => false
  | _ => true
  end.

(** The float that differs from itself. *)
Definition is_nan (v : json) : bool :=
  match v with
  | JFloat NaN => true
  | _ => false
  end.

(** [k in v]: a key of a dict, an element of a list, a substring of a
    string; the other values do not support [in]. *)
Definition py_in (k : string) (v : json) : result bool :=
  match v with
  | JObj o => Return (contains o k)
  | JArr l => Return (existsb (fun x => py_eq (JStr k) x) l)
  | JStr s => Return (is_substring k s)
  | _ => Raise TypeError
  end.

End Text.

(* ===================================================================== *)
(** ** Access control and small utilities *)
(* ===================================================================== *)

Module Utils.
Import Py Text.

(** The list comprehension that builds [ALLOWED_USERS] from the
    configuration string. *)
Definition parse_allowed_users (ALLOWED_USERS_STR : string) : result (list Z) :=
  map_result
    (fun user_id => match int_of_str (strip user_id) with
                    | Some n => Return n
                    | None => Raise ValueError
                    end)
    (List.filter (fun user_id => isdigit (strip user_id))
       (split ","%char ALLOWED_USERS_STR)).

(** [user_id in ALLOWED_USERS] *)
Definition is_user_allowed (allowed : list Z) (user_id : Z) : bool :=
  existsb (Z.eqb user_id) allowed.

(** [format_seconds]; [divmod] rounds towards minus infinity. *)
Definition format_seconds (s : Z) : string :=
  let days := s / 86400 in
  let rem := s mod 86400 in
  let hours := rem / 3600 in
  let rem := rem mod 3600 in
  let minutes := rem / 60 in
  let seconds := rem mod 60 in
  if 0 <? days then
    str_of_int days +:+ "д " +:+
    fmt_02d hours +:+ ":" +:+ fmt_02d minutes +:+ ":" +:+ fmt_02d seconds
  else
    fmt_02d hours +:+ ":" +:+ fmt_02d minutes +:+ ":" +:+ fmt_02d seconds.

End Utils.

(* ===================================================================== *)
(** ** The chat handlers, on the router's side *)
(* ===================================================================== *)

Module Handlers.
Import Py Http State Keenetic Text Utils.
Local Open Scope py_scope.

(** [[d for d in l if p(d)]], left at the first exception. *)
Fixpoint select (p : json -> result bool) (l : list json) : result (list json) :=
  match l with
  | [] => Return []
  | d :: l' =>
      bind (p d) (fun keep =>
      bind (select p l') (fun rest =>
      Return (if keep then d :: rest else rest)))
  end.

(** [d.get('active')] and [not d.get('active')] *)
Definition is_online (d : json) : result bool :=
  bind (get d "active" JNull) (fun v => Return (truthy v)).

Definition is_offline (d : json) : result bool :=
  bind (get d "active" JNull) (fun v => Return (negb (truthy v))).

(** ['ssid' in d] and ['ssid' not in d] *)
Definition is_wifi (d : json) : result bool := py_in "ssid" d.

Definition is_wired (d : json) : result bool :=
  bind (py_in "ssid" d) (fun b => Return (negb b)).

Record button : Type := {
  text : string;
  callback_data : string
}.

(** [items] of the nested search of [get_pppoe_ip]: the first value that is
    a dict with an ["address"] gives the result. *)
Fixpoint nested_address (items : list (string * json)) : json :=
  match items with
  | [] => JStr "—"
  | (_, JObj o) :: rest =>
      match assoc "address" o with
      | Some v => v
      | None => nested_address rest
      end
  | _ :: rest => nested_address rest
  end.

(** [data.items()] *)
Definition items (data : json) : result (list (string * json)) :=
  match data with
  | JObj o => Return o
  | _ => Raise AttributeError
  end.

(** The callback of a device button, line 245, for a mac that is a string. *)
Definition client_callback (mac list_type : string) : string :=
  "client_" +:+ mac +:+ "_" +:+ list_type.

(** Lines 436 to 438 of [button_handler]; [OtherException] is the
    [IndexError] of [parts[1]]. *)
Definition parse_client_callback (data : string) : result (string * string) :=
  let parts := split "_"%char data in
  match nth_error parts 1 with
  | Some mac => Return (mac, join "_" (skipn 2 parts))
  | None => Raise OtherException
  end.

(** [next((d for d in clients if d['mac'] == mac), None)], line 440. *)
Fixpoint find_client (clients : list json) (mac : string) : result (option json) :=
  match clients with
  | [] => Return None
  | d :: rest =>
      bind (getitem d "mac") (fun m =>
      if py_eq m (JStr mac) then Return (Some d) else find_client rest mac)
  end.

(** What [start] shows, by its fields. *)
Record dashboard : Type := {
  hostname : json;
  cpu_temp : string;
  cpu_load : json;
  memory : Memory.usage;
  uptime : string;
  wan_ip : json;
  conns_used : Z;
  conns_total : Z;
  conns_percent : float;
  online : nat;
  online_wifi : nat;
  online_wired : nat;
  offline : nat;
  offline_wifi : nat;
  offline_wired : nat;
  keyboard : list (list button)
}.

Inductive reply : Type :=
| AccessDenied
| AuthFailed
| Dashboard (d : dashboard).

(** What [start] reads from the answer to the system query. *)
Record system_info : Type := {
  sys_hostname : json;
  sys_cpu_load : json;
  sys_memory : Memory.usage;
  sys_uptime_s : Z;
  sys_conns_total : Z;
  sys_conns_free : Z
}.

(** Lines 316 to 347 of [start], in their order. *)
Definition read_system (sys_info : json) : result system_info :=
  bind (get sys_info "hostname" (JStr "—")) (fun hostname =>
  bind (get sys_info "cpuload" (JNum 0)) (fun cpu_load =>
  bind (fst (Memory.memory_usage sys_info)) (fun usage =>
  bind (bind (get sys_info "uptime" (JNum 0)) int) (fun uptime_s =>
  bind (bind (get sys_info "conntotal" (JNum 0)) int) (fun conns_total =>
  bind (bind (get sys_info "connfree" (JNum 0)) int) (fun conns_free =>
  Return {| sys_hostname := hostname; sys_cpu_load := cpu_load;
            sys_memory := usage; sys_uptime_s := uptime_s;
            sys_conns_total := conns_total; sys_conns_free := conns_free |})))))).

Section Chat.

Variable cfg : config.
Variable net : network.
(** What [get_cpu_temp_ssh] returns: it answers with a string in all cases. *)
Variable temperature : string.

Definition get_pppoe_ip : M json :=
  try_except
    (let* r := exchange net (query cfg "interface/PPPoE0") in
     lift (raise_for_status r) ;;
     let* data := lift (json_of r) in
     let* has_address := lift (py_in "address" data) in
     if has_address then lift (getitem data "address")
     else
       let* has_ip := lift (py_in "ip" data) in
       if has_ip then lift (getitem data "ip")
       else
         let* has_ipv4 := lift (py_in "ipv4-address" data) in
         if has_ipv4 then lift (getitem data "ipv4-address")
         else
           let* kvs := lift (items data) in
           ret (nested_address kvs))
    any_exception
    (logging ERROR "PPPoE IP error" ;; ret (JStr "—")).

Definition main_keyboard : M (list (list button)) :=
  let* clients := get_ACTIVE_CLIENTS in
  let* online := lift (select is_online clients) in
  let* offline := lift (select is_offline clients) in
  let* online_wifi := lift (select is_wifi online) in
  let* online_wired := lift (select is_wired online) in
  let* offline_wifi := lift (select is_wifi offline) in
  let* offline_wired := lift (select is_wired offline) in
  ret ((match online with
        | [] => []
        | _ => [[ {| text := "🟢 Онлайн (" +:+
                              str_of_int (Z.of_nat (length online)) +:+ ")";
                     callback_data := "show_online" |} ]]
        end) ++
       (match offline with
        | [] => []
        | _ => [[ {| text := "🔴 Офлайн (" +:+
                              str_of_int (Z.of_nat (length offline)) +:+ ")";
                     callback_data := "show_offline" |} ]]
        end) ++
       [[ {| text := "🔄 Обновить"; callback_data := "refresh_main" |} ]]).

(** [start], as far as the router and the process state go: the messages
    to the chat are the value returned.  Of the integers that the text
    shows, [conns_used] is the one the handler computes; the others come from
    [int] or from the parser, which deliver no more than 4300 digits, and are
    always rendered. *)
Definition start (user_id : Z) : M reply :=
  if negb (is_user_allowed (ALLOWED_USERS cfg) user_id) then
    logging WARNING "Unauthorized access attempt" ;; ret AccessDenied
  else
    let* authenticated := keen_auth cfg net in
    if negb authenticated then ret AuthFailed
    else
      update_clients cfg net ;;
      let* sys_info := keen_get cfg net "system" in
      let* info := lift (read_system sys_info) in
      let conns_total := sys_conns_total info in
      let conns_used := conns_total - sys_conns_free info in
      let* wan_ip := get_pppoe_ip in
      let cpu_temp := temperature in
      let* clients := get_ACTIVE_CLIENTS in
      let* online := lift (select is_online clients) in
      let* offline := lift (select is_offline clients) in
      let* online_wifi := lift (select is_wifi online) in
      let* online_wired := lift (select is_wired online) in
      let* offline_wifi := lift (select is_wifi offline) in
      let* offline_wired := lift (select is_wired offline) in
      let* conns_percent := lift (Memory.percent conns_used conns_total) in
      let* shown := lift (render_int conns_used) in
      let* buttons := main_keyboard in
      ret (Dashboard
             {| hostname := sys_hostname info; cpu_temp := cpu_temp;
                cpu_load := sys_cpu_load info; memory := sys_memory info;
                uptime := format_seconds (sys_uptime_s info);
                wan_ip := wan_ip; conns_used := conns_used;
                conns_total := conns_total; conns_percent := conns_percent;
                online := length online; online_wifi := length online_wifi;
                online_wired := length online_wired; offline := length offline;
                offline_wifi := length offline_wifi;
                offline_wired := length offline_wired; keyboard := buttons |}).

End Chat.

End Handlers.

(* ===================================================================== *)
(** ** More routers *)
(* ===================================================================== *)

Module Cases.
Import Py Http State Keenetic Scenario.

(** An interface answer that is a JSON string. *)
Definition text_answer : response :=
  {| status_code := 200; headers := []; body := Return (JStr "no address") |}.

(** An interface answer with a nested address in front of a top-level
    [ip] that is [null]. *)
Definition interface_answer : response :=
  {| status_code := 200; headers := [];
     body := Return (JObj [("id", JStr "PPPoE0");
                         ("link", JObj [("address", JStr "10.64.0.1")]);
                         ("ip", JNull)]) |}.

Definition ok : response := {| status_code := 200; headers := []; body := Raise ValueError |}.


(** A system answer that is a JSON list. *)
Definition list_answer : response :=
  {| status_code := 200; headers := []; body := Return (JArr [JNum 1]) |}.


(** The same router, whose system query is answered 404. *)
Definition without_system : network :=
  scripted [ok; device_list three_hosts; not_found; interface_answer].

(** The same router, whose system query is answered by a list. *)
Definition with_list_system : network :=
  scripted [ok; device_list three_hosts; list_answer; interface_answer].

(** A system answer whose count of free connections makes the percentage
    of connections too large for a float. *)
Definition huge_connections : response :=
  {| status_code := 200; headers := [];
     body := Return (JObj [("conntotal", JNum 1); ("connfree", JNum (- 10 ^ 400))]) |}.

Definition with_huge_connections : network :=
  scripted [ok; device_list three_hosts; huge_connections; interface_answer].

(** A number written with 4300 nines. *)
Definition nines : string := string_of_list_ascii (repeat "9"%char 4300).

(** A system answer whose two counts of connections have 4300 digits, and
    whose difference has 4301. *)
Definition long_connections : response :=
  {| status_code := 200; headers := [];
     body := Return (JObj [("conntotal", JStr nines);
                           ("connfree", JStr (String "-"%char nines))]) |}.

Definition with_long_connections : network :=
  scripted [ok; device_list three_hosts; long_connections; interface_answer].

(** A device list in which one mac occurs twice, behind another device. *)
Definition twice_listed : list json :=
  [device "AA:00:00:00:00:05" "10.0.0.5" (JBool true);
   device "CC:00:00:00:00:01" "10.0.0.7" (JBool true);
   device "CC:00:00:00:00:01" "10.0.0.8" (JBool false)].

End Cases.

(* ===================================================================== *)
(** ** Properties of Python values *)
(* ===================================================================== *)

Section Sorting.
Import Py.

Lemma tuple_le_refl a : tuple_le a a = true.
Proof.
  induction a as [|x a IH]; cbn; [reflexivity|].
  rewrite Z.ltb_irrefl. exact IH.
Qed.

Lemma tuple_le_total a b : tuple_le a b = false -> tuple_le b a = true.
Proof.
  revert b. induction a as [|x a IH]; intros [|y b]; cbn; try congruence.
  destruct (Z.ltb_spec x y), (Z.ltb_spec y x); try congruence; try lia.
  apply IH.
Qed.

Lemma tuple_le_trans a b c :
  tuple_le a b = true -> tuple_le b c = true -> tuple_le a c = true.
Proof.
  revert b c. induction a as [|x a IH]; intros [|y b] [|z c]; cbn; try congruence.
  destruct (Z.ltb_spec x y), (Z.ltb_spec y x), (Z.ltb_spec y z), (Z.ltb_spec z y),
    (Z.ltb_spec x z), (Z.ltb_spec z x); try congruence; try lia.
  apply IH.
Qed.

Lemma tuple_le_antisym a b :
  tuple_le a b = true -> tuple_le b a = true -> a = b.
Proof.
  revert b. induction a as [|x a IH]; intros [|y b]; cbn; try congruence.
  destruct (Z.ltb_spec x y), (Z.ltb_spec y x); try congruence; try lia.
  intros H1 H2. f_equal; [lia|auto].
Qed.

Context {A : Type}.
Implicit Types (x : list Z * A) (l : list (list Z * A)).

Lemma insert_by_key_perm x l : Permutation (x :: l) (insert_by_key x l).
Proof.
  induction l as [|y l IH]; cbn; [reflexivity|].
  destruct (tuple_le (fst x) (fst y)); [reflexivity|].
  rewrite perm_swap. apply perm_skip, IH.
Qed.

Lemma sort_by_key_perm l : Permutation l (sort_by_key l).
Proof.
  induction l as [|x l IH]; cbn; [reflexivity|].
  rewrite <- insert_by_key_perm. apply perm_skip, IH.
Qed.

Lemma insert_by_key_sorted x l :
  StronglySorted key_le l -> StronglySorted key_le (insert_by_key x l).
Proof.
  induction 1 as [|y l Hs IH Hy]; cbn.
  - constructor; constructor.
  - destruct (tuple_le (fst x) (fst y)) eqn:E.
    + constructor; [constructor; assumption|].
      constructor; [exact E|].
      eapply List.Forall_impl; [|exact Hy].
      intros z Hz. unfold key_le in *. eapply tuple_le_trans; eassumption.
    + constructor; [exact IH|].
      eapply Permutation_Forall; [apply insert_by_key_perm|].
      constructor; [|exact Hy]. apply tuple_le_total, E.
Qed.

Lemma sort_by_key_sorted l : StronglySorted key_le (sort_by_key l).
Proof.
  induction l as [|x l IH]; cbn; [constructor|].
  apply insert_by_key_sorted, IH.
Qed.

(** Stability: among the elements of one key, the order of the input is
    kept. *)
Lemma insert_by_key_filter (k : list Z) x l :
  List.filter (fun y => bool_decide (fst y = k)) (insert_by_key x l)
  = List.filter (fun y => bool_decide (fst y = k)) (x :: l).
Proof.
  induction l as [|y l IH]; [reflexivity|].
  cbn [insert_by_key]. destruct (tuple_le (fst x) (fst y)) eqn:E; [reflexivity|].
  cbn [List.filter] in *. rewrite IH.
  destruct (bool_decide (fst x = k)) eqn:Ex; [|reflexivity].
  destruct (bool_decide (fst y = k)) eqn:Ey; [|reflexivity].
  apply bool_decide_eq_true in Ex, Ey.
  rewrite Ex, Ey, tuple_le_refl in E. discriminate E.
Qed.

Lemma sort_by_key_stable (k : list Z) l :
  List.filter (fun y => bool_decide (fst y = k)) (sort_by_key l)
  = List.filter (fun y => bool_decide (fst y = k)) l.
Proof.
  induction l as [|x l IH]; [reflexivity|].
  cbn [sort_by_key]. rewrite insert_by_key_filter. cbn [List.filter].
  rewrite IH. reflexivity.
Qed.

End Sorting.

Section SortedByKey.
Import Py.
Context {A : Type} (key : A -> result (list Z)).

Lemma map_result_keys (l : list A) kl :
  map_result (fun x => bind (key x) (fun k => Return (k, x))) l = Return kl ->
  kl = map (fun x => (match key x with Return k => k | Raise _ => [] end, x)) l /\
  Forall (fun x => exists k, key x = Return k) l.
Proof.
  revert kl. induction l as [|x l IH]; intros kl; cbn.
  - intros [= <-]. auto.
  - destruct (key x) as [e|k] eqn:E; cbn; [discriminate|].
    destruct (map_result _ l) as [e|kl'] eqn:El; [discriminate|].
    intros [= <-]. destruct (IH kl' eq_refl) as [-> Hall].
    split; [reflexivity|]. constructor; eauto.
Qed.

Lemma map_result_total (l : list A) :
  Forall (fun x => exists k, key x = Return k) l ->
  map_result (fun x => bind (key x) (fun k => Return (k, x))) l
  = Return (map (fun x => (match key x with Return k => k | Raise _ => [] end, x)) l).
Proof.
  induction 1 as [|x l [k Hk] _ IH]; cbn; [reflexivity|].
  rewrite Hk. cbn. rewrite IH. reflexivity.
Qed.

Lemma sorted_perm (l l' : list A) : sorted key l = Return l' -> Permutation l l'.
Proof.
  unfold sorted.
  destruct (map_result _ l) as [e|kl] eqn:E; [discriminate|].
  intros [= <-]. apply map_result_keys in E as [-> _].
  rewrite <- sort_by_key_perm, map_map. cbn. rewrite map_id. reflexivity.
Qed.

End SortedByKey.

(* ===================================================================== *)
(** ** Characters and numbers *)
(* ===================================================================== *)

Section Characters.
Import Py Unicode.

(** A byte below 128 is a character of its own. *)
Lemma chars_ascii b s :
  byte b < 128 -> chars (String b s) = (byte b, String b "") :: chars s.
Proof.
  intros H.
  assert (E0 : (byte b <? 128) = true) by (apply Z.ltb_lt; lia).
  assert (E1 : (194 <=? byte b) = false) by (apply Z.leb_gt; lia).
  assert (E2 : (224 <=? byte b) = false) by (apply Z.leb_gt; lia).
  assert (E3 : (240 <=? byte b) = false) by (apply Z.leb_gt; lia).
  destruct s as [|b1 [|b2 [|b3 s3]]]; cbn [chars];
    rewrite ?E0, ?E1, ?E2, ?E3; cbn [andb]; reflexivity.
Qed.

Lemma within_spec c r : within c r = true <-> fst r <= c <= snd r.
Proof. unfold within. rewrite andb_true_iff, !Z.leb_le. reflexivity. Qed.

Lemma in_ranges c rs :
  existsb (within c) rs = true -> exists r, In r rs /\ fst r <= c <= snd r.
Proof.
  intros H. apply existsb_exists in H as (r & Hin & Hr).
  exists r. split; [exact Hin|]. apply within_spec, Hr.
Qed.

(** Below 127 the digits are the ten ASCII digits. *)
Lemma digit_below_127 c :
  is_digit c = true -> c < 127 -> is_ascii_digit c = true.
Proof.
  intros H Hc. apply in_ranges in H as (r & Hin & Hr).
  assert (Hall : forallb (fun r => (127 <=? fst r) || ((48 <=? fst r) && (snd r <=? 57)))
                   digit_ranges = true) by (vm_compute; reflexivity).
  rewrite forallb_forall in Hall. specialize (Hall r Hin).
  apply orb_true_iff in Hall as [Hall|Hall].
  - apply Z.leb_le in Hall. lia.
  - apply andb_true_iff in Hall as [H1 H2]. apply Z.leb_le in H1, H2.
    unfold is_ascii_digit. apply andb_true_iff. split; apply Z.leb_le; lia.
Qed.

(** No digit is white space. *)
Lemma digit_not_space c : is_digit c = true -> is_space c = false.
Proof.
  intros H. apply in_ranges in H as (r & Hin & Hr).
  destruct (is_space c) eqn:E; [|reflexivity]. exfalso.
  apply in_ranges in E as (r' & Hin' & Hr').
  assert (Hall : forallb (fun r => forallb (fun r' => (snd r <? fst r') || (snd r' <? fst r))
                                      space_ranges) digit_ranges = true)
    by (vm_compute; reflexivity).
  rewrite forallb_forall in Hall. specialize (Hall r Hin).
  rewrite forallb_forall in Hall. specialize (Hall r' Hin').
  apply orb_true_iff in Hall as [Hall|Hall]; apply Z.ltb_lt in Hall; lia.
Qed.

Lemma decimal_range c d : decimal c = Some d -> 0 <= d <= 9.
Proof.
  unfold decimal. destruct (List.find _ _); [|discriminate].
  intros [= <-]. pose proof (Z.mod_pos_bound (c - fst p) 10). lia.
Qed.

(** What [int] reads in place of a digit is an ASCII digit or the question
    mark. *)
Lemma to_ascii_digit c :
  is_digit c = true -> is_ascii_digit (to_ascii c) = true \/ to_ascii c = 63.
Proof.
  intros H. unfold to_ascii. destruct (Z.ltb_spec c 127) as [Hc|Hc].
  - left. apply digit_below_127; assumption.
  - rewrite (digit_not_space c H).
    destruct (decimal c) as [d|] eqn:E; [left|right; reflexivity].
    apply decimal_range in E. unfold is_ascii_digit.
    apply andb_true_iff. split; apply Z.leb_le; lia.
Qed.

Lemma to_ascii_below_127 c : c < 127 -> to_ascii c = c.
Proof. intros H. unfold to_ascii. destruct (Z.ltb_spec c 127); [reflexivity|lia]. Qed.

Lemma ascii_digit_is_digit c : is_ascii_digit c = true -> is_digit c = true.
Proof.
  intros H. unfold is_digit. apply existsb_exists. exists (48, 57).
  split; [left; reflexivity|exact H].
Qed.

Lemma ascii_digit_range c : is_ascii_digit c = true <-> 48 <= c <= 57.
Proof. unfold is_ascii_digit. rewrite andb_true_iff, !Z.leb_le. reflexivity. Qed.

Lemma ascii_digit_not_blank c : is_ascii_digit c = true -> is_blank c = false.
Proof.
  intros H. apply ascii_digit_range in H. unfold is_blank.
  apply orb_false_iff. split; [apply andb_false_iff; right; apply Z.leb_gt; lia|].
  apply Z.eqb_neq. lia.
Qed.

(** The value [int] reads is built from digits: it is a natural number
    when the value read so far is one. *)
Lemma int_body_nonneg l : forall p acc n,
  int_body p acc l = Some n -> 0 <= acc -> 0 <= n.
Proof.
  induction l as [|c l IH]; intros p acc n; cbn [int_body].
  - destruct p; [|discriminate]. intros [= <-]. auto.
  - destruct (is_ascii_digit c) eqn:Ed.
    + intros H Hacc. apply (IH _ _ _ H). apply ascii_digit_range in Ed. lia.
    + destruct (c =? 95).
      * destruct p; [|discriminate]. intros H Hacc. apply (IH _ _ _ H Hacc).
      * destruct (p && forallb is_blank (c :: l)); [|discriminate].
        intros [= <-]. auto.
Qed.

(** A run of ASCII digits is read as the number it writes. *)
Lemma int_body_decimal s : forall p acc,
  all_ascii_digits s = true -> (s <> "" \/ p = true) ->
  int_body p acc (map byte (list_ascii_of_string s)) = Some (decimal_value_from acc s).
Proof.
  induction s as [|c s IH]; intros p acc Hd Hne; cbn.
  - destruct Hne as [Hne| ->]; [contradiction|reflexivity].
  - cbn in Hd. apply andb_true_iff in Hd as [Hc Hs]. rewrite Hc.
    apply IH; [exact Hs|right; reflexivity].
Qed.

Lemma decimal_value_from_nonneg s : forall acc,
  all_ascii_digits s = true -> 0 <= acc -> 0 <= decimal_value_from acc s.
Proof.
  induction s as [|c s IH]; intros acc Hd Hacc; cbn; [exact Hacc|].
  cbn in Hd. apply andb_true_iff in Hd as [Hc Hs]. apply ascii_digit_range in Hc.
  apply IH; [exact Hs|lia].
Qed.

Lemma ascii_digits_chars s :
  all_ascii_digits s = true ->
  chars s = map (fun b => (byte b, String b "")) (list_ascii_of_string s).
Proof.
  induction s as [|c s IH]; [reflexivity|]. cbn [all_ascii_digits].
  intros H. apply andb_true_iff in H as [Hc Hs]. apply ascii_digit_range in Hc.
  rewrite chars_ascii by lia. rewrite (IH Hs). reflexivity.
Qed.

Lemma ascii_digits_read s :
  all_ascii_digits s = true ->
  map (fun c => to_ascii (fst c)) (chars s) = map byte (list_ascii_of_string s) /\
  Forall (fun c => is_ascii_digit c = true) (map byte (list_ascii_of_string s)).
Proof.
  intros H. rewrite (ascii_digits_chars s H), map_map. cbn [fst].
  induction s as [|c s IH]; [split; [reflexivity|constructor]|].
  cbn [all_ascii_digits] in H. apply andb_true_iff in H as [Hc Hs].
  destruct (IH Hs) as [E F]. cbn [list_ascii_of_string map]. rewrite E.
  split; [|constructor; assumption].
  rewrite to_ascii_below_127; [reflexivity|]. apply ascii_digit_range in Hc. lia.
Qed.

Lemma filter_all {A} (p : A -> bool) l :
  Forall (fun x => p x = true) l -> List.filter p l = l.
Proof.
  induction 1 as [|x l Hx _ IH]; [reflexivity|]. cbn. rewrite Hx, IH. reflexivity.
Qed.

Lemma length_list_ascii s : length (list_ascii_of_string s) = String.length s.
Proof. induction s as [|c s IH]; [reflexivity|]. cbn. rewrite IH. reflexivity. Qed.

(** On a decimal number [str.isdigit] holds, and [int] reads the number
    written. *)
Lemma decimal_is_read s :
  is_decimal s = true ->
  isdigit s = true /\ int_of_str s = Some (decimal_value s) /\ 0 <= decimal_value s.
Proof.
  unfold is_decimal. intros H.
  apply andb_true_iff in H as [H Hlen]. apply andb_true_iff in H as [Hne Hd].
  apply Z.leb_le in Hlen. apply negb_true_iff in Hne.
  destruct (ascii_digits_read s Hd) as [E F].
  destruct s as [|c s]; [discriminate Hne|].
  split; [|split].
  - unfold isdigit. rewrite (ascii_digits_chars _ Hd). cbn [list_ascii_of_string map].
    apply forallb_forall. intros x Hx.
    change (In x (map (fun b => (byte b, String b ""))
                    (list_ascii_of_string (String c s)))) in Hx.
    apply in_map_iff in Hx as (b & <- & Hb). cbn [fst].
    apply ascii_digit_is_digit.
    rewrite List.Forall_forall in F. apply F. apply in_map. exact Hb.
  - unfold int_of_str. rewrite E.
    cbn [list_ascii_of_string map] in *. apply Forall_cons in F as [Fc Fs].
    cbn [skip_blanks]. rewrite (ascii_digit_not_blank _ Fc).
    rewrite (filter_all is_ascii_digit) by (constructor; assumption).
    cbn [length]. rewrite length_map, length_list_ascii.
    cbn [String.length] in Hlen.
    replace (Z.of_nat (S (String.length s)) <=? max_str_digits) with true
      by (symmetry; apply Z.leb_le; exact Hlen).
    apply ascii_digit_range in Fc.
    replace (byte c =? 45) with false by (symmetry; apply Z.eqb_neq; lia).
    replace (byte c =? 43) with false by (symmetry; apply Z.eqb_neq; lia).
    change (byte c :: map byte (list_ascii_of_string s))
      with (map byte (list_ascii_of_string (String c s))).
    apply int_body_decimal; [exact Hd|left; discriminate].
  - apply decimal_value_from_nonneg; [exact Hd|lia].
Qed.

Lemma skip_blanks_suffix l : exists front, l = front ++ skip_blanks l.
Proof.
  induction l as [|c l [front IH]]; [exists []; reflexivity|].
  cbn [skip_blanks]. destruct (is_blank c).
  - exists (c :: front). cbn. f_equal. exact IH.
  - exists []. reflexivity.
Qed.

(** When [str.isdigit] holds of a text, what [int] makes of it, if
    anything, is a natural number. *)
Lemma int_of_digits_nonneg s n :
  isdigit s = true -> int_of_str s = Some n -> 0 <= n.
Proof.
  unfold isdigit, int_of_str. intros Hd.
  assert (Hall : Forall (fun c => is_ascii_digit c = true \/ c = 63)
                   (map (fun c => to_ascii (fst c)) (chars s))).
  { destruct (chars s) as [|c0 cs]; [constructor|].
    apply Forall_map, List.Forall_forall. intros x Hx.
    rewrite forallb_forall in Hd. apply to_ascii_digit, Hd, Hx. }
  destruct (skip_blanks_suffix (map (fun c => to_ascii (fst c)) (chars s))) as [front E].
  rewrite E in Hall. apply Forall_app in Hall as [_ Hall].
  destruct (_ <=? max_str_digits); [|discriminate].
  destruct (skip_blanks _) as [|c l]; [discriminate|].
  assert (Hc : c <> 45 /\ c <> 43).
  { apply Forall_cons in Hall as [[Hc| ->] _]; [|split; discriminate].
    apply ascii_digit_range in Hc. lia. }
  destruct Hc as [H45 H43].
  apply Z.eqb_neq in H45, H43. rewrite H45, H43.
  intros H. apply (int_body_nonneg _ _ _ _ H). lia.
Qed.

End Characters.

Section SortKey.
Import Py Keenetic.

(** A device without an ["ip"] entry is keyed as [0.0.0.0]. *)
Lemma sort_key_missing_ip o :
  assoc "ip" o = None -> ip_sort (JObj o) = Return [0; 0; 0; 0].
Proof.
  intros H. unfold ip_sort, get. rewrite H. vm_compute. reflexivity.
Qed.

(** So is a device whose ["ip"] is not a string. *)
Lemma sort_key_ip_not_str o v :
  assoc "ip" o = Some v -> (forall s, v <> JStr s) ->
  ip_sort (JObj o) = Return [0; 0; 0; 0].
Proof.
  intros H Hv. unfold ip_sort, get. rewrite H. cbn [bind].
  destruct v; try reflexivity. exfalso. eapply Hv. reflexivity.
Qed.

(** A string is keyed by those of its dot-separated components that
    [str.isdigit] accepts, as [int] reads them, or as [0.0.0.0] when [int]
    rejects one of them. *)
Lemma sort_key_of_string o s :
  assoc "ip" o = Some (JStr s) ->
  ip_sort (JObj o) =
    Return
      (match map_result
               (fun x => match int_of_str x with
                         | Some n => Return n
                         | None => Raise ValueError
                         end)
               (List.filter isdigit (split "."%char s)) with
       | Return k => k
       | Raise _ => [0; 0; 0; 0]
       end).
Proof.
  intros H. unfold ip_sort, get. rewrite H. cbn [bind].
  destruct (map_result _ _); reflexivity.
Qed.

(** A dotted quad of decimal numbers is keyed by its four numbers. *)
Lemma sort_key_dotted_quad o s :
  assoc "ip" o = Some (JStr s) ->
  dotted_quad s = true ->
  ip_sort (JObj o) = Return (map decimal_value (split "."%char s)) /\
  length (split "."%char s) = 4%nat /\
  Forall (fun n => 0 <= n) (map decimal_value (split "."%char s)).
Proof.
  intros Ho Hq. unfold dotted_quad in Hq.
  destruct (split "."%char s) as [|a [|b [|c [|d [|]]]]] eqn:Hs; try discriminate Hq.
  apply andb_true_iff in Hq as [Hq Hd]. apply andb_true_iff in Hq as [Hq Hc].
  apply andb_true_iff in Hq as [Ha Hb].
  destruct (decimal_is_read a Ha) as (Da & Ea & Na).
  destruct (decimal_is_read b Hb) as (Db & Eb & Nb).
  destruct (decimal_is_read c Hc) as (Dc & Ec & Nc).
  destruct (decimal_is_read d Hd) as (Dd & Ed & Nd).
  split; [|split; [reflexivity|repeat constructor; assumption]].
  rewrite (sort_key_of_string o s Ho), Hs.
  cbn [List.filter]. rewrite Da, Db, Dc, Dd.
  cbn [map_result]. rewrite Ea, Eb, Ec, Ed. reflexivity.
Qed.

Lemma ip_sort_dict d : is_dict d = true -> exists k, ip_sort d = Return k.
Proof.
  destruct d; try discriminate. intros _. unfold ip_sort. cbn [get bind].
  match goal with |- context [catch ?r _ _] => destruct r end; cbn; eauto.
Qed.

Lemma tuple_le_zero_quad a b c d :
  0 <= a -> 0 <= b -> 0 <= c -> 0 <= d ->
  tuple_le [a; b; c; d] [0; 0; 0; 0] = true -> [a; b; c; d] = [0; 0; 0; 0].
Proof.
  intros Ha Hb Hc Hd. cbn.
  repeat match goal with
         | |- context [?x <? ?y] => destruct (Z.ltb_spec x y); try lia; try discriminate
         end.
  intros _. repeat f_equal; lia.
Qed.

End SortKey.

Section HexDigits.
Import Hash.

Lemma hex_digit_lower n : 0 <= n < 16 -> is_lower_hex (hex_digit n) = true.
Proof.
  intros [H1 H2]. destruct n as [|p|p]; [reflexivity| |lia].
  do 4 (try (destruct p as [p|p|]; try lia)); reflexivity.
Qed.

Lemma hex_lower bs :
  Forall (fun b => 0 <= b < 256) bs -> all_chars is_lower_hex (hex bs) = true.
Proof.
  induction 1 as [|b bs Hb _ IH]; cbn [hex all_chars]; [reflexivity|].
  rewrite IH, !hex_digit_lower; [reflexivity| |].
  - apply Z.mod_pos_bound. lia.
  - split; [apply Z.div_pos; lia|apply Z.div_lt_upper_bound; lia].
Qed.

Lemma le_bytes_range n x : Forall (fun b => 0 <= b < 256) (le_bytes n x).
Proof.
  revert x. induction n as [|n IH]; intros x; cbn; constructor; [|apply IH].
  apply Z.mod_pos_bound. lia.
Qed.

Lemma md5_range msg : Forall (fun b => 0 <= b < 256) (md5 msg).
Proof.
  unfold md5. destruct (fold_left _ _ _) as [[[a b] c] d].
  repeat (apply Forall_app; split); apply le_bytes_range.
Qed.

Lemma sha256_range msg : Forall (fun b => 0 <= b < 256) (sha256 msg).
Proof.
  unfold sha256. generalize (fold_left sha256_block (blocks be_word (pad be_bytes msg))
                               sha256_H0) as st.
  induction st as [|x st IH]; cbn [map concat]; [constructor|].
  apply Forall_app. split; [|exact IH].
  unfold be_bytes. apply Forall_rev, le_bytes_range.
Qed.

(** Both digests are written in lowercase hexadecimal. *)
Lemma hexdigest_lowercase s :
  all_chars is_lower_hex (sha256_hexdigest s) = true.
Proof. apply hex_lower, sha256_range. Qed.

Lemma md5_hexdigest_lowercase s :
  all_chars is_lower_hex (md5_hexdigest s) = true.
Proof. apply hex_lower, md5_range. Qed.

End HexDigits.

(* ===================================================================== *)
(** ** Properties of the router client *)
(* ===================================================================== *)

Import Py Http State Keenetic Scenario.

Lemma append_inj_l (p a b : string) : p +:+ a = p +:+ b -> a = b.
Proof.
  induction p as [|c p IH]; cbn; intros H; [exact H|].
  injection H as H. auto.
Qed.

Lemma rci_url_not_auth cfg path : rci_url cfg path <> auth_url cfg.
Proof.
  unfold rci_url, auth_url. intros H. apply append_inj_l in H. discriminate H.
Qed.

(** What [keen_get] returns and what it leaves behind, by the answer of the
    router. *)
Lemma keen_get_cases cfg net path w :
  sent_requests (snd (keen_get cfg net path w)) = sent_requests w ++ [query cfg path] /\
  ACTIVE_CLIENTS (snd (keen_get cfg net path w)) = ACTIVE_CLIENTS w /\
  PREV_STATUS (snd (keen_get cfg net path w)) = PREV_STATUS w /\
  outbox (snd (keen_get cfg net path w)) = outbox w /\
  fst (keen_get cfg net path w) =
    match net (sent_requests w) (query cfg path) with
    | Fails e => if is_RequestException e then Return empty_dict else Raise e
    | Responds r =>
        if (400 <=? status_code r) && (status_code r <? 600) then Return empty_dict
        else match body r with
             | Return v => Return v
             | Raise e =>
                 if is_ValueError e || is_RequestException e then Return empty_dict
                 else Raise e
             end
    end.
Proof.
  unfold keen_get, try_except, mbind, exchange, lift, raise_for_status, json_of.
  destruct (net (sent_requests w) (query cfg path)) as [e|r]; cbn.
  - destruct e; cbn; auto.
  - destruct ((400 <=? status_code r) && (status_code r <? 600)); cbn; auto.
    destruct (body r) as [e|v]; cbn; auto.
    destruct e; cbn; auto.
Qed.

Lemma status_is_error r :
  400 <= status_code r < 600 -> (400 <=? status_code r) && (status_code r <? 600) = true.
Proof. intros H. apply andb_true_iff. split; [apply Z.leb_le|apply Z.ltb_lt]; lia. Qed.

Lemma status_is_no_error r :
  ~ (400 <= status_code r < 600) -> (400 <=? status_code r) && (status_code r <? 600) = false.
Proof.
  intros H. apply andb_false_iff.
  destruct (Z.leb_spec 400 (status_code r)); [right|left; reflexivity].
  apply Z.ltb_ge. lia.
Qed.




Lemma truthy_JStr (s : string) : truthy (JStr s) = false <-> s = "".
Proof.
  cbn. destruct (String.eqb_spec s ""); cbn; split; intros; congruence.
Qed.

(** A header that the response does not carry reads as the default. *)
Lemma headers_get_absent hs name default :
  Forall (fun h => lower (fst h) <> lower name) hs ->
  headers_get hs name default = default.
Proof.
  induction 1 as [|[n v] hs Hn _ IH]; cbn; [reflexivity|].
  cbn in Hn. destruct (String.eqb_spec (lower n) (lower name)); [contradiction|exact IH].
Qed.

(** C9: a 401 probe that lacks the realm or the challenge (or carries an
    empty one) makes [keen_auth] return [False], and the probe is the only
    request of the call: no POST follows. *)
Theorem keen_auth_missing_header cfg net w r :
  net (sent_requests w) (probe cfg) = Responds r ->
  status_code r = 401 ->
  headers_get (headers r) "X-NDM-Realm" "" = "" \/
  headers_get (headers r) "X-NDM-Challenge" "" = "" ->
  fst (keen_auth cfg net w) = Return false /\
  sent_requests (snd (keen_auth cfg net w)) = sent_requests w ++ [probe cfg] /\
  Forall (fun rq => is_post rq = false) [probe cfg].
Proof.
  intros Hnet Hst Hhd.
  assert (Hgate :
    negb (truthy (JStr (headers_get (headers r) "X-NDM-Realm" ""))) ||
    negb (truthy (JStr (headers_get (headers r) "X-NDM-Challenge" ""))) = true).
  { apply orb_true_iff. destruct Hhd as [H|H]; [left|right];
      apply negb_true_iff, truthy_JStr, H. }
  unfold keen_auth, try_except, mbind, exchange.
  rewrite Hnet, Hst. cbn [Z.eqb Pos.eqb].
  rewrite Hgate. cbn. repeat split. constructor; [reflexivity|constructor].
Qed.

Lemma keen_auth_missing_header_witness :
  always unauthorized_no_realm (sent_requests initial) (probe cfg0)
    = Responds unauthorized_no_realm /\
  status_code unauthorized_no_realm = 401 /\
  (headers_get (headers unauthorized_no_realm) "X-NDM-Realm" "" = "" \/
   headers_get (headers unauthorized_no_realm) "X-NDM-Challenge" "" = "") /\
  fst (keen_auth cfg0 (always unauthorized_no_realm) initial) = Return false /\
  sent_requests (snd (keen_auth cfg0 (always unauthorized_no_realm) initial))
    = sent_requests initial ++ [probe cfg0] /\
  Forall (fun rq => is_post rq = false) [probe cfg0].
Proof.
  split; [reflexivity|]. split; [reflexivity|]. split; [left; reflexivity|].
  apply (keen_auth_missing_header cfg0 (always unauthorized_no_realm) initial
           unauthorized_no_realm); [reflexivity|reflexivity|left; reflexivity].
Defined.

(** C7: when the 401 probe carries a realm and a challenge, the password
    posted is the lowercase hexadecimal SHA-256 of the challenge followed by
    the lowercase hexadecimal MD5 of [login:realm:password]; the digest is a
    function of these four strings, written with the characters 0-9 and a-f. *)
Theorem keen_auth_posts_digest cfg net w r :
  net (sent_requests w) (probe cfg) = Responds r ->
  status_code r = 401 ->
  headers_get (headers r) "X-NDM-Realm" "" <> "" ->
  headers_get (headers r) "X-NDM-Challenge" "" <> "" ->
  sent_requests (snd (keen_auth cfg net w)) =
    sent_requests w ++
    [probe cfg;
     POST (auth_url cfg)
       (JObj [("login", JStr (WIFI_LOGIN cfg));
              ("password",
               JStr (Hash.sha256_hexdigest
                       (headers_get (headers r) "X-NDM-Challenge" "" +:+
                        Hash.md5_hexdigest
                          (WIFI_LOGIN cfg +:+ ":" +:+
                           headers_get (headers r) "X-NDM-Realm" "" +:+ ":" +:+
                           WIFI_PASSWORD cfg))))])] /\
  Hash.all_chars Hash.is_lower_hex
    (Hash.sha256_hexdigest
       (headers_get (headers r) "X-NDM-Challenge" "" +:+
        Hash.md5_hexdigest
          (WIFI_LOGIN cfg +:+ ":" +:+
           headers_get (headers r) "X-NDM-Realm" "" +:+ ":" +:+
           WIFI_PASSWORD cfg))) = true.
Proof.
  intros Hnet Hst Hrealm Hchal. split; [|apply hexdigest_lowercase].
  assert (Hgate :
    negb (truthy (JStr (headers_get (headers r) "X-NDM-Realm" ""))) ||
    negb (truthy (JStr (headers_get (headers r) "X-NDM-Challenge" ""))) = false).
  { apply orb_false_iff. split; apply negb_false_iff.
    - destruct (truthy (JStr (headers_get (headers r) "X-NDM-Realm" ""))) eqn:E;
        [reflexivity|]. apply truthy_JStr in E. contradiction.
    - destruct (truthy (JStr (headers_get (headers r) "X-NDM-Challenge" ""))) eqn:E;
        [reflexivity|]. apply truthy_JStr in E. contradiction. }
  unfold keen_auth, try_except, mbind, exchange.
  rewrite Hnet, Hst. cbn [Z.eqb Pos.eqb].
  rewrite Hgate. cbv beta iota zeta.
  set (rq2 := login_request cfg _).
  cbn [sent_requests].
  destruct (net (sent_requests w ++ [probe cfg]) rq2); cbn;
    rewrite <- app_assoc; reflexivity.
Qed.

Lemma keen_auth_posts_digest_witness :
  always unauthorized (sent_requests initial) (probe cfg0) = Responds unauthorized /\
  status_code unauthorized = 401 /\
  headers_get (headers unauthorized) "X-NDM-Realm" "" <> "" /\
  headers_get (headers unauthorized) "X-NDM-Challenge" "" <> "" /\
  sent_requests (snd (keen_auth cfg0 (always unauthorized) initial)) =
    [GET "http://192.168.1.1/auth" None;
     POST "http://192.168.1.1/auth"
       (JObj [("login", JStr "admin");
              ("password",
               JStr "aee8908cfb78c6edbd66dbb190107b9c2129780940e427fd3e563c7af4461ae3")])].
Proof.
  split; [reflexivity|]. split; [reflexivity|].
  split; [discriminate|]. split; [discriminate|].
  rewrite (proj1 (keen_auth_posts_digest cfg0 (always unauthorized) initial unauthorized
                    eq_refl eq_refl ltac:(discriminate) ltac:(discriminate))).
  vm_compute. reflexivity.
Defined.

(** The reference vectors of the two hash functions. *)
Example md5_vectors :
  Hash.md5_hexdigest "" = "d41d8cd98f00b204e9800998ecf8427e" /\
  Hash.md5_hexdigest "abc" = "900150983cd24fb0d6963f7d28e17f72" /\
  Hash.md5_hexdigest "admin:Keenetic Giga:secret" = "5a003182ec3148acffc551bd5d0855b8".
Proof. repeat split; vm_compute; reflexivity. Qed.

Example sha256_vectors :
  Hash.sha256_hexdigest "abc"
    = "ba7816bf8f01cfea414140de5dae2223b00361a396177a9cb410ff61f20015ad" /\
  auth_digest "admin" "secret" "Keenetic Giga" "XYZCHALLENGE"
    = "aee8908cfb78c6edbd66dbb190107b9c2129780940e427fd3e563c7af4461ae3".
Proof. repeat split; vm_compute; reflexivity. Qed.

(* ===================================================================== *)
(** ** Properties of the polling loop *)
(* ===================================================================== *)

Import Monitor.

Ltac world_fields := cbn; repeat split; auto.

(** [update_clients] never raises; it sends the one device-list query and
    touches neither the last-known states nor the outbox. *)
Lemma update_clients_frame cfg net w :
  fst (update_clients cfg net w) = Return tt /\
  sent_requests (snd (update_clients cfg net w))
    = sent_requests w ++ [query cfg "device-list"] /\
  PREV_STATUS (snd (update_clients cfg net w)) = PREV_STATUS w /\
  outbox (snd (update_clients cfg net w)) = outbox w.
Proof.
  destruct (keen_get_cases cfg net "device-list" w) as (Hr & _ & Hp & Ho & _).
  unfold update_clients, try_except, mbind.
  destruct (keen_get cfg net "device-list" w) as [[e|data] w1]; cbn in *;
    [world_fields|].
  destruct (truthy data); cbn; [|world_fields].
  unfold lift.
  destruct (get data "host" (JArr [])) as [e|hosts]; cbn; [world_fields|].
  destruct (truthy hosts); cbn; [|world_fields].
  destruct (bind (iter hosts) (sorted ip_sort)); world_fields.
Qed.

Lemma notify_all_spec cfg deliver n w :
  exists w',
    notify_all cfg deliver n w = (Return tt, w') /\
    outbox w' = outbox w ++ map (fun u => (u, n)) (ALLOWED_USERS cfg) /\
    sent_requests w' = sent_requests w /\
    ACTIVE_CLIENTS w' = ACTIVE_CLIENTS w /\
    PREV_STATUS w' = PREV_STATUS w.
Proof.
  unfold notify_all. generalize (ALLOWED_USERS cfg) as users.
  intros users. revert w.
  induction users as [|u users IH]; intros w.
  - exists w. cbn. rewrite app_nil_r. auto.
  - cbn [for_each map]. unfold mbind.
    set (step := try_except _ _ _).
    assert (Hstep : exists w1, step w = (Return tt, w1) /\
              outbox w1 = outbox w ++ [(u, n)] /\
              sent_requests w1 = sent_requests w /\
              ACTIVE_CLIENTS w1 = ACTIVE_CLIENTS w /\
              PREV_STATUS w1 = PREV_STATUS w).
    { unfold step, try_except, mbind, post_message, raise, logging.
      destruct (deliver u n); cbn; eexists; (split; [reflexivity|]); cbn; auto. }
    destruct Hstep as (w1 & -> & Ho & Hr & Ha & Hp).
    destruct (IH w1) as (w2 & IH1 & IH2 & IH3 & IH4 & IH5).
    exists w2. split; [exact IH1|].
    rewrite IH2, IH3, IH4, IH5, Ho, Hr, Ha, Hp, <- app_assoc. auto.
Qed.

(** Whatever becomes of it, the body of the loop sends no request and leaves
    the device list alone. *)
Lemma check_device_frame cfg deliver d w :
  sent_requests (snd (check_device cfg deliver d w)) = sent_requests w /\
  ACTIVE_CLIENTS (snd (check_device cfg deliver d w)) = ACTIVE_CLIENTS w.
Proof.
  unfold check_device, mbind, lift, get_PREV_STATUS, set_PREV_STATUS, ret.
  destruct (getitem d "mac") as [e|m]; cbn; [auto|].
  destruct (hash_key m) as [e|k]; cbn; [auto|].
  destruct (get d "active" (JBool false)) as [e|cur]; cbn; [auto|].
  destruct (changed _ cur); cbn; [|auto].
  destruct (describe d m cur) as [e|n]; cbn; [auto|].
  destruct (notify_all_spec cfg deliver n w) as (w1 & -> & _ & H3 & H4 & _).
  cbn. auto.
Qed.

Lemma for_each_check_frame cfg deliver l w :
  sent_requests (snd (for_each l (check_device cfg deliver) w)) = sent_requests w /\
  ACTIVE_CLIENTS (snd (for_each l (check_device cfg deliver) w)) = ACTIVE_CLIENTS w.
Proof.
  revert w. induction l as [|d l IH]; intros w; cbn; [auto|].
  unfold mbind.
  destruct (check_device_frame cfg deliver d w) as [H1 H2].
  destruct (check_device cfg deliver d w) as [[e|[]] w1]; cbn in *; [auto|].
  destruct (IH w1) as [H3 H4]. rewrite H3, H4. auto.
Qed.

(** A turn of the loop never raises and sends exactly the device-list
    query. *)
Lemma cycle_frame cfg net deliver w :
  fst (cycle cfg net deliver w) = Return tt /\
  sent_requests (snd (cycle cfg net deliver w))
    = sent_requests w ++ [query cfg "device-list"].
Proof.
  destruct (update_clients_frame cfg net w) as (H1 & H2 & _ & _).
  unfold cycle, try_except, mbind, get_ACTIVE_CLIENTS.
  destruct (update_clients cfg net w) as [[e|[]] w1]; cbn in *; [discriminate|].
  destruct (for_each_check_frame cfg deliver (ACTIVE_CLIENTS w1) w1) as [H3 _].
  destruct (for_each (ACTIVE_CLIENTS w1) (check_device cfg deliver) w1)
    as [[e|[]] w2]; cbn in *; split; auto; congruence.
Qed.

Lemma check_status_change_requests cfg net deliver n w :
  fst (check_status_change cfg net deliver n w) = Return tt /\
  sent_requests (snd (check_status_change cfg net deliver n w))
    = sent_requests w ++ repeat (query cfg "device-list") n.
Proof.
  revert w. induction n as [|n IH]; intros w; cbn.
  - rewrite app_nil_r. auto.
  - unfold mbind. destruct (cycle_frame cfg net deliver w) as [H1 H2].
    destruct (cycle cfg net deliver w) as [[e|[]] w1]; cbn in *; [discriminate|].
    destruct (IH w1) as [H3 H4]. rewrite H3, H4, H2, <- app_assoc. auto.
Qed.

(** C1, as amended: a 401 met by [keen_get] triggers no handshake.  The call
    returns the empty mapping after its own query and nothing else; and the
    polling loop, turn after turn, sends device-list queries only, none of
    them to the [/auth] endpoint. *)
Theorem keen_get_401_no_reauth cfg net deliver path w r n :
  net (sent_requests w) (query cfg path) = Responds r ->
  status_code r = 401 ->
  fst (keen_get cfg net path w) = Return empty_dict /\
  sent_requests (snd (keen_get cfg net path w)) = sent_requests w ++ [query cfg path] /\
  url_of (query cfg path) <> auth_url cfg /\
  sent_requests (snd (check_status_change cfg net deliver n w))
    = sent_requests w ++ repeat (query cfg "device-list") n /\
  url_of (query cfg "device-list") <> auth_url cfg.
Proof.
  intros Hnet Hst.
  destruct (keen_get_cases cfg net path w) as (Hr & _ & _ & _ & Hf).
  rewrite Hf, Hnet, Hst. cbn.
  repeat split; auto using rci_url_not_auth.
  apply check_status_change_requests.
Qed.

Lemma keen_get_401_no_reauth_witness :
  always unauthorized (sent_requests initial) (query cfg0 "device-list")
    = Responds unauthorized /\
  status_code unauthorized = 401 /\
  fst (keen_get cfg0 (always unauthorized) "device-list" initial) = Return empty_dict /\
  sent_requests (snd (keen_get cfg0 (always unauthorized) "device-list" initial))
    = sent_requests initial ++ [query cfg0 "device-list"] /\
  url_of (query cfg0 "device-list") <> auth_url cfg0 /\
  sent_requests (snd (check_status_change cfg0 (always unauthorized) accept_all 3 initial))
    = sent_requests initial ++ repeat (query cfg0 "device-list") 3 /\
  url_of (query cfg0 "device-list") <> auth_url cfg0.
Proof.
  split; [reflexivity|]. split; [reflexivity|].
  apply (keen_get_401_no_reauth cfg0 (always unauthorized) accept_all "device-list"
           initial unauthorized 3); reflexivity.
Defined.

(** C1, counterexample: the router answers 401 to the query of [keen_get];
    the call, and a whole turn of the polling loop around it, end with that
    query as the only request sent: the handshake was not run. *)
Lemma keen_get_401_sends_no_auth_request :
  always unauthorized (sent_requests initial) (query cfg0 "device-list")
    = Responds unauthorized /\
  status_code unauthorized = 401 /\
  sent_requests (snd (keen_get cfg0 (always unauthorized) "device-list" initial))
    = [GET "http://192.168.1.1/rci/show/device-list" (Some ("admin", "secret"))] /\
  sent_requests (snd (cycle cfg0 (always unauthorized) accept_all initial))
    = [GET "http://192.168.1.1/rci/show/device-list" (Some ("admin", "secret"))] /\
  ~ Exists (fun rq => url_of rq = auth_url cfg0)
      (sent_requests (snd (cycle cfg0 (always unauthorized) accept_all initial))).
Proof.
  split; [reflexivity|]. split; [reflexivity|].
  split; [reflexivity|]. split; [vm_compute; reflexivity|].
  intros H. vm_compute in H.
  apply Exists_cons in H as [H|H]; [discriminate H|].
  apply Exists_nil in H. exact H.
Qed.

(* ===================================================================== *)
(** ** The device list after a successful fetch *)
(* ===================================================================== *)

(** A fetch that succeeds stores the host array, sorted by [ip_sort]. *)
Lemma update_clients_sorted cfg net w r o hosts :
  net (sent_requests w) (query cfg "device-list") = Responds r ->
  ~ (400 <= status_code r < 600) ->
  body r = Return (JObj o) ->
  assoc "host" o = Some (JArr hosts) ->
  hosts <> [] ->
  Forall (fun d => is_dict d = true) hosts ->
  ACTIVE_CLIENTS (snd (update_clients cfg net w))
  = map snd (sort_by_key (map (fun d => (sort_key d, d)) hosts)).
Proof.
  intros Hnet Hst Hbody Hhost Hne Hdict.
  destruct (keen_get_cases cfg net "device-list" w) as (_ & _ & _ & _ & Hf).
  rewrite Hnet, Hbody in Hf.
  replace ((400 <=? status_code r) && (status_code r <? 600)) with false in Hf.
  2:{ symmetry. apply andb_false_iff.
      destruct (Z.leb_spec 400 (status_code r)); [right|left; reflexivity].
      apply Z.ltb_ge. lia. }
  unfold update_clients, try_except, mbind, lift.
  destruct (keen_get cfg net "device-list" w) as [res w1]. cbn in Hf. subst res.
  assert (Ho : truthy (JObj o) = true) by (destruct o; [discriminate Hhost|reflexivity]).
  rewrite Ho. cbn [negb get]. rewrite Hhost.
  assert (Hh : truthy (JArr hosts) = true) by (destruct hosts; [contradiction|reflexivity]).
  rewrite Hh. cbn [negb iter bind]. unfold sorted.
  rewrite (map_result_total ip_sort hosts).
  2:{ eapply List.Forall_impl; [|exact Hdict]. intros d. apply ip_sort_dict. }
  reflexivity.
Qed.

Lemma sorted_keys_perm (hosts : list json) :
  Permutation hosts (map snd (sort_by_key (map (fun d => (sort_key d, d)) hosts))).
Proof.
  rewrite <- sort_by_key_perm, map_map. cbn. rewrite map_id. reflexivity.
Qed.

Lemma sorted_keys_fst (hosts : list json) :
  Forall (fun x => fst x = sort_key (snd x))
    (sort_by_key (map (fun d => (sort_key d, d)) hosts)).
Proof.
  eapply Permutation_Forall; [apply sort_by_key_perm|].
  apply Forall_map, Forall_forall. reflexivity.
Qed.

Lemma sorted_keys_sorted (hosts : list json) :
  StronglySorted (fun a b => tuple_le (sort_key a) (sort_key b) = true)
    (map snd (sort_by_key (map (fun d => (sort_key d, d)) hosts))).
Proof.
  pose proof (sort_by_key_sorted (map (fun d => (sort_key d, d)) hosts)) as Hs.
  pose proof (sorted_keys_fst hosts) as Hk.
  induction Hs as [|x l Hs IH Hx]; cbn; [constructor|].
  apply Forall_cons in Hk as [Ex Hk].
  constructor; [apply IH, Hk|].
  apply Forall_map. rewrite Forall_forall in Hx, Hk |- *.
  intros y Hy. specialize (Hx y Hy). specialize (Hk y Hy).
  unfold key_le in Hx. rewrite Ex, Hk in Hx. exact Hx.
Qed.

Lemma sorted_keys_stable (hosts : list json) (k : list Z) :
  List.filter (fun d => bool_decide (sort_key d = k))
    (map snd (sort_by_key (map (fun d => (sort_key d, d)) hosts)))
  = List.filter (fun d => bool_decide (sort_key d = k)) hosts.
Proof.
  assert (Hf : forall l : list (list Z * json),
             Forall (fun x => fst x = sort_key (snd x)) l ->
             List.filter (fun d => bool_decide (sort_key d = k)) (map snd l)
             = map snd (List.filter (fun y => bool_decide (fst y = k)) l)).
  { induction 1 as [|x l Hx _ IH]; cbn; [reflexivity|].
    rewrite Hx, IH. destruct (bool_decide (sort_key (snd x) = k)); reflexivity. }
  rewrite (Hf _ (sorted_keys_fst hosts)), sort_by_key_stable.
  rewrite <- Hf; [rewrite map_map, map_id; reflexivity|].
  apply Forall_map, Forall_forall. reflexivity.
Qed.

Lemma strongly_sorted_suffix {A} (R : A -> A -> Prop) (l1 l2 : list A) :
  StronglySorted R (l1 ++ l2) -> StronglySorted R l2.
Proof.
  induction l1 as [|x l1 IH]; cbn; [auto|].
  intros H. apply StronglySorted_inv in H as [H _]. auto.
Qed.

(** C5, as amended: after a successful fetch the device list is the host
    array sorted, stably, by a key compared number by number.  The key of an
    address made of four dot-separated decimal numbers is these four numbers.
    A device without an address, or whose address is not a string, is keyed
    as 0.0.0.0, so a device with a dotted-quad address stands in front of it
    only if that address is itself 0.0.0.0.  Any other address is keyed by those
    of its dot-separated components that [str.isdigit] accepts, as [int] reads
    them, or as 0.0.0.0 when [int] rejects one of them; it goes where that
    key puts it.  The three devices 10.0.0.5, 10.0.0.20 and one without
    address come out as (no address), 10.0.0.5, 10.0.0.20. *)
Theorem update_clients_sorted_by_ip cfg net w r o hosts :
  net (sent_requests w) (query cfg "device-list") = Responds r ->
  ~ (400 <= status_code r < 600) ->
  body r = Return (JObj o) ->
  assoc "host" o = Some (JArr hosts) ->
  hosts <> [] ->
  Forall (fun d => is_dict d = true) hosts ->
  Permutation hosts (ACTIVE_CLIENTS (snd (update_clients cfg net w))) /\
  StronglySorted (fun a b => tuple_le (sort_key a) (sort_key b) = true)
    (ACTIVE_CLIENTS (snd (update_clients cfg net w))) /\
  (forall k,
     List.filter (fun d => bool_decide (sort_key d = k))
       (ACTIVE_CLIENTS (snd (update_clients cfg net w)))
     = List.filter (fun d => bool_decide (sort_key d = k)) hosts) /\
  (forall od s,
     assoc "ip" od = Some (JStr s) -> dotted_quad s = true ->
     sort_key (JObj od) = map decimal_value (split "."%char s) /\
     length (split "."%char s) = 4%nat) /\
  (forall od, assoc "ip" od = None -> sort_key (JObj od) = [0; 0; 0; 0]) /\
  (forall od v,
     assoc "ip" od = Some v -> (forall s, v <> JStr s) ->
     sort_key (JObj od) = [0; 0; 0; 0]) /\
  (forall od s,
     assoc "ip" od = Some (JStr s) ->
     sort_key (JObj od) =
       match map_result
               (fun x => match int_of_str x with
                         | Some n => Return n
                         | None => Raise ValueError
                         end)
               (List.filter isdigit (split "."%char s)) with
       | Return k => k
       | Raise _ => [0; 0; 0; 0]
       end) /\
  (forall l1 d l2 m od s om,
     ACTIVE_CLIENTS (snd (update_clients cfg net w)) = l1 ++ d :: l2 ->
     In m l2 ->
     d = JObj od -> assoc "ip" od = Some (JStr s) -> dotted_quad s = true ->
     m = JObj om -> assoc "ip" om = None ->
     sort_key d = [0; 0; 0; 0]) /\
  ACTIVE_CLIENTS (snd (update_clients cfg0 (always (device_list three_hosts)) initial))
  = [device_without_ip "AA:00:00:00:00:99" (JBool false);
     device "AA:00:00:00:00:05" "10.0.0.5" (JBool true);
     device "AA:00:00:00:00:20" "10.0.0.20" (JBool true)].
Proof.
  intros Hnet Hst Hbody Hhost Hne Hdict.
  rewrite (update_clients_sorted cfg net w r o hosts Hnet Hst Hbody Hhost Hne Hdict).
  split; [apply sorted_keys_perm|].
  split; [apply sorted_keys_sorted|].
  split; [intros k; apply sorted_keys_stable|].
  split.
  { intros od s Hip Hq. destruct (sort_key_dotted_quad od s Hip Hq) as (Hk & Hlen & _).
    unfold sort_key. rewrite Hk. auto. }
  split.
  { intros od Hip. unfold sort_key. rewrite (sort_key_missing_ip od Hip). reflexivity. }
  split.
  { intros od v Hip Hv. unfold sort_key.
    rewrite (sort_key_ip_not_str od v Hip Hv). reflexivity. }
  split.
  { intros od s Hip. unfold sort_key. rewrite (sort_key_of_string od s Hip). reflexivity. }
  split; [|vm_compute; reflexivity].
  intros l1 d l2 m od s om Hl Hm -> Hip Hq -> Hnone.
  pose proof (sorted_keys_sorted hosts) as Hs. rewrite Hl in Hs.
  apply strongly_sorted_suffix in Hs.
  apply StronglySorted_inv in Hs as [_ Hall].
  rewrite List.Forall_forall in Hall. specialize (Hall _ Hm).
  destruct (sort_key_dotted_quad od s Hip Hq) as (Hk & Hlen & Hnn).
  unfold sort_key in *. rewrite Hk, (sort_key_missing_ip om Hnone) in *.
  destruct (map decimal_value (split "."%char s)) as [|a [|b [|c [|d [|]]]]] eqn:E;
    try (apply (f_equal (@length Z)) in E; rewrite length_map, Hlen in E; discriminate E).
  apply Forall_cons in Hnn as [Ha Hnn]. apply Forall_cons in Hnn as [Hb Hnn].
  apply Forall_cons in Hnn as [Hc Hnn]. apply Forall_cons in Hnn as [Hd _].
  apply tuple_le_zero_quad; assumption.
Qed.

Lemma update_clients_sorted_by_ip_witness :
  always (device_list three_hosts) (sent_requests initial) (query cfg0 "device-list")
    = Responds (device_list three_hosts) /\
  ~ (400 <= status_code (device_list three_hosts) < 600) /\
  body (device_list three_hosts) = Return (JObj [("host", JArr three_hosts)]) /\
  assoc "host" [("host", JArr three_hosts)] = Some (JArr three_hosts) /\
  three_hosts <> [] /\
  Forall (fun d => is_dict d = true) three_hosts /\
  StronglySorted (fun a b => tuple_le (sort_key a) (sort_key b) = true)
    (ACTIVE_CLIENTS
       (snd (update_clients cfg0 (always (device_list three_hosts)) initial))).
Proof.
  assert (Hst : ~ (400 <= status_code (device_list three_hosts) < 600)) by (cbn; lia).
  assert (Hne : three_hosts <> []) by discriminate.
  assert (Hd : Forall (fun d => is_dict d = true) three_hosts)
    by (repeat constructor).
  split; [reflexivity|]. split; [exact Hst|]. split; [reflexivity|].
  split; [reflexivity|]. split; [exact Hne|]. split; [exact Hd|].
  exact (proj1 (proj2 (update_clients_sorted_by_ip cfg0 (always (device_list three_hosts))
           initial (device_list three_hosts) [("host", JArr three_hosts)] three_hosts
           eq_refl Hst eq_refl eq_refl Hne Hd))).
Defined.

(** C5, counterexample: the malformed address 10.0.0.x is keyed (10, 0, 0)
    and its device lands behind the device at 9.9.9.9, though the router listed
    it first. *)
Lemma malformed_ip_sorts_after_well_formed :
  dotted_quad "10.0.0.x" = false /\
  dotted_quad "9.9.9.9" = true /\
  sort_key (device "BB:00:00:00:00:01" "10.0.0.x" (JBool true)) = [10; 0; 0] /\
  sort_key (device "BB:00:00:00:00:02" "9.9.9.9" (JBool true)) = [9; 9; 9; 9] /\
  ACTIVE_CLIENTS (snd (update_clients cfg0 (always (device_list malformed_hosts)) initial))
  = [device "BB:00:00:00:00:02" "9.9.9.9" (JBool true);
     device "BB:00:00:00:00:01" "10.0.0.x" (JBool true)].
Proof. repeat split; vm_compute; reflexivity. Qed.

(** An address with a component that [str.isdigit] accepts and [int]
    rejects, a superscript two, is keyed as 0.0.0.0; decimal digits of another
    script are read as numbers. *)
Example sort_key_of_other_digits :
  isdigit "²" = true /\
  int_of_str "²" = None /\
  sort_key (device "BB:00:00:00:00:03" "10.0.0.²" (JBool true)) = [0; 0; 0; 0] /\
  sort_key (device "BB:00:00:00:00:04" "10.0.0.١٢" (JBool true)) = [10; 0; 0; 12].
Proof. repeat split; vm_compute; reflexivity. Qed.

(** C6, as amended: after a successful fetch the device list holds every
    entry of the host array, duplicates included (it is a permutation of the
    array); its entries have pairwise distinct macs exactly when those of the
    array have. *)
Theorem update_clients_keeps_every_host cfg net w r o hosts :
  net (sent_requests w) (query cfg "device-list") = Responds r ->
  ~ (400 <= status_code r < 600) ->
  body r = Return (JObj o) ->
  assoc "host" o = Some (JArr hosts) ->
  hosts <> [] ->
  Forall (fun d => is_dict d = true) hosts ->
  Permutation hosts (ACTIVE_CLIENTS (snd (update_clients cfg net w))) /\
  (List.NoDup (map (fun d => getitem d "mac") (ACTIVE_CLIENTS (snd (update_clients cfg net w))))
   <-> List.NoDup (map (fun d => getitem d "mac") hosts)).
Proof.
  intros Hnet Hst Hbody Hhost Hne Hdict.
  rewrite (update_clients_sorted cfg net w r o hosts Hnet Hst Hbody Hhost Hne Hdict).
  pose proof (sorted_keys_perm hosts) as Hp.
  split; [exact Hp|].
  split; apply Permutation_NoDup, Permutation_map;
    [symmetry; exact Hp|exact Hp].
Qed.

Lemma update_clients_keeps_every_host_witness :
  always (device_list duplicate_hosts) (sent_requests initial) (query cfg0 "device-list")
    = Responds (device_list duplicate_hosts) /\
  ~ (400 <= status_code (device_list duplicate_hosts) < 600) /\
  body (device_list duplicate_hosts) = Return (JObj [("host", JArr duplicate_hosts)]) /\
  assoc "host" [("host", JArr duplicate_hosts)] = Some (JArr duplicate_hosts) /\
  duplicate_hosts <> [] /\
  Forall (fun d => is_dict d = true) duplicate_hosts /\
  Permutation duplicate_hosts
    (ACTIVE_CLIENTS
       (snd (update_clients cfg0 (always (device_list duplicate_hosts)) initial))).
Proof.
  assert (Hst : ~ (400 <= status_code (device_list duplicate_hosts) < 600)) by (cbn; lia).
  assert (Hne : duplicate_hosts <> []) by discriminate.
  assert (Hd : Forall (fun d => is_dict d = true) duplicate_hosts)
    by (repeat constructor).
  split; [reflexivity|]. split; [exact Hst|]. split; [reflexivity|].
  split; [reflexivity|]. split; [exact Hne|]. split; [exact Hd|].
  exact (proj1 (update_clients_keeps_every_host cfg0 (always (device_list duplicate_hosts))
           initial (device_list duplicate_hosts) [("host", JArr duplicate_hosts)]
           duplicate_hosts eq_refl Hst eq_refl eq_refl Hne Hd)).
Defined.

(** C6, counterexample: the router reports one host twice, and the device
    list holds two entries with the same mac. *)
Lemma duplicate_hosts_are_kept :
  ACTIVE_CLIENTS (snd (update_clients cfg0 (always (device_list duplicate_hosts)) initial))
  = [device "CC:00:00:00:00:01" "10.0.0.7" (JBool true);
     device "CC:00:00:00:00:01" "10.0.0.7" (JBool true)] /\
  ~ List.NoDup (map (fun d => getitem d "mac")
             (ACTIVE_CLIENTS
                (snd (update_clients cfg0 (always (device_list duplicate_hosts)) initial)))).
Proof.
  split; [vm_compute; reflexivity|].
  intros H. vm_compute in H. apply NoDup_cons_iff in H as [H _].
  apply H. left. reflexivity.
Qed.

(* ===================================================================== *)
(** ** Transitions *)
(* ===================================================================== *)

Lemma getitem_dict d k v : getitem d k = Return v -> exists o, d = JObj o.
Proof. destruct d; try discriminate. eauto. Qed.

Lemma describe_dict o m cur :
  exists n, describe (JObj o) m cur = Return n /\ mac n = m.
Proof. unfold describe. cbn. eexists. split; reflexivity. Qed.

(** The body of the loop on a device that has a hashable mac: the status is
    recorded, and the message goes to every allowed user when [changed]
    holds of the recorded and the current status. *)
Lemma check_device_ok cfg deliver d m k cur w :
  getitem d "mac" = Return m ->
  hash_key m = Return k ->
  get d "active" (JBool false) = Return cur ->
  exists n w',
    describe d m cur = Return n /\ mac n = m /\
    check_device cfg deliver d w = (Return tt, w') /\
    PREV_STATUS w' = <[k := cur]> (PREV_STATUS w) /\
    outbox w' = outbox w ++
      (if changed (match PREV_STATUS w !! k with Some v => v | None => JNull end) cur
       then map (fun u => (u, n)) (ALLOWED_USERS cfg) else []) /\
    sent_requests w' = sent_requests w /\
    ACTIVE_CLIENTS w' = ACTIVE_CLIENTS w.
Proof.
  intros Hm Hk Hc. destruct (getitem_dict d _ _ Hm) as [o ->].
  destruct (describe_dict o m cur) as (n & Hn & Hmac).
  exists n. unfold check_device, mbind, lift, get_PREV_STATUS, set_PREV_STATUS, ret.
  rewrite Hm, Hk, Hc, Hn.
  destruct (changed _ cur).
  - destruct (notify_all_spec cfg deliver n w) as (w1 & -> & Ho & Hr & Ha & Hp).
    eexists. repeat (split; [reflexivity||assumption|]). cbn.
    rewrite Hp, Ho, Hr, Ha. auto.
  - eexists. repeat (split; [reflexivity||assumption|]). cbn.
    rewrite app_nil_r. auto.
Qed.

Lemma changed_iff prev cur :
  changed prev cur = true <-> prev <> JNull /\ py_eq prev cur = false.
Proof.
  unfold changed, py_ne. rewrite andb_true_iff, negb_true_iff.
  split; intros [H1 H2]; (split; [|exact H2]).
  - intros ->. discriminate H1.
  - destruct prev; [contradiction|reflexivity..].
Qed.

(** C2, as amended: for a device entry with a (hashable) mac, the message
    goes out if and only if the last-known-state map holds for that mac a
    value that is not [None] and is not [==] to the current status; the map
    entry is set to the current status in either case; on a first
    observation nothing goes out, whatever the status, and the entry is
    made. *)
Theorem check_device_transition cfg deliver d m k cur w :
  getitem d "mac" = Return m ->
  hash_key m = Return k ->
  get d "active" (JBool false) = Return cur ->
  exists n,
    describe d m cur = Return n /\
    fst (check_device cfg deliver d w) = Return tt /\
    PREV_STATUS (snd (check_device cfg deliver d w)) = <[k := cur]> (PREV_STATUS w) /\
    ((exists v, PREV_STATUS w !! k = Some v /\ v <> JNull /\ py_eq v cur = false) ->
     outbox (snd (check_device cfg deliver d w))
     = outbox w ++ map (fun u => (u, n)) (ALLOWED_USERS cfg)) /\
    (~ (exists v, PREV_STATUS w !! k = Some v /\ v <> JNull /\ py_eq v cur = false) ->
     outbox (snd (check_device cfg deliver d w)) = outbox w) /\
    (PREV_STATUS w !! k = None ->
     outbox (snd (check_device cfg deliver d w)) = outbox w /\
     PREV_STATUS (snd (check_device cfg deliver d w)) !! k = Some cur).
Proof.
  intros Hm Hk Hc.
  destruct (check_device_ok cfg deliver d m k cur w Hm Hk Hc)
    as (n & w' & Hn & _ & -> & Hp & Ho & _ & _).
  exists n. cbn [fst snd]. split; [exact Hn|]. split; [reflexivity|].
  split; [exact Hp|]. rewrite Ho, Hp.
  destruct (changed _ cur) eqn:E.
  - apply changed_iff in E as [E1 E2].
    destruct (PREV_STATUS w !! k) as [v|] eqn:Ev; [|contradiction].
    split; [reflexivity|]. split; [|discriminate].
    intros H. exfalso. apply H. eauto.
  - rewrite app_nil_r. split; [|split; [reflexivity|]].
    + intros (v & Ev & Hv1 & Hv2). rewrite Ev in E.
      assert (changed v cur = true) by (apply changed_iff; auto). congruence.
    + intros _. split; [reflexivity|]. apply lookup_insert_eq.
Qed.

Lemma check_device_transition_witness :
  getitem (device "DD:00:00:00:00:01" "10.0.0.9" (JBool false)) "mac"
    = Return (JStr "DD:00:00:00:00:01") /\
  hash_key (JStr "DD:00:00:00:00:01") = Return (KStr "DD:00:00:00:00:01") /\
  get (device "DD:00:00:00:00:01" "10.0.0.9" (JBool false)) "active" (JBool false)
    = Return (JBool false) /\
  exists n,
    describe (device "DD:00:00:00:00:01" "10.0.0.9" (JBool false))
      (JStr "DD:00:00:00:00:01") (JBool false) = Return n /\
    outbox (snd (check_device cfg0 accept_all
                   (device "DD:00:00:00:00:01" "10.0.0.9" (JBool false)) seen_online))
    = [(1001, n); (1002, n)].
Proof.
  split; [reflexivity|]. split; [reflexivity|]. split; [reflexivity|].
  destruct (check_device_transition cfg0 accept_all
              (device "DD:00:00:00:00:01" "10.0.0.9" (JBool false))
              (JStr "DD:00:00:00:00:01") (KStr "DD:00:00:00:00:01") (JBool false)
              seen_online eq_refl eq_refl eq_refl)
    as (n & Hn & _ & _ & Hemit & _).
  exists n. split; [exact Hn|].
  apply Hemit. exists (JBool true).
  split; [vm_compute; reflexivity|]. split; [discriminate|reflexivity].
Defined.

(** C2, counterexample: a first poll reports the status of a device as
    [null], so the map holds an entry for its mac; the next poll reports
    [true], which differs from the entry; yet no message goes out. *)
Lemma null_status_hides_transition :
  PREV_STATUS (snd (check_status_change cfg0 null_then_true accept_all 1 initial))
    !! KStr "DD:00:00:00:00:01" = Some JNull /\
  ACTIVE_CLIENTS (snd (check_status_change cfg0 null_then_true accept_all 2 initial))
    = [device "DD:00:00:00:00:01" "10.0.0.9" (JBool true)] /\
  py_eq JNull (JBool true) = false /\
  outbox (snd (check_status_change cfg0 null_then_true accept_all 2 initial)) = [] /\
  PREV_STATUS (snd (check_status_change cfg0 null_then_true accept_all 2 initial))
    !! KStr "DD:00:00:00:00:01" = Some (JBool true).
Proof. repeat split; vm_compute; reflexivity. Qed.

(* ===================================================================== *)
(** ** One turn of the loop, device by device *)
(* ===================================================================== *)

Lemma for_each_app {A} (l1 l2 : list A) (body : A -> M unit) w :
  for_each (l1 ++ l2) body w =
  match for_each l1 body w with
  | (Raise e, w') => (Raise e, w')
  | (Return _, w') => for_each l2 body w'
  end.
Proof.
  revert w. induction l1 as [|x l1 IH]; intros w; cbn; [reflexivity|].
  unfold mbind. destruct (body x w) as [[e|[]] w1]; [reflexivity|apply IH].
Qed.

Lemma device_key_inv d k :
  device_key d = Return k ->
  exists m cur, getitem d "mac" = Return m /\ hash_key m = Return k /\
                device_status d = Return cur.
Proof.
  unfold device_key, device_status. destruct (getitem d "mac") as [e|m] eqn:E; cbn;
    [discriminate|].
  intros Hk. destruct (getitem_dict d _ _ E) as [o ->]. cbn. eauto.
Qed.

(** The messages a device gives rise to carry its mac. *)
Lemma check_device_outbox cfg deliver d w :
  exists extra,
    outbox (snd (check_device cfg deliver d w)) = outbox w ++ extra /\
    Forall (fun x => hash_key (mac (snd x)) = device_key d) extra.
Proof.
  destruct (device_key d) as [e|k] eqn:Ek.
  - exists []. rewrite app_nil_r. split; [|constructor].
    unfold device_key in Ek. unfold check_device, mbind, lift.
    destruct (getitem d "mac") as [e'|m]; cbn in *; [reflexivity|].
    rewrite Ek. reflexivity.
  - destruct (device_key_inv d k Ek) as (m & cur & Hm & Hk & Hc).
    destruct (check_device_ok cfg deliver d m k cur w Hm Hk Hc)
      as (n & w' & _ & Hmac & -> & _ & Ho & _ & _).
    eexists. split; [exact Ho|].
    destruct (changed _ cur); [|constructor].
    apply Forall_map, Forall_forall. intros u _. cbn. congruence.
Qed.

(** A device leaves the entries of the other macs as they are. *)
Lemma check_device_other_key cfg deliver d k w :
  device_key d <> Return k ->
  PREV_STATUS (snd (check_device cfg deliver d w)) !! k = PREV_STATUS w !! k.
Proof.
  intros Hne. destruct (device_key d) as [e|k0] eqn:Ek.
  - unfold device_key in Ek. unfold check_device, mbind, lift.
    destruct (getitem d "mac") as [e'|m]; cbn in *; [reflexivity|].
    rewrite Ek. reflexivity.
  - destruct (device_key_inv d k0 Ek) as (m & cur & Hm & Hk & Hc).
    destruct (check_device_ok cfg deliver d m k0 cur w Hm Hk Hc)
      as (n & w' & _ & _ & -> & Hp & _ & _ & _).
    cbn. rewrite Hp. apply lookup_insert_ne. congruence.
Qed.


Lemma for_each_outbox cfg deliver l w :
  exists extra,
    outbox (snd (for_each l (check_device cfg deliver) w)) = outbox w ++ extra /\
    Forall (fun x => exists e, In e l /\ hash_key (mac (snd x)) = device_key e) extra.
Proof.
  revert w. induction l as [|d l IH]; intros w.
  - exists []. cbn. rewrite app_nil_r. split; [reflexivity|constructor].
  - destruct (check_device_outbox cfg deliver d w) as (ex1 & H1 & F1).
    cbn [for_each]. unfold mbind.
    destruct (check_device cfg deliver d w) as [[e|[]] w1]; cbn [snd] in *.
    + exists ex1. split; [exact H1|].
      eapply List.Forall_impl; [|exact F1]. intros x Hx. exists d. split; [left|]; auto.
    + destruct (IH w1) as (ex2 & H2 & F2). exists (ex1 ++ ex2).
      rewrite H2, H1, <- app_assoc. split; [reflexivity|].
      apply Forall_app. split.
      * eapply List.Forall_impl; [|exact F1]. intros x Hx. exists d. split; [left|]; auto.
      * eapply List.Forall_impl; [|exact F2]. intros x (e & He & Hx).
        exists e. split; [right|]; auto.
Qed.

Lemma for_each_other_keys cfg deliver l k w :
  Forall (fun e => device_key e <> Return k) l ->
  PREV_STATUS (snd (for_each l (check_device cfg deliver) w)) !! k = PREV_STATUS w !! k.
Proof.
  intros H. revert w. induction H as [|d l Hd _ IH]; intros w; [reflexivity|].
  pose proof (check_device_other_key cfg deliver d k w Hd) as H1.
  cbn [for_each]. unfold mbind.
  destruct (check_device cfg deliver d w) as [[e|[]] w1]; cbn [snd] in *; [exact H1|].
  rewrite IH. exact H1.
Qed.

Lemma for_each_returns cfg deliver l w :
  Forall (fun e => exists k, device_key e = Return k) l ->
  fst (for_each l (check_device cfg deliver) w) = Return tt.
Proof.
  intros H. revert w. induction H as [|d l [k Hd] _ IH]; intros w; [reflexivity|].
  destruct (device_key_inv d k Hd) as (m & cur & Hm & Hk & Hc).
  destruct (check_device_ok cfg deliver d m k cur w Hm Hk Hc)
    as (n & w' & _ & _ & E & _).
  cbn [for_each]. unfold mbind. rewrite E. apply IH.
Qed.

(** A turn of the loop, split into the fetch and the pass over the devices;
    the handler of the turn only writes a log line. *)
Lemma cycle_unfold cfg net deliver w :
  exists w0,
    update_clients cfg net w = (Return tt, w0) /\
    PREV_STATUS w0 = PREV_STATUS w /\
    outbox w0 = outbox w /\
    cycle cfg net deliver w =
      match for_each (ACTIVE_CLIENTS w0) (check_device cfg deliver) w0 with
      | (Raise _, w1) => logging ERROR "Error in status check" w1
      | (Return _, w1) => (Return tt, w1)
      end.
Proof.
  destruct (update_clients_frame cfg net w) as (H1 & _ & H3 & H4).
  unfold cycle, try_except, mbind, get_ACTIVE_CLIENTS.
  destruct (update_clients cfg net w) as [[e|[]] w0]; cbn in *; [discriminate|].
  exists w0. repeat (split; [reflexivity||assumption|]).
  destruct (for_each (ACTIVE_CLIENTS w0) (check_device cfg deliver) w0)
    as [[e|[]] w1]; reflexivity.
Qed.

Lemma cycle_fields cfg net deliver w :
  exists w0,
    update_clients cfg net w = (Return tt, w0) /\
    PREV_STATUS w0 = PREV_STATUS w /\
    outbox w0 = outbox w /\
    ACTIVE_CLIENTS (snd (cycle cfg net deliver w)) = ACTIVE_CLIENTS w0 /\
    PREV_STATUS (snd (cycle cfg net deliver w))
      = PREV_STATUS (snd (for_each (ACTIVE_CLIENTS w0) (check_device cfg deliver) w0)) /\
    outbox (snd (cycle cfg net deliver w))
      = outbox (snd (for_each (ACTIVE_CLIENTS w0) (check_device cfg deliver) w0)).
Proof.
  destruct (cycle_unfold cfg net deliver w) as (w0 & Hu & Hp & Ho & ->).
  exists w0. repeat (split; [assumption|]).
  destruct (for_each_check_frame cfg deliver (ACTIVE_CLIENTS w0) w0) as [_ Ha].
  destruct (for_each (ACTIVE_CLIENTS w0) (check_device cfg deliver) w0)
    as [[e|[]] w1]; cbn in *; auto.
Qed.

Lemma for_each_last_status cfg deliver la e lb k c w :
  Forall (fun e' => exists k', device_key e' = Return k') la ->
  device_key e = Return k ->
  device_status e = Return c ->
  Forall (fun e' => device_key e' <> Return k) lb ->
  PREV_STATUS (snd (for_each (la ++ e :: lb) (check_device cfg deliver) w)) !! k = Some c.
Proof.
  intros Hla Hk Hc Hlb.
  rewrite for_each_app.
  pose proof (for_each_returns cfg deliver la w Hla) as Hr.
  destruct (for_each la (check_device cfg deliver) w) as [[x|[]] wa]; [discriminate Hr|].
  cbn [for_each]. unfold mbind.
  destruct (device_key_inv e k Hk) as (m & cur & Hm & Hkey & Hcur).
  assert (cur = c) as -> by congruence.
  destruct (check_device_ok cfg deliver e m k c wa Hm Hkey Hcur)
    as (n & w' & _ & _ & -> & Hp & _).
  rewrite (for_each_other_keys cfg deliver lb k w' Hlb), Hp.
  apply lookup_insert_eq.
Qed.

(** The loop is never left: after a turn comes the next. *)
Lemma check_status_change_step cfg net deliver n w :
  check_status_change cfg net deliver (S n) w
  = check_status_change cfg net deliver n (snd (cycle cfg net deliver w)).
Proof.
  cbn [check_status_change]. unfold mbind at 1.
  destruct (cycle_frame cfg net deliver w) as [Hr _].
  destruct (cycle cfg net deliver w) as [[x|[]] w1]; [discriminate Hr|reflexivity].
Qed.

(** C10: when an entry of the sorted device list has no ["mac"], the pass
    over the devices ends there with a [KeyError], which the turn catches and
    logs.  The entries in front of it have had their status recorded; a mac
    that does not occur in front of it keeps its entry of before the turn and
    gets no message; and the loop goes on with its next turn. *)
Theorem cycle_stops_at_missing_mac cfg net deliver n w w0 l1 d l2 :
  update_clients cfg net w = (Return tt, w0) ->
  ACTIVE_CLIENTS w0 = l1 ++ d :: l2 ->
  Forall (fun e => exists k, device_key e = Return k) l1 ->
  getitem d "mac" = Raise KeyError ->
  for_each (l1 ++ d :: l2) (check_device cfg deliver) w0
    = (Raise KeyError, snd (for_each l1 (check_device cfg deliver) w0)) /\
  cycle cfg net deliver w
    = logging ERROR "Error in status check"
        (snd (for_each l1 (check_device cfg deliver) w0)) /\
  (forall la e lb k c,
     l1 = la ++ e :: lb ->
     device_key e = Return k -> device_status e = Return c ->
     Forall (fun e' => device_key e' <> Return k) lb ->
     PREV_STATUS (snd (cycle cfg net deliver w)) !! k = Some c) /\
  (forall k,
     Forall (fun e => device_key e <> Return k) l1 ->
     PREV_STATUS (snd (cycle cfg net deliver w)) !! k = PREV_STATUS w !! k /\
     exists extra,
       outbox (snd (cycle cfg net deliver w)) = outbox w ++ extra /\
       Forall (fun x => hash_key (mac (snd x)) <> Return k) extra) /\
  check_status_change cfg net deliver (S n) w
    = check_status_change cfg net deliver n (snd (cycle cfg net deliver w)).
Proof.
  intros Hu Hl Hwf Hd.
  assert (Hfor : for_each (l1 ++ d :: l2) (check_device cfg deliver) w0
                 = (Raise KeyError, snd (for_each l1 (check_device cfg deliver) w0))).
  { rewrite for_each_app.
    pose proof (for_each_returns cfg deliver l1 w0 Hwf) as Hr.
    destruct (for_each l1 (check_device cfg deliver) w0) as [[x|[]] w1];
      [discriminate Hr|].
    cbn [for_each snd]. unfold mbind, check_device, mbind, lift. rewrite Hd. reflexivity. }
  destruct (cycle_unfold cfg net deliver w) as (w0' & Hu' & Hp0 & Ho0 & Hc).
  assert (w0' = w0) as -> by congruence.
  rewrite Hl, Hfor in Hc.
  split; [exact Hfor|]. split; [exact Hc|].
  split; [|split; [|apply check_status_change_step]];
    rewrite Hc; cbn [snd logging PREV_STATUS outbox].
  - intros la e lb k c -> Hk Hst Hlb.
    apply for_each_last_status; auto.
    apply Forall_app in Hwf as [Hwf _]. exact Hwf.
  - intros k Hk.
    rewrite (for_each_other_keys cfg deliver l1 k w0 Hk), Hp0. split; [reflexivity|].
    destruct (for_each_outbox cfg deliver l1 w0) as (extra & He & Hf).
    exists extra. rewrite He, Ho0. split; [reflexivity|].
    eapply List.Forall_impl; [|exact Hf]. intros x (e & Hin & Hx).
    rewrite List.Forall_forall in Hk. specialize (Hk e Hin). congruence.
Qed.

Lemma cycle_stops_at_missing_mac_witness :
  update_clients cfg0 (always (device_list hosts_with_faulty_entry)) initial
    = (Return tt,
       snd (update_clients cfg0 (always (device_list hosts_with_faulty_entry)) initial)) /\
  ACTIVE_CLIENTS
    (snd (update_clients cfg0 (always (device_list hosts_with_faulty_entry)) initial))
    = [device "EE:00:00:00:00:01" "10.0.0.1" (JBool true)] ++
      JObj [("ip", JStr "10.0.0.2"); ("active", JBool true)] ::
      [device "EE:00:00:00:00:03" "10.0.0.3" (JBool true)] /\
  Forall (fun e => exists k, device_key e = Return k)
    [device "EE:00:00:00:00:01" "10.0.0.1" (JBool true)] /\
  getitem (JObj [("ip", JStr "10.0.0.2"); ("active", JBool true)]) "mac" = Raise KeyError /\
  cycle cfg0 (always (device_list hosts_with_faulty_entry)) accept_all initial
    = logging ERROR "Error in status check"
        (snd (for_each [device "EE:00:00:00:00:01" "10.0.0.1" (JBool true)]
                (check_device cfg0 accept_all)
                (snd (update_clients cfg0 (always (device_list hosts_with_faulty_entry))
                        initial)))).
Proof.
  assert (H1 : update_clients cfg0 (always (device_list hosts_with_faulty_entry)) initial
    = (Return tt,
       snd (update_clients cfg0 (always (device_list hosts_with_faulty_entry)) initial)))
    by (vm_compute; reflexivity).
  assert (H2 : ACTIVE_CLIENTS
    (snd (update_clients cfg0 (always (device_list hosts_with_faulty_entry)) initial))
    = [device "EE:00:00:00:00:01" "10.0.0.1" (JBool true)] ++
      JObj [("ip", JStr "10.0.0.2"); ("active", JBool true)] ::
      [device "EE:00:00:00:00:03" "10.0.0.3" (JBool true)])
    by (vm_compute; reflexivity).
  assert (H3 : Forall (fun e => exists k, device_key e = Return k)
    [device "EE:00:00:00:00:01" "10.0.0.1" (JBool true)]).
  { constructor; [|constructor]. eexists. reflexivity. }
  assert (H4 : getitem (JObj [("ip", JStr "10.0.0.2"); ("active", JBool true)]) "mac"
               = Raise KeyError) by reflexivity.
  split; [exact H1|]. split; [exact H2|]. split; [exact H3|]. split; [exact H4|].
  exact (proj1 (proj2 (cycle_stops_at_missing_mac cfg0
           (always (device_list hosts_with_faulty_entry)) accept_all 1 initial _ _ _ _
           H1 H2 H3 H4))).
Defined.

(** The same turn by its outcome: the device in front of the faulty entry
    is recorded, the one behind it is not, and the turn has logged the
    error. *)
Example faulty_entry_turn :
  PREV_STATUS (snd (cycle cfg0 (always (device_list hosts_with_faulty_entry))
                      accept_all initial)) !! KStr "EE:00:00:00:00:01"
    = Some (JBool true) /\
  PREV_STATUS (snd (cycle cfg0 (always (device_list hosts_with_faulty_entry))
                      accept_all initial)) !! KStr "EE:00:00:00:00:03"
    = None /\
  log (snd (cycle cfg0 (always (device_list hosts_with_faulty_entry))
              accept_all initial))
    = [(ERROR, "Error in status check")].
Proof. repeat split; vm_compute; reflexivity. Qed.

(* ===================================================================== *)
(** ** Failed polls *)
(* ===================================================================== *)

(** A fetch that fails, or that brings no host, empties the device list. *)
Lemma update_clients_failed cfg net w :
  ((exists e, net (sent_requests w) (query cfg "device-list") = Fails e) \/
   (exists r, net (sent_requests w) (query cfg "device-list") = Responds r /\
      (400 <= status_code r < 600 \/ (exists e, body r = Raise e) \/
       exists o, body r = Return (JObj o) /\
                 (assoc "host" o = None \/ assoc "host" o = Some (JArr []))))) ->
  ACTIVE_CLIENTS (snd (update_clients cfg net w)) = [].
Proof.
  intros H.
  destruct (keen_get_cases cfg net "device-list" w) as (_ & _ & _ & _ & Hf).
  unfold update_clients, try_except, mbind, lift.
  destruct (keen_get cfg net "device-list" w) as [res w1]. cbn [fst] in Hf. subst res.
  destruct H as [[e ->]|(r & -> & H)].
  - destruct e; reflexivity.
  - destruct ((400 <=? status_code r) && (status_code r <? 600)) eqn:Est; [reflexivity|].
    destruct H as [H|[[e ->]|(o & -> & H)]]; [|destruct e; reflexivity|].
    + exfalso. apply andb_false_iff in Est as [E|E];
        [apply Z.leb_gt in E|apply Z.ltb_ge in E]; lia.
    + destruct o as [|kv o]; [reflexivity|]. cbn [truthy negb get].
      destruct H as [-> | ->]; reflexivity.
Qed.







(* ===================================================================== *)
(** ** Memory accounting *)
(* ===================================================================== *)

Section MemoryAccounting.
Import Memory.

(** A division by a number other than zero raises [OverflowError] or
    nothing. *)
Lemma true_div_raises a b e : b <> 0 -> true_div a b = Raise e -> e = OverflowError.
Proof.
  intros Hb. unfold true_div. destruct (Z.eqb_spec b 0); [contradiction|].
  destruct (round _); [discriminate| |discriminate]. intros [= <-]. reflexivity.
Qed.

Lemma percent_raises part whole e : percent part whole = Raise e -> e = OverflowError.
Proof.
  unfold percent. destruct (Z.ltb_spec 0 whole) as [H|H]; [|discriminate].
  destruct (true_div part whole) as [e'|q] eqn:E; [|discriminate].
  cbn [bind]. intros [= <-]. eapply true_div_raises; [|exact E]. lia.
Qed.

(** The accounting of a pair raises nothing but [OverflowError]. *)
Lemma account_raises used_kb total_kb e :
  account used_kb total_kb = Raise e -> e = OverflowError.
Proof.
  unfold account.
  destruct (true_div used_kb 1024) as [e1|u] eqn:E1; cbn [bind].
  { intros [= <-]. eapply true_div_raises; [|exact E1]. lia. }
  destruct (true_div total_kb 1024) as [e2|t] eqn:E2; cbn [bind].
  { intros [= <-]. eapply true_div_raises; [|exact E2]. lia. }
  destruct (percent used_kb total_kb) as [e3|p] eqn:E3; cbn [bind]; [|discriminate].
  intros [= <-]. eapply percent_raises, E3.
Qed.

Lemma memory_usage_parsed sys_info v used_kb total_kb :
  get sys_info "memory" (JStr "0/0") = Return v ->
  parse_combined v = Return (used_kb, total_kb) ->
  memory_usage sys_info = (account used_kb total_kb, ["memory"]).
Proof.
  intros Hg Hp. unfold memory_usage, read. rewrite Hg, Hp. cbn [bind fst snd app].
  destruct (account used_kb total_kb) as [e|u] eqn:E; [|reflexivity].
  pose proof (account_raises _ _ _ E) as ->. reflexivity.
Qed.

Lemma parse_combined_raises v e : parse_combined v = Raise e -> handled e = true.
Proof.
  destruct v; cbn; try (intros [= <-]; reflexivity).
  destruct (split "/"%char s) as [|a [|b [|]]]; try (intros [= <-]; reflexivity).
  destruct (int_of_str a), (int_of_str b); try discriminate; intros [= <-]; reflexivity.
Qed.

Lemma memory_usage_reads sys_info :
  snd (memory_usage sys_info) = ["memory"] \/
  exists o v e, sys_info = JObj o /\ assoc "memory" o = Some v /\
                parse_combined v = Raise e /\ handled e = true.
Proof.
  unfold memory_usage, read.
  destruct sys_info as [| | | | |o|]; try (left; reflexivity).
  cbn [get]. destruct (assoc "memory" o) as [v|] eqn:Ev; [|left; vm_compute; reflexivity].
  destruct (parse_combined v) as [e|[used total]] eqn:Ep; cbn [bind fst snd].
  - rewrite (parse_combined_raises v e Ep). right. exists o, v, e.
    repeat split; auto. apply (parse_combined_raises v e Ep).
  - left. destruct (account used total) as [e|u] eqn:E; [|reflexivity].
    pose proof (account_raises _ _ _ E) as ->. reflexivity.
Qed.

(** C4, as amended: the accounting reads the combined ["memory"] string
    first and, when it parses, reads nothing else: the result is the
    accounting of the pair, which raises nothing but [OverflowError].  The
    fields ["memtotal"] and ["memfree"] are read only when ["memory"] is
    malformed (an absent one stands for "0/0", which parses).  For
    "255592/524288" the result is used = 249.6015625 MB, total = 512 MB and
    percent = 48.75030517578125, that is 249.6, 512.0 and 48.75 when
    rounded. *)
Theorem memory_usage_combined_first sys_info :
  (forall v used_kb total_kb,
     get sys_info "memory" (JStr "0/0") = Return v ->
     parse_combined v = Return (used_kb, total_kb) ->
     memory_usage sys_info = (account used_kb total_kb, ["memory"])) /\
  (forall used_kb total_kb e, account used_kb total_kb = Raise e -> e = OverflowError) /\
  (In "memtotal" (snd (memory_usage sys_info)) \/
   In "memfree" (snd (memory_usage sys_info)) ->
   exists o v e, sys_info = JObj o /\ assoc "memory" o = Some v /\
                 parse_combined v = Raise e) /\
  hd_error (snd (memory_usage sys_info)) = Some "memory" /\
  exists used total percent,
    memory_usage (JObj [("memory", JStr "255592/524288");
                        ("memtotal", JNum 1000); ("memfree", JNum 10)])
      = (Return {| used_mb := Finite used; total_mb := Finite total;
                   mem_percent := Finite percent |}, ["memory"]) /\
    (used == 2496015625 # 10000000)%Q /\
    (total == 512 # 1)%Q /\
    (percent == 4875030517578125 # 100000000000000)%Q /\
    (24955 # 100 <= used)%Q /\ (used < 24965 # 100)%Q /\
    (48745 # 1000 <= percent)%Q /\ (percent < 48755 # 1000)%Q.
Proof.
  split; [intros v used total; apply memory_usage_parsed|].
  split; [apply account_raises|].
  split; [|split].
  - intros H. destruct (memory_usage_reads sys_info) as [E|(o & v & e & ? & ? & ? & _)].
    + rewrite E in H. cbn in H. destruct H as [[H|[]]|[H|[]]]; discriminate H.
    + exists o, v, e. auto.
  - unfold memory_usage, read.
    repeat match goal with
           | |- context [match ?x with _ => _ end] => destruct x; cbn
           end; reflexivity.
  - do 3 eexists. split; [vm_compute; reflexivity|].
    repeat split; vm_compute; congruence.
Qed.

(** C4, counterexample: for "255592/524288" the percentage is
    48.75030517578125; it lies below 48.755, so that it is 48.75, not 48.76,
    to two decimals. *)
Lemma memory_percent_is_not_48_76 :
  exists used total percent,
    fst (memory_usage (JObj [("memory", JStr "255592/524288")]))
      = Return {| used_mb := Finite used; total_mb := Finite total;
                  mem_percent := Finite percent |} /\
    (percent == 4875030517578125 # 100000000000000)%Q /\
    ~ (48755 # 1000 <= percent)%Q.
Proof.
  do 3 eexists. split; [vm_compute; reflexivity|].
  split; [vm_compute; reflexivity|].
  vm_compute. intros H. apply H. reflexivity.
Qed.

(** The separate fields serve when the combined string does not parse. *)
Example memory_usage_fallback :
  exists used total percent,
    memory_usage (JObj [("memory", JStr "n/a");
                        ("memtotal", JNum 524288); ("memfree", JNum 262144)])
      = (Return {| used_mb := Finite used; total_mb := Finite total;
                   mem_percent := Finite percent |},
         ["memory"; "memtotal"; "memfree"]) /\
    (used == 256 # 1)%Q /\ (total == 512 # 1)%Q /\ (percent == 50 # 1)%Q.
Proof.
  do 3 eexists. split; [vm_compute; reflexivity|]. repeat split; vm_compute; reflexivity.
Qed.

(** An absent combined string reads as "0/0": the fields are not read. *)
Example memory_usage_absent :
  exists used total percent,
    memory_usage (JObj [("memtotal", JNum 524288); ("memfree", JNum 262144)])
      = (Return {| used_mb := Finite used; total_mb := Finite total;
                   mem_percent := Finite percent |}, ["memory"]) /\
    (used == 0)%Q /\ (total == 0)%Q /\ (percent == 0)%Q.
Proof.
  do 3 eexists. split; [vm_compute; reflexivity|]. repeat split; vm_compute; reflexivity.
Qed.

(** A combined string that parses into a number too large for a float: the
    division raises [OverflowError], which the handler of the parsing does
    not catch, and the separate fields are not read. *)
Example memory_usage_overflow :
  parse_combined (JStr (huge +:+ "/1")) = Return (10 ^ 320, 1) /\
  memory_usage (JObj [("memory", JStr (huge +:+ "/1"));
                      ("memtotal", JNum 524288); ("memfree", JNum 262144)])
    = (Raise OverflowError, ["memory"]).
Proof. split; vm_compute; reflexivity. Qed.

End MemoryAccounting.

(* ===================================================================== *)
(** ** Access control *)
(* ===================================================================== *)

Section AccessControl.
Import Text Utils.

Lemma split_nonempty sep s : split sep s <> [].
Proof.
  destruct s as [|c s]; cbn [Py.split]; [discriminate|].
  destruct (Ascii.eqb c sep); [discriminate|].
  destruct (split sep s); discriminate.
Qed.

Lemma append_nil_l (s : string) : "" +:+ s = s.
Proof. reflexivity. Qed.

Lemma append_cons c (a b : string) : String c a +:+ b = String c (a +:+ b).
Proof. reflexivity. Qed.

(** Splitting distributes over a separator. *)
Lemma split_app sep a b :
  split sep (a +:+ String sep b) = split sep a ++ split sep b.
Proof.
  induction a as [|c a IH].
  - rewrite append_nil_l. cbn [Py.split]. rewrite Ascii.eqb_refl. reflexivity.
  - rewrite append_cons. cbn [Py.split].
    rewrite IH. destruct (Ascii.eqb c sep); [reflexivity|].
    pose proof (split_nonempty sep a) as Hne.
    destruct (split sep a); [contradiction|reflexivity].
Qed.

Lemma map_result_app {A B} (f : A -> result B) l1 l2 :
  map_result f (l1 ++ l2)
  = bind (map_result f l1) (fun r1 =>
    bind (map_result f l2) (fun r2 => Return (r1 ++ r2))).
Proof.
  induction l1 as [|x l1 IH]; cbn.
  - destruct (map_result f l2); reflexivity.
  - destruct (f x); [reflexivity|]. rewrite IH.
    destruct (map_result f l1); [reflexivity|]. cbn.
    destruct (map_result f l2); reflexivity.
Qed.

Lemma negative_not_among_naturals l u :
  Forall (fun v => 0 <= v) l -> u < 0 -> is_user_allowed l u = false.
Proof.
  intros Hl Hu. unfold is_user_allowed.
  induction Hl as [|v l Hv _ IH]; cbn [existsb]; [reflexivity|].
  rewrite IH. replace (u =? v) with false; [reflexivity|].
  symmetry. apply Z.eqb_neq. lia.
Qed.

(** The pieces that pass the filter are read as natural numbers, up to the
    first one that [int] rejects. *)
Lemma digit_ids_parse (l : list string) :
  Forall (fun x => isdigit (strip x) = true) l ->
  map_result (fun x => match int_of_str (strip x) with
                       | Some n => Return n
                       | None => Raise ValueError
                       end) l = Raise ValueError \/
  exists ns,
    map_result (fun x => match int_of_str (strip x) with
                         | Some n => Return n
                         | None => Raise ValueError
                         end) l = Return ns /\
    Forall (fun u => 0 <= u) ns.
Proof.
  induction 1 as [|x l Hx _ IH]; cbn [map_result].
  - right. exists []. split; [reflexivity|constructor].
  - destruct (int_of_str (strip x)) as [n|] eqn:E; [|left; reflexivity].
    pose proof (int_of_digits_nonneg _ _ Hx E) as Hn.
    destruct IH as [->|(ns & -> & Hns)]; [left; reflexivity|].
    right. exists (n :: ns). split; [reflexivity|constructor; assumption].
Qed.

Lemma decimal_ids_parse (l : list string) :
  Forall (fun x => is_decimal (strip x) = true) l ->
  map_result (fun x => match int_of_str (strip x) with
                       | Some n => Return n
                       | None => Raise ValueError
                       end) l
  = Return (map (fun x => decimal_value (strip x)) l).
Proof.
  induction 1 as [|x l Hx _ IH]; cbn [map_result map]; [reflexivity|].
  destruct (decimal_is_read _ Hx) as (_ & -> & _). rewrite IH. reflexivity.
Qed.

(** X1: building [ALLOWED_USERS] from the configuration string raises
    [ValueError] or yields natural numbers only: no negative identifier is
    ever allowed.  It raises when [int] rejects a piece that [str.isdigit]
    accepts (a superscript digit, a number of more than 4300 digits); when
    every piece that passes the filter is a decimal number of ASCII digits,
    the list is made of the numbers written. *)
Theorem allowed_users_are_naturals s :
  (parse_allowed_users s = Raise ValueError \/
   exists l,
     parse_allowed_users s = Return l /\
     Forall (fun u => 0 <= u) l /\
     forall u, u < 0 -> is_user_allowed l u = false) /\
  (Forall (fun x => isdigit (strip x) = true -> is_decimal (strip x) = true)
     (split ","%char s) ->
   parse_allowed_users s
   = Return (map (fun x => decimal_value (strip x))
               (List.filter (fun x => isdigit (strip x)) (split ","%char s)))) /\
  parse_allowed_users "1001, 1002,,x7" = Return [1001; 1002] /\
  parse_allowed_users "1001,²" = Raise ValueError.
Proof.
  unfold parse_allowed_users. split; [|split; [|split; vm_compute; reflexivity]].
  - destruct (digit_ids_parse
                (List.filter (fun x => isdigit (strip x)) (split ","%char s)))
      as [E|(l & E & Hl)].
    { apply List.Forall_forall. intros x Hx. apply filter_In in Hx as [_ Hx]. exact Hx. }
    + left. exact E.
    + right. exists l. split; [exact E|]. split; [exact Hl|].
      intros u Hu. apply negative_not_among_naturals; assumption.
  - intros H. apply decimal_ids_parse.
    apply List.Forall_forall. intros x Hx. apply filter_In in Hx as [Hin Hx].
    rewrite List.Forall_forall in H. apply H; assumption.
Qed.

(** X2: the identifiers of two configuration strings joined by a comma are
    those of the first followed by those of the second. *)
Theorem allowed_users_of_joined_strings a b :
  parse_allowed_users (a +:+ String ","%char b)
  = bind (parse_allowed_users a) (fun la =>
    bind (parse_allowed_users b) (fun lb => Return (la ++ lb))).
Proof.
  unfold parse_allowed_users.
  rewrite split_app, List.filter_app. apply map_result_app.
Qed.

End AccessControl.

(* ===================================================================== *)
(** ** Uptime rendering *)
(* ===================================================================== *)

Section Uptime.
Import Text Utils.

Lemma length_append (a b : string) :
  String.length (a +:+ b) = (String.length a + String.length b)%nat.
Proof.
  induction a as [|c a IH]; [reflexivity|].
  rewrite append_cons. cbn [String.length]. rewrite IH. reflexivity.
Qed.

Lemma string_append_assoc (a b c : string) : (a +:+ b) +:+ c = a +:+ b +:+ c.
Proof.
  induction a as [|x a IH]; [reflexivity|].
  rewrite !append_cons, IH. reflexivity.
Qed.

Lemma fmt_02d_two_chars n : 0 <= n < 100 -> String.length (fmt_02d n) = 2%nat.
Proof.
  intros [H0 H1]. unfold fmt_02d, str_of_int.
  replace (n <? 0) with false by (symmetry; apply Z.ltb_ge; lia).
  replace (0 <=? n) with true by (symmetry; apply Z.leb_le; lia).
  destruct (Z.ltb_spec n 10) as [Hlt|Hge]; cbn [andb].
  - unfold digits. cbn [render]. destruct (Z.ltb_spec n 10); [reflexivity|lia].
  - unfold digits.
    assert (Hlog : 3 <= Z.log2 n).
    { change 3 with (Z.log2 10). apply Z.log2_le_mono. lia. }
    destruct (Z.to_nat (Z.log2 n)) as [|f] eqn:Ef; [lia|].
    cbn [render]. destruct (Z.ltb_spec n 10); [lia|].
    destruct (Z.ltb_spec (n / 10) 10) as [|Hbig]; [reflexivity|].
    exfalso. assert (n / 10 < 10) by (apply Z.div_lt_upper_bound; lia). lia.
Qed.

Lemma format_seconds_digits s :
  exists d h m c,
    s = 86400 * d + 3600 * h + 60 * m + c /\
    0 <= h < 24 /\ 0 <= m < 60 /\ 0 <= c < 60 /\
    (0 < d <-> 86400 <= s) /\
    format_seconds s =
      (if 0 <? d then str_of_int d +:+ "д " else "") +:+
      fmt_02d h +:+ ":" +:+ fmt_02d m +:+ ":" +:+ fmt_02d c.
Proof.
  exists (s / 86400), (s mod 86400 / 3600), (s mod 86400 mod 3600 / 60),
         (s mod 86400 mod 3600 mod 60).
  pose proof (Z.div_mod s 86400 ltac:(lia)) as E1.
  pose proof (Z.mod_pos_bound s 86400 ltac:(lia)) as B1.
  pose proof (Z.div_mod (s mod 86400) 3600 ltac:(lia)) as E2.
  pose proof (Z.mod_pos_bound (s mod 86400) 3600 ltac:(lia)) as B2.
  pose proof (Z.div_mod (s mod 86400 mod 3600) 60 ltac:(lia)) as E3.
  pose proof (Z.mod_pos_bound (s mod 86400 mod 3600) 60 ltac:(lia)) as B3.
  assert (H2 : 0 <= s mod 86400 / 3600 < 24).
  { split; [apply Z.div_pos; lia|apply Z.div_lt_upper_bound; lia]. }
  assert (H3 : 0 <= s mod 86400 mod 3600 / 60 < 60).
  { split; [apply Z.div_pos; lia|apply Z.div_lt_upper_bound; lia]. }
  split; [lia|]. split; [exact H2|]. split; [exact H3|]. split; [exact B3|].
  split; [lia|].
  unfold format_seconds. destruct (0 <? s / 86400); [|reflexivity].
  rewrite string_append_assoc. reflexivity.
Qed.

(** X3: the text of [format_seconds] shows the mixed-radix digits of its
    argument: days, hours below 24, minutes and seconds below 60, which add
    up to the argument; the day count is shown exactly from one day on.  This
    holds for every integer, so a negative argument is shown as a time of
    day, its negative day count dropped. *)
Theorem format_seconds_fields s :
  exists d h m c,
    s = 86400 * d + 3600 * h + 60 * m + c /\
    0 <= h < 24 /\ 0 <= m < 60 /\ 0 <= c < 60 /\
    (0 < d <-> 86400 <= s) /\
    format_seconds s =
      (if 0 <? d then str_of_int d +:+ "д " else "") +:+
      fmt_02d h +:+ ":" +:+ fmt_02d m +:+ ":" +:+ fmt_02d c.
Proof. apply format_seconds_digits. Qed.

(** X4: below one day (negative arguments included) the text has the
    eight characters of a clock, HH:MM:SS. *)
Theorem format_seconds_clock s :
  s < 86400 -> String.length (format_seconds s) = 8%nat.
Proof.
  intros Hs.
  destruct (format_seconds_digits s) as (d & h & m & c & E & Hh & Hm & Hc & Hd & ->).
  replace (0 <? d) with false by (symmetry; apply Z.ltb_ge; lia).
  rewrite append_nil_l, !length_append, !fmt_02d_two_chars by lia. reflexivity.
Qed.

Lemma format_seconds_clock_witness :
  3661 < 86400 /\ String.length (format_seconds 3661) = 8%nat.
Proof.
  split; [lia|]. apply (format_seconds_clock 3661). lia.
Defined.

End Uptime.

(* ===================================================================== *)
(** ** Device buttons *)
(* ===================================================================== *)

Section DeviceButtons.
Import Text Utils Handlers Cases.

Lemma prefix_split (p s : string) :
  String.prefix p s = true -> exists r, s = p +:+ r.
Proof.
  revert s. induction p as [|c p IH]; intros s H.
  - exists s. reflexivity.
  - destruct s as [|c' s]; cbn [String.prefix] in H; [discriminate H|].
    destruct (Ascii.ascii_dec c c') as [<-|]; [|discriminate H].
    destruct (IH s H) as [r ->]. exists r. reflexivity.
Qed.

Lemma split_without_sep sep s :
  is_substring (String sep "") s = false -> split sep s = [s].
Proof.
  induction s as [|c s IH]; [reflexivity|].
  cbn [is_substring String.prefix Py.split].
  destruct (Ascii.ascii_dec sep c) as [<-|Hne].
  - destruct s; intros H; discriminate H.
  - intros H. cbn [orb] in H. rewrite (IH H).
    destruct (Ascii.eqb_spec c sep) as [->|]; [contradiction|reflexivity].
Qed.

Lemma join_cons sep x y l :
  join sep (x :: y :: l) = x +:+ sep +:+ join sep (y :: l).
Proof. reflexivity. Qed.

(** Joining what was split gives the string back. *)
Lemma join_split sep s : join (String sep "") (split sep s) = s.
Proof.
  induction s as [|c s IH]; [reflexivity|].
  cbn [Py.split]. pose proof (split_nonempty sep s) as Hne.
  destruct (Ascii.eqb_spec c sep) as [->|Hc].
  - destruct (split sep s) as [|w ws]; [contradiction|].
    rewrite join_cons, IH. reflexivity.
  - destruct (split sep s) as [|w ws]; [contradiction|].
    destruct ws as [|w' ws].
    + cbn [join] in *. rewrite IH. reflexivity.
    + rewrite join_cons in *. rewrite append_cons, IH. reflexivity.
Qed.

(** X5: the callback of a device button is read back as it was written:
    for a mac without underscore, parsing the callback gives the mac and the
    list type, underscores in the list type included. *)
Theorem client_callback_round_trip mac list_type :
  is_substring "_" mac = false ->
  parse_client_callback (client_callback mac list_type) = Return (mac, list_type).
Proof.
  intros Hmac. unfold parse_client_callback, client_callback.
  change ("client_" +:+ mac +:+ "_" +:+ list_type)
    with ("client" +:+ String "_"%char (mac +:+ String "_"%char list_type)).
  rewrite !split_app, (split_without_sep _ mac Hmac).
  change (split "_"%char "client") with ["client"].
  cbn [app nth_error skipn]. rewrite List.skipn_O, join_split. reflexivity.
Qed.

Lemma client_callback_round_trip_witness :
  is_substring "_" "AA:00:00:00:00:05" = false /\
  parse_client_callback (client_callback "AA:00:00:00:00:05" "online")
  = Return ("AA:00:00:00:00:05", "online").
Proof.
  split; [reflexivity|].
  apply (client_callback_round_trip "AA:00:00:00:00:05" "online"). reflexivity.
Defined.

(** X6: for every callback that starts with [client_], as the handler
    requires before it parses, [parts[1]] exists: the parsing raises
    nothing. *)
Theorem client_callback_always_parses data :
  startswith "client_" data = true ->
  exists mac list_type, parse_client_callback data = Return (mac, list_type).
Proof.
  intros H. destruct (prefix_split _ _ H) as [r ->].
  unfold parse_client_callback.
  change ("client_" +:+ r) with ("client" +:+ String "_"%char r).
  rewrite split_app. change (split "_"%char "client") with ["client"].
  pose proof (split_nonempty "_"%char r) as Hne.
  destruct (split "_"%char r) as [|m rest]; [contradiction|].
  cbn [app nth_error]. eauto.
Qed.

Lemma client_callback_always_parses_witness :
  startswith "client_" "client_" = true /\
  exists mac list_type, parse_client_callback "client_" = Return (mac, list_type).
Proof.
  split; [reflexivity|]. apply (client_callback_always_parses "client_"). reflexivity.
Defined.

(** X7: a device of the list whose mac is a string is found by that mac,
    provided the devices of the list have a mac at all: the search returns
    the first device whose mac is equal to it (the devices in front of the one
    returned have other macs), and that device is a non-empty dict, so the
    handler takes its "found" branch. *)
Theorem find_client_finds clients d mac :
  In d clients ->
  getitem d "mac" = Return (JStr mac) ->
  Forall (fun e => exists m, getitem e "mac" = Return m) clients ->
  exists front d' rest m',
    clients = front ++ d' :: rest /\
    find_client clients mac = Return (Some d') /\
    getitem d' "mac" = Return m' /\ py_eq m' (JStr mac) = true /\
    Forall (fun e => exists m, getitem e "mac" = Return m /\ py_eq m (JStr mac) = false)
      front /\
    truthy d' = true.
Proof.
  intros Hin Hmac Hall. induction Hall as [|e clients [m Hm] _ IH]; [destruct Hin|].
  cbn [find_client]. rewrite Hm. cbn [bind].
  destruct (py_eq m (JStr mac)) eqn:E.
  - exists [], e, clients, m. repeat split; auto.
    destruct e as [| | | | |o|]; try discriminate Hm. destruct o; [discriminate Hm|reflexivity].
  - destruct Hin as [->|Hin].
    + rewrite Hmac in Hm. injection Hm as <-. unfold py_eq in E. cbn in E.
      rewrite String.eqb_refl in E. discriminate E.
    + destruct (IH Hin) as (front & d' & rest & m' & -> & H1 & H2 & H3 & H4 & H5).
      exists (e :: front), d', rest, m'. repeat split; auto.
      constructor; [eauto|exact H4].
Qed.

Lemma find_client_finds_witness :
  In (device "CC:00:00:00:00:01" "10.0.0.8" (JBool false)) twice_listed /\
  getitem (device "CC:00:00:00:00:01" "10.0.0.8" (JBool false)) "mac"
    = Return (JStr "CC:00:00:00:00:01") /\
  Forall (fun e => exists m, getitem e "mac" = Return m) twice_listed /\
  exists front d' rest m',
    twice_listed = front ++ d' :: rest /\
    find_client twice_listed "CC:00:00:00:00:01" = Return (Some d') /\
    getitem d' "mac" = Return m' /\ py_eq m' (JStr "CC:00:00:00:00:01") = true /\
    Forall (fun e => exists m, getitem e "mac" = Return m /\
                               py_eq m (JStr "CC:00:00:00:00:01") = false) front /\
    truthy d' = true.
Proof.
  assert (H1 : In (device "CC:00:00:00:00:01" "10.0.0.8" (JBool false)) twice_listed)
    by (right; right; left; reflexivity).
  assert (H3 : Forall (fun e => exists m, getitem e "mac" = Return m) twice_listed)
    by (repeat constructor; eexists; reflexivity).
  split; [exact H1|]. split; [reflexivity|]. split; [exact H3|].
  exact (find_client_finds twice_listed _ "CC:00:00:00:00:01" H1 eq_refl H3).
Defined.

(** In the list above the device found is the first of the two that carry
    the mac. *)
Example find_client_first_of_two :
  find_client twice_listed "CC:00:00:00:00:01"
  = Return (Some (device "CC:00:00:00:00:01" "10.0.0.7" (JBool true))).
Proof. reflexivity. Qed.

(** X8: the search raises as soon as it meets, before any match, a device
    without ["mac"]. *)
Theorem find_client_raises_on_missing_mac front d rest mac :
  Forall (fun e => exists m, getitem e "mac" = Return m /\ py_eq m (JStr mac) = false)
    front ->
  getitem d "mac" = Raise KeyError ->
  find_client (front ++ d :: rest) mac = Raise KeyError.
Proof.
  intros Hfront Hd. induction Hfront as [|e front (m & Hm & Hne) _ IH]; cbn.
  - rewrite Hd. reflexivity.
  - rewrite Hm. cbn. rewrite Hne. exact IH.
Qed.

Lemma find_client_raises_on_missing_mac_witness :
  Forall (fun e => exists m, getitem e "mac" = Return m /\
                             py_eq m (JStr "EE:00:00:00:00:03") = false)
    [device "EE:00:00:00:00:01" "10.0.0.1" (JBool true)] /\
  getitem (JObj [("ip", JStr "10.0.0.2"); ("active", JBool true)]) "mac" = Raise KeyError /\
  find_client
    ([device "EE:00:00:00:00:01" "10.0.0.1" (JBool true)] ++
     JObj [("ip", JStr "10.0.0.2"); ("active", JBool true)] ::
     [device "EE:00:00:00:00:03" "10.0.0.3" (JBool true)])
    "EE:00:00:00:00:03" = Raise KeyError.
Proof.
  assert (H1 : Forall (fun e => exists m, getitem e "mac" = Return m /\
                                          py_eq m (JStr "EE:00:00:00:00:03") = false)
                 [device "EE:00:00:00:00:01" "10.0.0.1" (JBool true)]).
  { constructor; [|constructor]. eexists. split; reflexivity. }
  split; [exact H1|]. split; [reflexivity|].
  exact (find_client_raises_on_missing_mac _
           (JObj [("ip", JStr "10.0.0.2"); ("active", JBool true)]) _
           "EE:00:00:00:00:03" H1 eq_refl).
Defined.

End DeviceButtons.

(* ===================================================================== *)
(** ** The handshake as a whole *)
(* ===================================================================== *)

Section Handshake.

(** [keen_auth], by the answers of the router. *)
Lemma keen_auth_cases cfg net w :
  let realm r := headers_get (headers r) "X-NDM-Realm" "" in
  let challenge r := headers_get (headers r) "X-NDM-Challenge" "" in
  let digest r := auth_digest (WIFI_LOGIN cfg) (WIFI_PASSWORD cfg) (realm r) (challenge r) in
  let challenged r :=
    (status_code r =? 401) && negb (status_code r =? 200) &&
    truthy (JStr (realm r)) && truthy (JStr (challenge r)) in
  fst (keen_auth cfg net w) =
    Return
      (match net (sent_requests w) (probe cfg) with
       | Fails _ => false
       | Responds r =>
           if status_code r =? 200 then true
           else if challenged r then
             match net (sent_requests w ++ [probe cfg]) (login_request cfg (digest r)) with
             | Fails _ => false
             | Responds r2 => status_code r2 =? 200
             end
           else false
       end) /\
  sent_requests (snd (keen_auth cfg net w)) =
    sent_requests w ++
    probe cfg ::
    (match net (sent_requests w) (probe cfg) with
     | Fails _ => []
     | Responds r => if challenged r then [login_request cfg (digest r)] else []
     end) /\
  ACTIVE_CLIENTS (snd (keen_auth cfg net w)) = ACTIVE_CLIENTS w /\
  PREV_STATUS (snd (keen_auth cfg net w)) = PREV_STATUS w /\
  outbox (snd (keen_auth cfg net w)) = outbox w.
Proof.
  intros realm challenge digest challenged.
  unfold keen_auth, try_except, mbind, exchange.
  destruct (net (sent_requests w) (probe cfg)) as [e|r] eqn:Hnet.
  { cbn. repeat split. }
  unfold challenged, digest, realm, challenge.
  destruct (status_code r =? 200) eqn:E200.
  { cbn. rewrite andb_false_r. cbn. repeat split. }
  destruct (status_code r =? 401) eqn:E401; [|cbn; repeat split].
  cbn [andb negb].
  destruct (truthy (JStr (headers_get (headers r) "X-NDM-Realm" ""))) eqn:Er;
    [|cbn; repeat split].
  destruct (truthy (JStr (headers_get (headers r) "X-NDM-Challenge" ""))) eqn:Ec;
    [|cbn; repeat split].
  cbn [negb orb andb sent_requests].
  destruct (net (sent_requests w ++ [probe cfg]) _) as [e|r2]; cbn;
    rewrite <- app_assoc; repeat split.
Qed.

(** X9: [keen_auth] raises nothing, whatever the router does.  It sends
    the probe and at most one more request, the POST of the digest, and
    leaves the device list, the last-known states and the outbox alone. *)
Theorem keen_auth_never_raises cfg net w :
  exists b,
    fst (keen_auth cfg net w) = Return b /\
    (sent_requests (snd (keen_auth cfg net w)) = sent_requests w ++ [probe cfg] \/
     exists digest,
       sent_requests (snd (keen_auth cfg net w))
       = sent_requests w ++ [probe cfg; login_request cfg digest]) /\
    ACTIVE_CLIENTS (snd (keen_auth cfg net w)) = ACTIVE_CLIENTS w /\
    PREV_STATUS (snd (keen_auth cfg net w)) = PREV_STATUS w /\
    outbox (snd (keen_auth cfg net w)) = outbox w.
Proof.
  destruct (keen_auth_cases cfg net w) as (Hf & Hs & Ha & Hp & Ho).
  eexists. split; [exact Hf|]. split; [|auto].
  rewrite Hs. destruct (net (sent_requests w) (probe cfg)) as [e|r]; [left; reflexivity|].
  match goal with |- context [if ?c then _ else _] => destruct c end;
    [right; eexists; reflexivity|left; reflexivity].
Qed.

(** X10: [keen_auth] returns [True] in two cases only: the probe is
    answered 200, or the probe is answered 401 with a realm and a challenge
    and the POST of the digest is answered 200. *)
Theorem keen_auth_true_iff cfg net w :
  fst (keen_auth cfg net w) = Return true <->
  exists r,
    net (sent_requests w) (probe cfg) = Responds r /\
    (status_code r = 200 \/
     (status_code r = 401 /\
      headers_get (headers r) "X-NDM-Realm" "" <> "" /\
      headers_get (headers r) "X-NDM-Challenge" "" <> "" /\
      exists r2,
        net (sent_requests w ++ [probe cfg])
          (login_request cfg
             (auth_digest (WIFI_LOGIN cfg) (WIFI_PASSWORD cfg)
                (headers_get (headers r) "X-NDM-Realm" "")
                (headers_get (headers r) "X-NDM-Challenge" "")))
        = Responds r2 /\
        status_code r2 = 200)).
Proof.
  destruct (keen_auth_cases cfg net w) as (-> & _).
  destruct (net (sent_requests w) (probe cfg)) as [e|r].
  { split; [discriminate|]. intros (r & H & _). discriminate H. }
  assert (Htr : forall s, truthy (JStr s) = true <-> s <> "").
  { intros s. destruct (truthy (JStr s)) eqn:E.
    - split; [|reflexivity]. intros _ ->. discriminate E.
    - apply truthy_JStr in E. split; [discriminate|contradiction]. }
  split.
  - intros H. exists r. split; [reflexivity|].
    destruct (Z.eqb_spec (status_code r) 200) as [E|E]; [left; exact E|right].
    destruct (Z.eqb_spec (status_code r) 401) as [E1|E1]; [|discriminate H].
    cbn [andb negb] in H.
    destruct (truthy (JStr (headers_get (headers r) "X-NDM-Realm" ""))) eqn:Er;
      [|discriminate H].
    destruct (truthy (JStr (headers_get (headers r) "X-NDM-Challenge" ""))) eqn:Ec;
      [|discriminate H].
    cbn [andb] in H. apply Htr in Er, Ec.
    repeat (split; [assumption|]).
    destruct (net _ _) as [e|r2]; [discriminate H|].
    exists r2. split; [reflexivity|]. apply Z.eqb_eq. congruence.
  - intros (r' & [= <-] & [E|(E & Hr & Hc & r2 & Hn & E2)]).
    + rewrite E. reflexivity.
    + rewrite E. apply Htr in Hr, Hc. cbn [Z.eqb Pos.eqb andb negb].
      rewrite Hr, Hc. cbn [andb]. rewrite Hn, E2. reflexivity.
Qed.

(** X11: a POST is sent only in answer to a challenge: when the probe is
    answered by anything but a 401, or fails, the probe is the only request
    of the call. *)
Theorem keen_auth_posts_only_when_challenged cfg net w :
  (forall r, net (sent_requests w) (probe cfg) = Responds r -> status_code r <> 401) ->
  sent_requests (snd (keen_auth cfg net w)) = sent_requests w ++ [probe cfg].
Proof.
  intros H. destruct (keen_auth_cases cfg net w) as (_ & -> & _).
  destruct (net (sent_requests w) (probe cfg)) as [e|r]; [reflexivity|].
  specialize (H r eq_refl). apply Z.eqb_neq in H. rewrite H. reflexivity.
Qed.

Lemma keen_auth_posts_only_when_challenged_witness :
  (forall r, always not_found (sent_requests initial) (probe cfg0) = Responds r ->
             status_code r <> 401) /\
  sent_requests (snd (keen_auth cfg0 (always not_found) initial))
  = sent_requests initial ++ [probe cfg0].
Proof.
  assert (H : forall r, always not_found (sent_requests initial) (probe cfg0) = Responds r ->
                        status_code r <> 401).
  { intros r [= <-]. discriminate. }
  split; [exact H|].
  exact (keen_auth_posts_only_when_challenged cfg0 (always not_found) initial H).
Defined.

End Handshake.

(* ===================================================================== *)
(** ** Invariants of the polling loop *)
(* ===================================================================== *)

Section LoopInvariants.
Import Text.

Lemma ip_sort_only_dicts d k : ip_sort d = Return k -> is_dict d = true.
Proof. destruct d; try discriminate. reflexivity. Qed.

Lemma sorted_by_ip_sort l l' :
  sorted ip_sort l = Return l' ->
  Forall (fun d => is_dict d = true) l' /\
  StronglySorted (fun a b => tuple_le (sort_key a) (sort_key b) = true) l'.
Proof.
  intros H. pose proof (sorted_perm ip_sort l l' H) as Hperm.
  unfold sorted in H.
  destruct (map_result _ l) as [e|kl] eqn:E; [discriminate|].
  injection H as <-. apply map_result_keys in E as [-> Hall]. split.
  - eapply Permutation_Forall; [exact Hperm|].
    eapply List.Forall_impl; [|exact Hall]. intros d [k Hk].
    eapply ip_sort_only_dicts, Hk.
  - apply sorted_keys_sorted.
Qed.

Lemma update_clients_result cfg net w :
  ACTIVE_CLIENTS (snd (update_clients cfg net w)) = [] \/
  exists l, sorted ip_sort l = Return (ACTIVE_CLIENTS (snd (update_clients cfg net w))).
Proof.
  unfold update_clients, try_except, mbind, lift.
  destruct (keen_get cfg net "device-list" w) as [[e|data] w1]; [left; reflexivity|].
  destruct (truthy data); cbn [negb]; [|left; reflexivity].
  destruct (get data "host" (JArr [])) as [e|hosts]; [left; reflexivity|].
  destruct (truthy hosts); cbn [negb]; [|left; reflexivity].
  destruct (iter hosts) as [e|l]; [left; reflexivity|]. cbn [bind].
  destruct (sorted ip_sort l) as [e|l'] eqn:E; [left; reflexivity|].
  right. exists l. exact E.
Qed.

Lemma update_clients_well_formed_list cfg net w :
  Forall (fun d => is_dict d = true) (ACTIVE_CLIENTS (snd (update_clients cfg net w))) /\
  StronglySorted (fun a b => tuple_le (sort_key a) (sort_key b) = true)
    (ACTIVE_CLIENTS (snd (update_clients cfg net w))).
Proof.
  destruct (update_clients_result cfg net w) as [->|[l H]].
  - split; constructor.
  - apply sorted_by_ip_sort in H. exact H.
Qed.

(** X12: whatever the router answers, and whatever the state before,
    [update_clients] leaves a device list made of dicts only and sorted by
    [ip_sort]. *)
Theorem update_clients_keeps_list_well_formed cfg net w :
  Forall (fun d => is_dict d = true) (ACTIVE_CLIENTS (snd (update_clients cfg net w))) /\
  StronglySorted (fun a b => tuple_le (sort_key a) (sort_key b) = true)
    (ACTIVE_CLIENTS (snd (update_clients cfg net w))).
Proof. apply update_clients_well_formed_list. Qed.

Lemma last_turn_sets_device_list cfg net deliver n w :
  exists w', ACTIVE_CLIENTS (snd (check_status_change cfg net deliver (S n) w))
             = ACTIVE_CLIENTS (snd (update_clients cfg net w')).
Proof.
  revert w. induction n as [|n IH]; intros w.
  - rewrite check_status_change_step. cbn [check_status_change ret snd].
    destruct (cycle_fields cfg net deliver w) as (w0 & Hu & _ & _ & Ha & _).
    exists w. rewrite Ha, Hu. reflexivity.
  - rewrite check_status_change_step. apply IH.
Qed.

(** X13: the polling loop raises nothing, turn after turn, whatever the
    router answers, whatever its entries lack and whichever deliveries fail;
    and after each turn the device list is made of dicts only and sorted. *)
Theorem check_status_change_keeps_going cfg net deliver n w :
  fst (check_status_change cfg net deliver n w) = Return tt /\
  Forall (fun d => is_dict d = true)
    (ACTIVE_CLIENTS (snd (check_status_change cfg net deliver (S n) w))) /\
  StronglySorted (fun a b => tuple_le (sort_key a) (sort_key b) = true)
    (ACTIVE_CLIENTS (snd (check_status_change cfg net deliver (S n) w))).
Proof.
  split; [apply check_status_change_requests|].
  destruct (last_turn_sets_device_list cfg net deliver n w) as [w' ->].
  apply update_clients_well_formed_list.
Qed.

Lemma check_device_keeps_entries cfg deliver d w k :
  is_Some (PREV_STATUS w !! k) ->
  is_Some (PREV_STATUS (snd (check_device cfg deliver d w)) !! k).
Proof.
  intros H. destruct (device_key d) as [e|k0] eqn:Ek.
  - rewrite check_device_other_key; [exact H|]. rewrite Ek. discriminate.
  - destruct (decide (k0 = k)) as [->|Hne].
    + destruct (device_key_inv d k Ek) as (m & cur & Hm & Hk & Hc).
      destruct (check_device_ok cfg deliver d m k cur w Hm Hk Hc)
        as (n & w' & _ & _ & -> & Hp & _).
      cbn [snd]. rewrite Hp, lookup_insert_eq. eauto.
    + rewrite check_device_other_key; [exact H|]. rewrite Ek. congruence.
Qed.

Lemma for_each_keeps_entries cfg deliver l w k :
  is_Some (PREV_STATUS w !! k) ->
  is_Some (PREV_STATUS (snd (for_each l (check_device cfg deliver) w)) !! k).
Proof.
  revert w. induction l as [|d l IH]; intros w H; [exact H|].
  pose proof (check_device_keeps_entries cfg deliver d w k H) as H1.
  cbn [for_each]. unfold mbind.
  destruct (check_device cfg deliver d w) as [[e|[]] w1]; cbn [snd] in *; auto.
Qed.

(** X14: the last-known-state map never forgets: a mac that has an entry
    keeps one through every turn of the loop, whether its device is still
    reported or not. *)
Theorem last_known_state_never_forgets cfg net deliver n w k :
  is_Some (PREV_STATUS w !! k) ->
  is_Some (PREV_STATUS (snd (check_status_change cfg net deliver n w)) !! k).
Proof.
  revert w. induction n as [|n IH]; intros w H; [exact H|].
  rewrite check_status_change_step. apply IH.
  destruct (cycle_fields cfg net deliver w) as (w0 & _ & Hp & _ & _ & -> & _).
  apply for_each_keeps_entries. rewrite Hp. exact H.
Qed.

Lemma last_known_state_never_forgets_witness :
  is_Some (PREV_STATUS seen_online !! KStr "DD:00:00:00:00:01") /\
  is_Some (PREV_STATUS
             (snd (check_status_change cfg0 (always (device_list three_hosts))
                     accept_all 2 seen_online))
           !! KStr "DD:00:00:00:00:01").
Proof.
  assert (H : is_Some (PREV_STATUS seen_online !! KStr "DD:00:00:00:00:01")).
  { exists (JBool true). vm_compute. reflexivity. }
  split; [exact H|].
  exact (last_known_state_never_forgets cfg0 (always (device_list three_hosts))
           accept_all 2 seen_online _ H).
Defined.

(** A scalar is equal to itself, unless it is the float [NaN]. *)
Lemma py_eq_refl_scalar c : is_scalar c = true -> is_nan c = false -> py_eq c c = true.
Proof.
  destruct c as [|b|n|s| | |x]; try discriminate; intros _ Hn; unfold py_eq; cbn.
  - reflexivity.
  - destruct b; reflexivity.
  - apply Z.eqb_refl.
  - apply String.eqb_refl.
  - destruct x as [q|b|]; [|destruct b; reflexivity|discriminate Hn].
    apply Qeq_bool_iff. reflexivity.
Qed.

(** A pass over devices whose statuses are already recorded changes
    nothing. *)
Lemma silent_pass cfg deliver l w :
  Forall (fun e => exists k c, device_key e = Return k /\ device_status e = Return c /\
                               PREV_STATUS w !! k = Some c /\ py_eq c c = true) l ->
  exists w',
    for_each l (check_device cfg deliver) w = (Return tt, w') /\
    outbox w' = outbox w /\ PREV_STATUS w' = PREV_STATUS w.
Proof.
  intros H. revert w H. induction l as [|e l IH]; intros w H.
  - exists w. auto.
  - apply Forall_cons in H as [(k & c & Hk & Hc & Hp & Hcc) Hl].
    destruct (device_key_inv e k Hk) as (m & cur & Hm & Hkey & Hcur).
    assert (cur = c) as -> by congruence.
    destruct (check_device_ok cfg deliver e m k c w Hm Hkey Hcur)
      as (n & w1 & _ & _ & E & Hp1 & Ho1 & _).
    rewrite Hp in Ho1. unfold changed, py_ne in Ho1.
    rewrite Hcc, andb_false_r, app_nil_r in Ho1.
    rewrite insert_id in Hp1 by exact Hp.
    destruct (IH w1) as (w' & E' & Ho' & Hp').
    { eapply List.Forall_impl; [|exact Hl]. intros x (k' & c' & ? & ? & ? & ?).
      exists k', c'. rewrite Hp1. auto. }
    exists w'. cbn [for_each]. unfold mbind. rewrite E.
    split; [exact E'|]. split; congruence.
Qed.

(** After a pass over devices with pairwise distinct macs, each has its
    status recorded. *)
Lemma pass_records_statuses cfg deliver l w :
  Forall (fun e => exists k, device_key e = Return k) l ->
  List.NoDup (map device_key l) ->
  Forall (fun e => exists k c, device_key e = Return k /\ device_status e = Return c /\
            PREV_STATUS (snd (for_each l (check_device cfg deliver) w)) !! k = Some c) l.
Proof.
  intros Hwf Hnd. apply List.Forall_forall. intros e He.
  apply in_split in He as (la & lb & ->).
  rewrite map_app in Hnd. cbn [map] in Hnd.
  apply NoDup_remove_2 in Hnd.
  pose proof Hwf as Hwf'. apply Forall_app in Hwf' as [Hla Hrest].
  apply Forall_cons in Hrest as [[k Hk] Hlb].
  destruct (device_key_inv e k Hk) as (m & c & _ & _ & Hc).
  exists k, c. split; [exact Hk|]. split; [exact Hc|].
  apply for_each_last_status; auto.
  apply List.Forall_forall. intros x Hx Hkx. apply Hnd.
  apply in_or_app. right. rewrite Hk, <- Hkx. apply in_map. exact Hx.
Qed.

(** X15: a change is announced once.  When two polls in a row bring the
    same answer, a host array whose entries have pairwise distinct macs and
    statuses that are scalars other than the float [NaN] (which differs from
    itself, and is announced at every turn), the second turn sends no message
    and leaves the last-known states as the first turn made them. *)
Theorem repeated_poll_is_silent cfg net deliver w r o hosts :
  net (sent_requests w) (query cfg "device-list") = Responds r ->
  net (sent_requests (snd (cycle cfg net deliver w))) (query cfg "device-list")
    = Responds r ->
  ~ (400 <= status_code r < 600) ->
  body r = Return (JObj o) ->
  assoc "host" o = Some (JArr hosts) ->
  Forall (fun e => exists k c, device_key e = Return k /\ device_status e = Return c /\
                               is_scalar c = true /\ is_nan c = false) hosts ->
  List.NoDup (map device_key hosts) ->
  outbox (snd (cycle cfg net deliver (snd (cycle cfg net deliver w))))
    = outbox (snd (cycle cfg net deliver w)) /\
  PREV_STATUS (snd (cycle cfg net deliver (snd (cycle cfg net deliver w))))
    = PREV_STATUS (snd (cycle cfg net deliver w)).
Proof.
  intros Hnet1 Hnet2 Hst Hbody Hhost Hwf Hnd.
  set (l := map snd (sort_by_key (map (fun d => (sort_key d, d)) hosts))).
  assert (Hperm : Permutation hosts l) by apply sorted_keys_perm.
  assert (Hlist : forall w', net (sent_requests w') (query cfg "device-list") = Responds r ->
                             ACTIVE_CLIENTS (snd (update_clients cfg net w')) = l).
  { intros w' Hnet.
    assert (Hcase : hosts = [] \/ hosts <> [])
      by (destruct hosts; [left; reflexivity|right; discriminate]).
    destruct Hcase as [Hnil|Hne].
    - unfold l. rewrite Hnil. cbn [map sort_by_key].
      apply update_clients_failed. right. exists r. split; [exact Hnet|].
      right. right. exists o. split; [exact Hbody|]. right. congruence.
    - eapply update_clients_sorted; eauto.
      eapply List.Forall_impl; [|exact Hwf]. intros e (k & c & Hk & _).
      destruct (device_key_inv e k Hk) as (m & _ & Hm & _).
      destruct (getitem_dict e _ _ Hm) as [oe ->]. reflexivity. }
  assert (Hwfl : Forall (fun e => exists k c, device_key e = Return k /\
                           device_status e = Return c /\
                           is_scalar c = true /\ is_nan c = false) l).
  { eapply Permutation_Forall; [exact Hperm|exact Hwf]. }
  assert (Hndl : List.NoDup (map device_key l)).
  { eapply Permutation_NoDup; [apply Permutation_map; exact Hperm|exact Hnd]. }
  destruct (cycle_fields cfg net deliver w) as (w0 & Hu & _ & _ & _ & Hp1 & _).
  pose proof (Hlist w Hnet1) as Hl1. rewrite Hu in Hl1. cbn [snd] in Hl1.
  rewrite Hl1 in Hp1.
  destruct (cycle_fields cfg net deliver (snd (cycle cfg net deliver w)))
    as (w2 & Hu2 & Hp2 & Ho2 & _ & Hp3 & Ho3).
  pose proof (Hlist _ Hnet2) as Hl2. rewrite Hu2 in Hl2. cbn [snd] in Hl2.
  rewrite Hl2 in Hp3, Ho3.
  destruct (silent_pass cfg deliver l w2) as (w3 & E & Ho & Hp).
  { assert (Hkeys : Forall (fun e => exists k, device_key e = Return k) l).
    { eapply List.Forall_impl; [|exact Hwfl]. intros x (kx & _ & Hkx & _). eauto. }
    pose proof (pass_records_statuses cfg deliver l w0 Hkeys Hndl) as Hrec.
    rewrite List.Forall_forall in Hrec, Hwfl |- *.
    intros e He. destruct (Hwfl e He) as (k & c & Hk & Hc & Hs & Hnan).
    destruct (Hrec e He) as (k' & c' & Hk' & Hc' & Hlook).
    exists k, c. repeat (split; [assumption|]).
    split; [|apply py_eq_refl_scalar; assumption].
    rewrite Hp2, Hp1. congruence. }
  rewrite E in Hp3, Ho3. cbn [snd] in Hp3, Ho3. split; congruence.
Qed.

End LoopInvariants.

Lemma repeated_poll_is_silent_witness :
  always (device_list gone_offline) (sent_requests seen_online) (query cfg0 "device-list")
    = Responds (device_list gone_offline) /\
  always (device_list gone_offline)
    (sent_requests (snd (cycle cfg0 (always (device_list gone_offline)) accept_all
                           seen_online)))
    (query cfg0 "device-list")
    = Responds (device_list gone_offline) /\
  ~ (400 <= status_code (device_list gone_offline) < 600) /\
  body (device_list gone_offline) = Return (JObj [("host", JArr gone_offline)]) /\
  assoc "host" [("host", JArr gone_offline)] = Some (JArr gone_offline) /\
  Forall (fun e => exists k c, device_key e = Return k /\ device_status e = Return c /\
                               Text.is_scalar c = true /\ Text.is_nan c = false)
    gone_offline /\
  List.NoDup (map device_key gone_offline) /\
  length (outbox (snd (cycle cfg0 (always (device_list gone_offline)) accept_all
                         seen_online))) = 2%nat /\
  outbox (snd (cycle cfg0 (always (device_list gone_offline)) accept_all
                 (snd (cycle cfg0 (always (device_list gone_offline)) accept_all
                         seen_online))))
    = outbox (snd (cycle cfg0 (always (device_list gone_offline)) accept_all seen_online)) /\
  PREV_STATUS
    (snd (cycle cfg0 (always (device_list gone_offline)) accept_all
            (snd (cycle cfg0 (always (device_list gone_offline)) accept_all seen_online))))
    = PREV_STATUS (snd (cycle cfg0 (always (device_list gone_offline)) accept_all
                          seen_online)).
Proof.
  assert (Hst : ~ (400 <= status_code (device_list gone_offline) < 600)) by (cbn; lia).
  assert (Hwf : Forall (fun e => exists k c, device_key e = Return k /\
                          device_status e = Return c /\
                          Text.is_scalar c = true /\ Text.is_nan c = false)
                  gone_offline).
  { repeat constructor; do 2 eexists; repeat split; reflexivity. }
  assert (Hnd : List.NoDup (map device_key gone_offline)).
  { cbn. constructor; [intros [H|[]]; discriminate H|].
    constructor; [intros []|constructor]. }
  split; [reflexivity|]. split; [reflexivity|]. split; [exact Hst|].
  split; [reflexivity|]. split; [reflexivity|]. split; [exact Hwf|]. split; [exact Hnd|].
  split; [vm_compute; reflexivity|].
  exact (repeated_poll_is_silent cfg0 (always (device_list gone_offline)) accept_all
           seen_online (device_list gone_offline) [("host", JArr gone_offline)]
           gone_offline eq_refl eq_refl Hst eq_refl eq_refl Hwf Hnd).
Defined.

(** A status that is the float [NaN] is announced at every turn: it differs
    from the recorded status even when that is the same [NaN]. *)
Example nan_status_is_announced_again :
  py_eq (JFloat NaN) (JFloat NaN) = false /\
  length (outbox (snd (check_status_change cfg0 (always (device_list [restless]))
                         accept_all 1 initial))) = 0%nat /\
  length (outbox (snd (check_status_change cfg0 (always (device_list [restless]))
                         accept_all 2 initial))) = 2%nat /\
  length (outbox (snd (check_status_change cfg0 (always (device_list [restless]))
                         accept_all 3 initial))) = 4%nat.
Proof. repeat split; vm_compute; reflexivity. Qed.

(* ===================================================================== *)
(** ** Delivery *)
(* ===================================================================== *)

(** X16: a message is handed to the chat API once for every allowed user,
    in the order of the list, whichever deliveries fail: a failure is logged
    as an error and the next user is served; nothing is raised. *)
Theorem notify_all_serves_everyone cfg deliver n w :
  exists w',
    notify_all cfg deliver n w = (Return tt, w') /\
    outbox w' = outbox w ++ map (fun u => (u, n)) (ALLOWED_USERS cfg) /\
    log w' = log w ++
      map (fun u => if deliver u n then (INFO, "Status notification sent")
                    else (ERROR, "Failed to send status message"))
        (ALLOWED_USERS cfg).
Proof.
  unfold notify_all. generalize (ALLOWED_USERS cfg) as users.
  intros users. revert w.
  induction users as [|u users IH]; intros w.
  - exists w. cbn. rewrite !app_nil_r. auto.
  - cbn [for_each map]. unfold mbind.
    set (step := try_except _ _ _).
    assert (Hstep : exists w1, step w = (Return tt, w1) /\
              outbox w1 = outbox w ++ [(u, n)] /\
              log w1 = log w ++
                [if deliver u n then (INFO, "Status notification sent")
                 else (ERROR, "Failed to send status message")]).
    { unfold step, try_except, mbind, post_message, raise, logging.
      destruct (deliver u n); cbn; eexists; (split; [reflexivity|]); cbn; auto. }
    destruct Hstep as (w1 & -> & Ho & Hl).
    destruct (IH w1) as (w2 & IH1 & IH2 & IH3).
    exists w2. split; [exact IH1|].
    rewrite IH2, IH3, Ho, Hl, <- !app_assoc. auto.
Qed.

(* ===================================================================== *)
(** ** The WAN address *)
(* ===================================================================== *)

Section WanAddress.
Import Text Handlers Cases.

(** [get_pppoe_ip], by the answer of the router. *)
Lemma get_pppoe_ip_cases cfg net w :
  fst (get_pppoe_ip cfg net w) =
    Return
      (match net (sent_requests w) (query cfg "interface/PPPoE0") with
       | Fails _ => JStr "—"
       | Responds r =>
           if (400 <=? status_code r) && (status_code r <? 600) then JStr "—"
           else
             match body r with
             | Return (JObj o) =>
                 match assoc "address" o with
                 | Some v => v
                 | None =>
                     match assoc "ip" o with
                     | Some v => v
                     | None =>
                         match assoc "ipv4-address" o with
                         | Some v => v
                         | None => nested_address o
                         end
                     end
                 end
             | _ => JStr "—"
             end
       end) /\
  sent_requests (snd (get_pppoe_ip cfg net w))
    = sent_requests w ++ [query cfg "interface/PPPoE0"] /\
  ACTIVE_CLIENTS (snd (get_pppoe_ip cfg net w)) = ACTIVE_CLIENTS w /\
  PREV_STATUS (snd (get_pppoe_ip cfg net w)) = PREV_STATUS w /\
  outbox (snd (get_pppoe_ip cfg net w)) = outbox w.
Proof.
  unfold get_pppoe_ip, try_except, mbind, exchange, lift, raise_for_status, json_of.
  destruct (net (sent_requests w) (query cfg "interface/PPPoE0")) as [e|r].
  { cbn. repeat split. }
  destruct ((400 <=? status_code r) && (status_code r <? 600)); [cbn; repeat split|].
  destruct (body r) as [e|data]; [cbn; repeat split|].
  destruct data as [|b|n|s|l|o|x]; try (cbn; repeat split; fail).
  - cbn [py_in any_exception].
    repeat match goal with
           | |- context [is_substring ?p s] => destruct (is_substring p s)
           end; cbn; repeat split.
  - cbn [py_in any_exception].
    repeat match goal with
           | |- context [existsb ?p l] => destruct (existsb p l)
           end; cbn; repeat split.
  - cbn [py_in getitem items any_exception]. unfold contains.
    destruct (assoc "address" o); [cbn; repeat split|].
    destruct (assoc "ip" o); [cbn; repeat split|].
    destruct (assoc "ipv4-address" o); cbn; repeat split.
Qed.

(** X17: [get_pppoe_ip] raises nothing; it sends one request, the query of
    the PPPoE interface, and leaves the device list, the last-known states
    and the outbox alone. *)
Theorem get_pppoe_ip_never_raises cfg net w :
  exists v,
    fst (get_pppoe_ip cfg net w) = Return v /\
    sent_requests (snd (get_pppoe_ip cfg net w))
      = sent_requests w ++ [query cfg "interface/PPPoE0"] /\
    ACTIVE_CLIENTS (snd (get_pppoe_ip cfg net w)) = ACTIVE_CLIENTS w /\
    PREV_STATUS (snd (get_pppoe_ip cfg net w)) = PREV_STATUS w /\
    outbox (snd (get_pppoe_ip cfg net w)) = outbox w.
Proof.
  destruct (get_pppoe_ip_cases cfg net w) as (Hf & H). eexists. split; [exact Hf|exact H].
Qed.

(** X18: the answer is the placeholder whenever the query fails (transport
    error, 4xx or 5xx status, body that is not JSON or that the parser gives
    up on) and whenever the body is JSON but not a mapping: a list, a string
    (even one that contains the word address), a number, [null]. *)
Theorem get_pppoe_ip_placeholder cfg net w :
  ((exists e, net (sent_requests w) (query cfg "interface/PPPoE0") = Fails e) \/
   (exists r, net (sent_requests w) (query cfg "interface/PPPoE0") = Responds r /\
      (400 <= status_code r < 600 \/ (exists e, body r = Raise e) \/
       exists v, body r = Return v /\ is_dict v = false))) ->
  fst (get_pppoe_ip cfg net w) = Return (JStr "—").
Proof.
  intros H. destruct (get_pppoe_ip_cases cfg net w) as (-> & _).
  destruct H as [[e ->]|(r & -> & H)]; [reflexivity|].
  destruct ((400 <=? status_code r) && (status_code r <? 600)) eqn:Est; [reflexivity|].
  destruct H as [H|[[e ->]|(v & -> & Hv)]]; [|reflexivity|].
  - exfalso. apply andb_false_iff in Est as [E|E];
      [apply Z.leb_gt in E|apply Z.ltb_ge in E]; lia.
  - destruct v; try reflexivity. discriminate Hv.
Qed.

Lemma get_pppoe_ip_placeholder_witness :
  ((exists e, always text_answer (sent_requests initial) (query cfg0 "interface/PPPoE0")
              = Fails e) \/
   (exists r, always text_answer (sent_requests initial) (query cfg0 "interface/PPPoE0")
              = Responds r /\
      (400 <= status_code r < 600 \/ (exists e, body r = Raise e) \/
       exists v, body r = Return v /\ is_dict v = false))) /\
  fst (get_pppoe_ip cfg0 (always text_answer) initial) = Return (JStr "—").
Proof.
  assert (H : (exists e, always text_answer (sent_requests initial)
                           (query cfg0 "interface/PPPoE0") = Fails e) \/
   (exists r, always text_answer (sent_requests initial) (query cfg0 "interface/PPPoE0")
              = Responds r /\
      (400 <= status_code r < 600 \/ (exists e, body r = Raise e) \/
       exists v, body r = Return v /\ is_dict v = false))).
  { right. exists text_answer. split; [reflexivity|]. right. right.
    eexists. split; reflexivity. }
  split; [exact H|].
  exact (get_pppoe_ip_placeholder cfg0 (always text_answer) initial H).
Defined.

(** X19: from a mapping, the answer is the value of the first key present
    among [address], [ip] and [ipv4-address], whatever that value is; the
    nested mappings are searched, one level deep and in the order of the
    mapping, only when none of the three is present. *)
Theorem get_pppoe_ip_first_candidate cfg net w r o :
  net (sent_requests w) (query cfg "interface/PPPoE0") = Responds r ->
  ~ (400 <= status_code r < 600) ->
  body r = Return (JObj o) ->
  fst (get_pppoe_ip cfg net w) =
    Return
      (match assoc "address" o, assoc "ip" o, assoc "ipv4-address" o with
       | Some v, _, _ => v
       | None, Some v, _ => v
       | None, None, Some v => v
       | None, None, None => nested_address o
       end).
Proof.
  intros Hnet Hst Hbody. destruct (get_pppoe_ip_cases cfg net w) as (-> & _).
  rewrite Hnet, Hbody.
  replace ((400 <=? status_code r) && (status_code r <? 600)) with false.
  2:{ symmetry. apply andb_false_iff.
      destruct (Z.leb_spec 400 (status_code r)); [right|left; reflexivity].
      apply Z.ltb_ge. lia. }
  destruct (assoc "address" o), (assoc "ip" o), (assoc "ipv4-address" o); reflexivity.
Qed.

Lemma get_pppoe_ip_first_candidate_witness :
  always interface_answer (sent_requests initial) (query cfg0 "interface/PPPoE0")
    = Responds interface_answer /\
  ~ (400 <= status_code interface_answer < 600) /\
  body interface_answer
    = Return (JObj [("id", JStr "PPPoE0");
                  ("link", JObj [("address", JStr "10.64.0.1")]);
                  ("ip", JNull)]) /\
  fst (get_pppoe_ip cfg0 (always interface_answer) initial) = Return JNull.
Proof.
  assert (Hst : ~ (400 <= status_code interface_answer < 600)) by (cbn; lia).
  split; [reflexivity|]. split; [exact Hst|]. split; [reflexivity|].
  exact (get_pppoe_ip_first_candidate cfg0 (always interface_answer) initial
           interface_answer _ eq_refl Hst eq_refl).
Defined.

End WanAddress.

(* ===================================================================== *)
(** ** The [start] handler *)
(* ===================================================================== *)

Section StartHandler.
Import Text Utils Handlers Cases.

Lemma mbind_return {A B} (m : M A) (k : A -> M B) w a w' :
  m w = (Return a, w') -> mbind m k w = k a w'.
Proof. intros H. unfold mbind. rewrite H. reflexivity. Qed.

Lemma mbind_raise {A B} (m : M A) (k : A -> M B) w e w' :
  m w = (Raise e, w') -> mbind m k w = (Raise e, w').
Proof. intros H. unfold mbind. rewrite H. reflexivity. Qed.

Lemma select_pure (p : json -> result bool) (q : json -> bool) l :
  Forall (fun d => p d = Return (q d)) l ->
  select p l = Return (List.filter q l).
Proof.
  induction 1 as [|d l Hd _ IH]; [reflexivity|].
  cbn [select List.filter]. rewrite Hd, IH. cbn. destruct (q d); reflexivity.
Qed.

Lemma filter_dicts (q : json -> bool) l :
  Forall (fun d => is_dict d = true) l ->
  Forall (fun d => is_dict d = true) (List.filter q l).
Proof.
  intros H. apply List.Forall_forall. intros d Hd. apply filter_In in Hd as [Hd _].
  rewrite List.Forall_forall in H. auto.
Qed.

(** On dicts the four predicates of the statistics are total. *)
Lemma select_on_dicts l :
  Forall (fun d => is_dict d = true) l ->
  exists q_on q_off q_wifi q_wired,
    (forall l', Forall (fun d => is_dict d = true) l' ->
       select is_online l' = Return (List.filter q_on l') /\
       select is_offline l' = Return (List.filter q_off l') /\
       select is_wifi l' = Return (List.filter q_wifi l') /\
       select is_wired l' = Return (List.filter q_wired l')) /\
    (forall d, q_off d = negb (q_on d)) /\
    (forall d, q_wired d = negb (q_wifi d)).
Proof.
  intros _.
  exists (fun d => match get d "active" JNull with Return v => truthy v | Raise _ => false end),
         (fun d => negb match get d "active" JNull with
                        | Return v => truthy v | Raise _ => false end),
         (fun d => match py_in "ssid" d with Return b => b | Raise _ => false end),
         (fun d => negb match py_in "ssid" d with Return b => b | Raise _ => false end).
  split; [|split; reflexivity].
  intros l' Hl'. repeat split; apply select_pure;
    (eapply List.Forall_impl; [|exact Hl']); intros d Hd;
    destruct d; try discriminate Hd; reflexivity.
Qed.

Lemma filter_partition_length {A} (q : A -> bool) l :
  (length (List.filter q l) + length (List.filter (fun d => negb (q d)) l))%nat = length l.
Proof.
  induction l as [|d l IH]; [reflexivity|].
  cbn [List.filter]. destruct (q d); cbn [negb length]; lia.
Qed.

(** X20: on the device list that [update_clients] leaves, [main_keyboard]
    raises nothing and changes nothing.  Every device is counted once, as
    online or as offline; a count is shown only when it is not zero, and the
    refresh button is always the last row. *)
Theorem main_keyboard_after_update cfg net w :
  exists on off,
    main_keyboard (snd (update_clients cfg net w))
    = (Return
         ((match on with
           | O => []
           | S _ => [[ {| text := "🟢 Онлайн (" +:+ str_of_int (Z.of_nat on) +:+ ")";
                          callback_data := "show_online" |} ]]
           end) ++
          (match off with
           | O => []
           | S _ => [[ {| text := "🔴 Офлайн (" +:+ str_of_int (Z.of_nat off) +:+ ")";
                          callback_data := "show_offline" |} ]]
           end) ++
          [[ {| text := "🔄 Обновить"; callback_data := "refresh_main" |} ]]),
       snd (update_clients cfg net w)) /\
    (on + off = length (ACTIVE_CLIENTS (snd (update_clients cfg net w))))%nat.
Proof.
  destruct (update_clients_well_formed_list cfg net w) as [Hd _].
  set (w1 := snd (update_clients cfg net w)) in *.
  destruct (select_on_dicts _ Hd) as (q1 & q2 & q3 & q4 & Hsel & Hneg & _).
  destruct (Hsel _ Hd) as (E1 & E2 & _ & _).
  destruct (Hsel _ (filter_dicts q1 _ Hd)) as (_ & _ & E3 & E4).
  destruct (Hsel _ (filter_dicts q2 _ Hd)) as (_ & _ & E5 & E6).
  exists (length (List.filter q1 (ACTIVE_CLIENTS w1))),
         (length (List.filter q2 (ACTIVE_CLIENTS w1))).
  split.
  - unfold main_keyboard, mbind, get_ACTIVE_CLIENTS, lift, ret.
    rewrite E1, E2, E3, E4, E5, E6.
    destruct (List.filter q1 (ACTIVE_CLIENTS w1)), (List.filter q2 (ACTIVE_CLIENTS w1));
      reflexivity.
  - rewrite (List.filter_ext q2 (fun d => negb (q1 d))) by exact Hneg.
    apply filter_partition_length.
Qed.

(** X21: for a user who is not in [ALLOWED_USERS], [start] answers with the
    refusal and does nothing else: no request goes to the router, and the
    device list, the last-known states and the outbox stay as they were. *)
Theorem start_refuses_strangers cfg net temperature user_id w :
  is_user_allowed (ALLOWED_USERS cfg) user_id = false ->
  fst (start cfg net temperature user_id w) = Return AccessDenied /\
  sent_requests (snd (start cfg net temperature user_id w)) = sent_requests w /\
  ACTIVE_CLIENTS (snd (start cfg net temperature user_id w)) = ACTIVE_CLIENTS w /\
  PREV_STATUS (snd (start cfg net temperature user_id w)) = PREV_STATUS w /\
  outbox (snd (start cfg net temperature user_id w)) = outbox w.
Proof.
  intros H. unfold start. rewrite H. cbn. repeat split.
Qed.

Lemma start_refuses_strangers_witness :
  is_user_allowed (ALLOWED_USERS cfg0) 4242 = false /\
  fst (start cfg0 (always unauthorized) "—" 4242 initial) = Return AccessDenied /\
  sent_requests (snd (start cfg0 (always unauthorized) "—" 4242 initial))
    = sent_requests initial.
Proof.
  split; [reflexivity|].
  destruct (start_refuses_strangers cfg0 (always unauthorized) "—" 4242 initial eq_refl)
    as (H1 & H2 & _).
  split; assumption.
Defined.

(** X22: when the handshake fails, [start] answers with the failure and
    stops: it has sent the requests of the handshake and no other, and the
    device list is as before. *)
Theorem start_stops_without_session cfg net temperature user_id w :
  is_user_allowed (ALLOWED_USERS cfg) user_id = true ->
  fst (keen_auth cfg net w) = Return false ->
  fst (start cfg net temperature user_id w) = Return AuthFailed /\
  snd (start cfg net temperature user_id w) = snd (keen_auth cfg net w) /\
  ACTIVE_CLIENTS (snd (start cfg net temperature user_id w)) = ACTIVE_CLIENTS w.
Proof.
  intros Hu Ha. destruct (keen_auth_cases cfg net w) as (_ & _ & Hac & _).
  unfold start. rewrite Hu. cbn [negb].
  destruct (keen_auth cfg net w) as [res w1] eqn:E. cbn [fst snd] in *. subst res.
  rewrite (mbind_return _ _ _ _ _ E). cbn. auto.
Qed.

Lemma start_stops_without_session_witness :
  is_user_allowed (ALLOWED_USERS cfg0) 1001 = true /\
  fst (keen_auth cfg0 (always unauthorized_no_realm) initial) = Return false /\
  fst (start cfg0 (always unauthorized_no_realm) "—" 1001 initial) = Return AuthFailed /\
  sent_requests (snd (start cfg0 (always unauthorized_no_realm) "—" 1001 initial))
    = [probe cfg0].
Proof.
  split; [reflexivity|]. split; [reflexivity|].
  destruct (start_stops_without_session cfg0 (always unauthorized_no_realm) "—" 1001
              initial eq_refl eq_refl) as (H1 & H2 & _).
  split; [exact H1|]. rewrite H2. reflexivity.
Defined.

End StartHandler.

Section StartDashboard.
Import Text Utils Handlers Cases.

Lemma main_keyboard_total w :
  Forall (fun d => is_dict d = true) (ACTIVE_CLIENTS w) ->
  exists rows, main_keyboard w = (Return rows, w).
Proof.
  intros Hd.
  destruct (select_on_dicts _ Hd) as (q1 & q2 & q3 & q4 & Hsel & _ & _).
  destruct (Hsel _ Hd) as (E1 & E2 & _ & _).
  destruct (Hsel _ (filter_dicts q1 _ Hd)) as (_ & _ & E3 & E4).
  destruct (Hsel _ (filter_dicts q2 _ Hd)) as (_ & _ & E5 & E6).
  unfold main_keyboard, mbind, get_ACTIVE_CLIENTS, lift, ret.
  rewrite E1, E2, E3, E4, E5, E6. eexists. reflexivity.
Qed.

(** The part of [start] that follows the parsing of the system answer
    cannot fail on a device list made of dicts. *)
Lemma start_tail cfg net w :
  Forall (fun d => is_dict d = true) (ACTIVE_CLIENTS w) ->
  exists wan w' on off on_wifi on_wired off_wifi off_wired rows,
    get_pppoe_ip cfg net w = (Return wan, w') /\
    sent_requests w' = sent_requests w ++ [query cfg "interface/PPPoE0"] /\
    select is_online (ACTIVE_CLIENTS w') = Return on /\
    select is_offline (ACTIVE_CLIENTS w') = Return off /\
    select is_wifi on = Return on_wifi /\
    select is_wired on = Return on_wired /\
    select is_wifi off = Return off_wifi /\
    select is_wired off = Return off_wired /\
    main_keyboard w' = (Return rows, w').
Proof.
  intros Hd.
  destruct (get_pppoe_ip_cases cfg net w) as (Hf & Hs & Ha & _).
  destruct (get_pppoe_ip cfg net w) as [res w'] eqn:E. cbn [fst snd] in *. subst res.
  rewrite <- Ha in Hd.
  destruct (select_on_dicts _ Hd) as (q1 & q2 & q3 & q4 & Hsel & _ & _).
  destruct (Hsel _ Hd) as (E1 & E2 & _ & _).
  destruct (Hsel _ (filter_dicts q1 _ Hd)) as (_ & _ & E3 & E4).
  destruct (Hsel _ (filter_dicts q2 _ Hd)) as (_ & _ & E5 & E6).
  destruct (main_keyboard_total w' Hd) as [rows Hk].
  do 9 eexists. repeat (split; [eassumption||reflexivity|]). exact Hk.
Qed.

End StartDashboard.

Section StartQueries.
Import Text Utils Handlers Cases.

(** [start] once the user is allowed and the handshake has succeeded. *)
Lemma start_after_auth cfg net temperature user_id w w1 w2 :
  is_user_allowed (ALLOWED_USERS cfg) user_id = true ->
  keen_auth cfg net w = (Return true, w1) ->
  update_clients cfg net w1 = (Return tt, w2) ->
  (forall e w3,
     keen_get cfg net "system" w2 = (Raise e, w3) ->
     start cfg net temperature user_id w = (Raise e, w3)) /\
  (forall sys_info w3 e,
     keen_get cfg net "system" w2 = (Return sys_info, w3) ->
     read_system sys_info = Raise e ->
     start cfg net temperature user_id w = (Raise e, w3)) /\
  (forall sys_info w3 info,
     keen_get cfg net "system" w2 = (Return sys_info, w3) ->
     read_system sys_info = Return info ->
     exists w4,
       sent_requests w4 = sent_requests w3 ++ [query cfg "interface/PPPoE0"] /\
       match Memory.percent (sys_conns_total info - sys_conns_free info)
               (sys_conns_total info),
             render_int (sys_conns_total info - sys_conns_free info) with
       | Raise e, _ => start cfg net temperature user_id w = (Raise e, w4)
       | Return _, Raise e => start cfg net temperature user_id w = (Raise e, w4)
       | Return p, Return _ =>
           exists d,
             start cfg net temperature user_id w = (Return (Dashboard d), w4) /\
             hostname d = sys_hostname info /\
             cpu_load d = sys_cpu_load info /\
             memory d = sys_memory info /\
             uptime d = format_seconds (sys_uptime_s info) /\
             conns_total d = sys_conns_total info /\
             conns_used d = sys_conns_total info - sys_conns_free info /\
             conns_percent d = p /\
             cpu_temp d = temperature /\
             (online d + offline d = length (ACTIVE_CLIENTS w2))%nat
       end).
Proof.
  intros Hu Ha Hc.
  assert (Hstart : start cfg net temperature user_id w =
            mbind (keen_get cfg net "system")
              (fun sys_info =>
               mbind (lift (read_system sys_info))
                 (fun info =>
                  mbind (get_pppoe_ip cfg net)
                    (fun wan =>
                     mbind get_ACTIVE_CLIENTS
                       (fun clients =>
                        mbind (lift (select is_online clients))
                          (fun on =>
                           mbind (lift (select is_offline clients))
                             (fun off =>
                              mbind (lift (select is_wifi on))
                                (fun on_wifi =>
                                 mbind (lift (select is_wired on))
                                   (fun on_wired =>
                                    mbind (lift (select is_wifi off))
                                      (fun off_wifi =>
                                       mbind (lift (select is_wired off))
                                         (fun off_wired =>
                                          mbind (lift (Memory.percent
                                                         (sys_conns_total info
                                                          - sys_conns_free info)
                                                         (sys_conns_total info)))
                                            (fun conns_percent =>
                                          mbind (lift (render_int
                                                         (sys_conns_total info
                                                          - sys_conns_free info)))
                                            (fun shown =>
                                          mbind main_keyboard
                                            (fun buttons =>
                                             ret (Dashboard
               {| hostname := sys_hostname info; cpu_temp := temperature;
                  cpu_load := sys_cpu_load info; memory := sys_memory info;
                  uptime := format_seconds (sys_uptime_s info);
                  wan_ip := wan;
                  conns_used := sys_conns_total info - sys_conns_free info;
                  conns_total := sys_conns_total info;
                  conns_percent := conns_percent;
                  online := length on; online_wifi := length on_wifi;
                  online_wired := length on_wired; offline := length off;
                  offline_wifi := length off_wifi;
                  offline_wired := length off_wired;
                  keyboard := buttons |})))))))))))))) w2).
  { unfold start. rewrite Hu. cbn [negb].
    rewrite (mbind_return _ _ _ _ _ Ha). cbn [negb].
    rewrite (mbind_return _ _ _ _ _ Hc). reflexivity. }
  rewrite Hstart. clear Hstart.
  split; [|split].
  - intros e w3 Hk. apply mbind_raise. exact Hk.
  - intros sys_info w3 e Hk Hr. rewrite (mbind_return _ _ _ _ _ Hk).
    apply mbind_raise. unfold lift. rewrite Hr. reflexivity.
  - intros sys_info w3 info Hk Hr. rewrite (mbind_return _ _ _ _ _ Hk).
    erewrite mbind_return by (unfold lift; rewrite Hr; reflexivity).
    assert (Hd : Forall (fun d => is_dict d = true) (ACTIVE_CLIENTS w3)).
    { destruct (keen_get_cases cfg net "system" w2) as (_ & Hac & _).
      rewrite Hk in Hac. cbn [snd] in Hac. rewrite Hac.
      pose proof (update_clients_well_formed_list cfg net w1) as [H _].
      rewrite Hc in H. exact H. }
    destruct (start_tail cfg net w3 Hd)
      as (wan & w4 & on & off & on_wifi & on_wired & off_wifi & off_wired & rows &
          Hp & Hs & E1 & E2 & E3 & E4 & E5 & E6 & Hkb).
    rewrite (mbind_return _ _ _ _ _ Hp).
    rewrite (mbind_return get_ACTIVE_CLIENTS _ w4 (ACTIVE_CLIENTS w4) w4 eq_refl).
    do 6 (erewrite mbind_return by (unfold lift; first
            [rewrite E1|rewrite E2|rewrite E3|rewrite E4|rewrite E5|rewrite E6];
            reflexivity)).
    exists w4. split; [exact Hs|].
    destruct (Memory.percent _ _) as [e|p] eqn:Ep.
    { apply mbind_raise. reflexivity. }
    erewrite mbind_return by reflexivity.
    destruct (render_int _) as [e|shown] eqn:Er.
    { apply mbind_raise. reflexivity. }
    erewrite mbind_return by reflexivity.
    rewrite (mbind_return _ _ _ _ _ Hkb).
    eexists. split; [reflexivity|].
    cbn [hostname cpu_load memory uptime conns_total conns_used conns_percent cpu_temp
         online offline].
    repeat (split; [reflexivity|]).
    assert (Hd4 : Forall (fun d => is_dict d = true) (ACTIVE_CLIENTS w4)).
    { destruct (get_pppoe_ip_cases cfg net w3) as (_ & _ & Hac & _).
      rewrite Hp in Hac. cbn [snd] in Hac. rewrite Hac. exact Hd. }
    destruct (select_on_dicts _ Hd4) as (q1 & q2 & q3 & q4 & Hsel & Hneg & _).
    destruct (Hsel _ Hd4) as (F1 & F2 & _ & _).
    rewrite F1 in E1. rewrite F2 in E2. injection E1 as <-. injection E2 as <-.
    rewrite (List.filter_ext q2 (fun d => negb (q1 d))) by exact Hneg.
    rewrite filter_partition_length.
    destruct (get_pppoe_ip_cases cfg net w3) as (_ & _ & Hac & _).
    rewrite Hp in Hac. cbn [snd] in Hac. rewrite Hac.
    destruct (keen_get_cases cfg net "system" w2) as (_ & Hac2 & _).
    rewrite Hk in Hac2. cbn [snd] in Hac2. rewrite Hac2. reflexivity.
Qed.

End StartQueries.

Section StartOutcomes.
Import Text Utils Handlers Cases.

Lemma start_worlds cfg net w :
  fst (keen_auth cfg net w) = Return true ->
  exists w1 w2 res w3,
    keen_auth cfg net w = (Return true, w1) /\
    w1 = snd (keen_auth cfg net w) /\
    update_clients cfg net w1 = (Return tt, w2) /\
    sent_requests w2 = sent_requests w1 ++ [query cfg "device-list"] /\
    keen_get cfg net "system" w2 = (res, w3) /\
    sent_requests w3 = sent_requests w1 ++ [query cfg "device-list"; query cfg "system"] /\
    res = match net (sent_requests w2) (query cfg "system") with
          | Fails e => if is_RequestException e then Return empty_dict else Raise e
          | Responds r =>
              if (400 <=? status_code r) && (status_code r <? 600) then Return empty_dict
              else match body r with
                   | Return v => Return v
                   | Raise e =>
                       if is_ValueError e || is_RequestException e then Return empty_dict
                       else Raise e
                   end
          end.
Proof.
  intros Ha.
  destruct (keen_auth cfg net w) as [ra w1] eqn:E1. cbn [fst] in Ha. subst ra.
  destruct (update_clients_frame cfg net w1) as (Hf & Hs & _).
  destruct (update_clients cfg net w1) as [ru w2] eqn:E2. cbn [fst snd] in *. subst ru.
  destruct (keen_get_cases cfg net "system" w2) as (Hs3 & _ & _ & _ & Hf3).
  destruct (keen_get cfg net "system" w2) as [res w3] eqn:E3. cbn [fst snd] in *.
  exists w1, w2, res, w3. repeat (split; [reflexivity||assumption|]).
  split; [|exact Hf3]. rewrite Hs3, Hs, <- app_assoc. reflexivity.
Qed.

Lemma render_int_zero : render_int 0 = Return "0".
Proof. vm_compute. reflexivity. Qed.



(** The late failures happen: a number of free connections that makes the
    percentage too large for a float, and two counts of 4300 digits whose
    difference has one digit more. *)
Example start_raises_after_wan_query :
  fst (start cfg0 with_huge_connections "—" 1001 initial) = Raise OverflowError /\
  sent_requests (snd (start cfg0 with_huge_connections "—" 1001 initial))
    = [probe cfg0; query cfg0 "device-list"; query cfg0 "system";
       query cfg0 "interface/PPPoE0"] /\
  fst (start cfg0 with_long_connections "—" 1001 initial) = Raise ValueError /\
  sent_requests (snd (start cfg0 with_long_connections "—" 1001 initial))
    = [probe cfg0; query cfg0 "device-list"; query cfg0 "system";
       query cfg0 "interface/PPPoE0"].
Proof.
  split; [vm_compute; reflexivity|]. split; [vm_compute; reflexivity|].
  split; vm_compute; reflexivity.
Qed.

(** X24: a system query that fails softly does not stop [start]: the
    dashboard is shown with the defaults, a placeholder for the host name,
    zero load, zero memory, a zero uptime and no connection. *)
Theorem start_shows_defaults cfg net temperature user_id w :
  is_user_allowed (ALLOWED_USERS cfg) user_id = true ->
  fst (keen_auth cfg net w) = Return true ->
  ((exists e,
      net (sent_requests (snd (keen_auth cfg net w)) ++ [query cfg "device-list"])
        (query cfg "system") = Fails e /\ is_RequestException e = true) \/
   exists r,
     net (sent_requests (snd (keen_auth cfg net w)) ++ [query cfg "device-list"])
       (query cfg "system") = Responds r /\
     (400 <= status_code r < 600 \/
      exists e, body r = Raise e /\
                (is_ValueError e = true \/ is_RequestException e = true))) ->
  exists d,
    fst (start cfg net temperature user_id w) = Return (Dashboard d) /\
    hostname d = JStr "—" /\
    cpu_load d = JNum 0 /\
    Memory.account 0 0 = Return (memory d) /\
    Memory.used_mb (memory d) = Finite (0 # 1) /\
    Memory.total_mb (memory d) = Finite (0 # 1) /\
    Memory.mem_percent (memory d) = Finite (0 # 1) /\
    uptime d = "00:00:00" /\
    conns_total d = 0 /\
    conns_used d = 0 /\
    conns_percent d = Finite (0 # 1).
Proof.
  intros Hu Ha Hsys.
  destruct (start_worlds cfg net w Ha)
    as (w1 & w2 & res & w3 & E1 & -> & E2 & Hs2 & E3 & Hs3 & Hres).
  rewrite E1 in *. cbn [snd] in *. rewrite <- Hs2 in Hsys.
  assert (res = Return empty_dict) as ->.
  { rewrite Hres. destruct Hsys as [(e & -> & He)|(r & -> & H)]; [rewrite He; reflexivity|].
    destruct ((400 <=? status_code r) && (status_code r <? 600)) eqn:Est; [reflexivity|].
    destruct H as [H|(e & -> & He)].
    - rewrite status_is_error in Est by exact H. discriminate Est.
    - replace (is_ValueError e || is_RequestException e) with true; [reflexivity|].
      symmetry. apply orb_true_iff. exact He. }
  destruct (start_after_auth cfg net temperature user_id w _ w2 Hu E1 E2)
    as (_ & _ & Hshow).
  assert (Hread : exists info,
            read_system empty_dict = Return info /\
            sys_hostname info = JStr "—" /\ sys_cpu_load info = JNum 0 /\
            Memory.account 0 0 = Return (sys_memory info) /\
            Memory.used_mb (sys_memory info) = Finite (0 # 1) /\
            Memory.total_mb (sys_memory info) = Finite (0 # 1) /\
            Memory.mem_percent (sys_memory info) = Finite (0 # 1) /\
            sys_uptime_s info = 0 /\
            sys_conns_total info = 0 /\ sys_conns_free info = 0).
  { eexists. split; [vm_compute; reflexivity|]. repeat split. }
  destruct Hread as (info & Hr & H1 & H2 & H3 & H3a & H3b & H3c & H4 & H5 & H6).
  destruct (Hshow empty_dict w3 info E3 Hr) as (w4 & _ & Hout).
  rewrite H5, H6 in Hout. change (0 - 0) with 0 in Hout.
  change (Memory.percent 0 0) with (@Return float (Finite (0 # 1))) in Hout.
  rewrite render_int_zero in Hout.
  destruct Hout as (d & -> & G1 & G2 & G3 & G4 & G5 & G6 & G7 & _).
  exists d. split; [reflexivity|].
  rewrite G1, G2, G3, G4, G5, G6, G7, H1, H2, H4. repeat split; assumption.
Qed.

Lemma start_shows_defaults_witness :
  is_user_allowed (ALLOWED_USERS cfg0) 1001 = true /\
  fst (keen_auth cfg0 without_system initial) = Return true /\
  ((exists e,
      without_system
        (sent_requests (snd (keen_auth cfg0 without_system initial)) ++
         [query cfg0 "device-list"])
        (query cfg0 "system") = Fails e /\ is_RequestException e = true) \/
   exists r,
     without_system
       (sent_requests (snd (keen_auth cfg0 without_system initial)) ++
        [query cfg0 "device-list"])
       (query cfg0 "system") = Responds r /\
     (400 <= status_code r < 600 \/
      exists e, body r = Raise e /\
                (is_ValueError e = true \/ is_RequestException e = true))) /\
  exists d,
    fst (start cfg0 without_system "—" 1001 initial) = Return (Dashboard d) /\
    hostname d = JStr "—" /\ uptime d = "00:00:00".
Proof.
  assert (H : (exists e,
      without_system
        (sent_requests (snd (keen_auth cfg0 without_system initial)) ++
         [query cfg0 "device-list"])
        (query cfg0 "system") = Fails e /\ is_RequestException e = true) \/
   exists r,
     without_system
       (sent_requests (snd (keen_auth cfg0 without_system initial)) ++
        [query cfg0 "device-list"])
       (query cfg0 "system") = Responds r /\
     (400 <= status_code r < 600 \/
      exists e, body r = Raise e /\
                (is_ValueError e = true \/ is_RequestException e = true))).
  { right. exists not_found. split; [reflexivity|]. left. cbn. lia. }
  split; [reflexivity|]. split; [reflexivity|]. split; [exact H|].
  destruct (start_shows_defaults cfg0 without_system "—" 1001 initial eq_refl eq_refl H)
    as (d & H0 & H1 & _ & _ & _ & _ & _ & H4 & _).
  exists d. auto.
Defined.

(** X25: a system answer that is JSON but not a mapping is handed over by
    [keen_get] as it is, and [start] raises [AttributeError] on its first
    look into it; the PPPoE interface is not asked. *)
Theorem start_raises_on_non_mapping cfg net temperature user_id w r v :
  is_user_allowed (ALLOWED_USERS cfg) user_id = true ->
  fst (keen_auth cfg net w) = Return true ->
  net (sent_requests (snd (keen_auth cfg net w)) ++ [query cfg "device-list"])
    (query cfg "system") = Responds r ->
  ~ (400 <= status_code r < 600) ->
  body r = Return v ->
  is_dict v = false ->
  fst (start cfg net temperature user_id w) = Raise AttributeError /\
  sent_requests (snd (start cfg net temperature user_id w))
  = sent_requests (snd (keen_auth cfg net w)) ++
    [query cfg "device-list"; query cfg "system"].
Proof.
  intros Hu Ha Hnet Hst Hbody Hv.
  destruct (start_worlds cfg net w Ha)
    as (w1 & w2 & res & w3 & E1 & -> & E2 & Hs2 & E3 & Hs3 & Hres).
  rewrite E1 in *. cbn [snd] in *. rewrite <- Hs2 in Hnet.
  rewrite Hnet, Hbody in Hres.
  replace ((400 <=? status_code r) && (status_code r <? 600)) with false in Hres.
  2:{ symmetry. apply andb_false_iff.
      destruct (Z.leb_spec 400 (status_code r)); [right|left; reflexivity].
      apply Z.ltb_ge. lia. }
  subst res.
  destruct (start_after_auth cfg net temperature user_id w _ w2 Hu E1 E2)
    as (_ & Hparse & _).
  rewrite (Hparse v w3 AttributeError E3).
  - split; [reflexivity|exact Hs3].
  - destruct v; try reflexivity. discriminate Hv.
Qed.

Lemma start_raises_on_non_mapping_witness :
  is_user_allowed (ALLOWED_USERS cfg0) 1001 = true /\
  fst (keen_auth cfg0 with_list_system initial) = Return true /\
  with_list_system
    (sent_requests (snd (keen_auth cfg0 with_list_system initial)) ++
     [query cfg0 "device-list"])
    (query cfg0 "system") = Responds list_answer /\
  ~ (400 <= status_code list_answer < 600) /\
  body list_answer = Return (JArr [JNum 1]) /\
  is_dict (JArr [JNum 1]) = false /\
  fst (start cfg0 with_list_system "—" 1001 initial) = Raise AttributeError.
Proof.
  assert (Hst : ~ (400 <= status_code list_answer < 600)) by (cbn; lia).
  split; [reflexivity|]. split; [reflexivity|]. split; [reflexivity|].
  split; [exact Hst|]. split; [reflexivity|]. split; [reflexivity|].
  exact (proj1 (start_raises_on_non_mapping cfg0 with_list_system "—" 1001 initial
                  list_answer (JArr [JNum 1]) eq_refl eq_refl eq_refl Hst eq_refl eq_refl)).
Defined.

End StartOutcomes.

(* ===================================================================== *)
(** ** Rounding *)
(* ===================================================================== *)

Section Rounding.
Import Py.

Lemma round_half_even_le n d K : 0 < d -> n <= K * d -> round_half_even n d <= K.
Proof.
  intros Hd H. unfold round_half_even.
  pose proof (Z.div_mod n d ltac:(lia)) as E.
  pose proof (Z.mod_pos_bound n d Hd) as B.
  assert (Hq : n / d <= K) by (apply Z.div_le_upper_bound; lia).
  destruct ((d <? 2 * (n mod d)) || ((d =? 2 * (n mod d)) && Z.odd (n / d))) eqn:C;
    [|exact Hq].
  assert (n / d <> K); [|lia].
  intros Heq. rewrite Heq in E. assert (Hr : n mod d = 0) by nia.
  rewrite Hr in C.
  apply orb_true_iff in C as [C|C]; [apply Z.ltb_lt in C; lia|].
  apply andb_true_iff in C as [C _]. apply Z.eqb_eq in C. lia.
Qed.

Lemma round_half_even_nonneg n d : 0 <= n -> 0 < d -> 0 <= round_half_even n d.
Proof.
  intros Hn Hd. unfold round_half_even.
  pose proof (Z.div_pos n d Hn Hd).
  match goal with |- context [if ?c then _ else _] => destruct c end; lia.
Qed.

Lemma floor_log2_le a b : floor_log2 a b <= Z.log2 a - Z.log2 b.
Proof.
  unfold floor_log2.
  match goal with |- context [if ?c then _ else _] => destruct c end; lia.
Qed.

(** A positive rational below a natural number [C] is rounded to a float
    between zero and [C]. *)
Lemma round_le q C :
  0 < Qnum q -> Qnum q <= C * Zpos (Qden q) -> 0 < C < 2 ^ 50 ->
  exists p, round q = Finite p /\ (0 <= p)%Q /\ (p <= inject_Z C)%Q.
Proof.
  intros Ha Hle [HC0 HC]. unfold round.
  rewrite (Z.abs_eq (Qnum q)) by lia.
  replace (Qnum q =? 0) with false by (symmetry; apply Z.eqb_neq; lia).
  unfold nearest.
  pose proof (floor_log2_le (Qnum q) (Zpos (Qden q))) as He.
  assert (Hlog : Z.log2 (Qnum q) <= Z.log2 C + Z.log2 (Zpos (Qden q)) + 1).
  { etransitivity; [apply Z.log2_le_mono, Hle|]. apply Z.log2_mul_above; lia. }
  assert (HlogC : Z.log2 C < 50) by (apply Z.log2_lt_pow2; lia).
  set (u := Z.max (floor_log2 (Qnum q) (Zpos (Qden q)) - 52) (- 1074)).
  assert (Hu : u < 0) by (unfold u; lia).
  replace (0 <=? u) with false by (symmetry; apply Z.leb_gt; exact Hu).
  set (m := round_half_even (Qnum q * 2 ^ (- u)) (Zpos (Qden q))).
  assert (Hpow : 0 < 2 ^ (- u)) by (apply Z.pow_pos_nonneg; lia).
  assert (Hm0 : 0 <= m) by (apply round_half_even_nonneg; nia).
  assert (Hm : m <= C * 2 ^ (- u)) by (apply round_half_even_le; nia).
  assert (Hover : (0 <? m) && (1024 <=? Z.log2 m + u) = false).
  { destruct (Z.ltb_spec 0 m) as [Hpos|]; [|reflexivity]. cbn [andb].
    apply Z.leb_gt.
    assert (Z.log2 m <= Z.log2 C + (- u) + 1); [|lia].
    etransitivity; [apply Z.log2_le_mono, Hm|].
    etransitivity; [apply Z.log2_mul_above; lia|].
    rewrite Z.log2_pow2 by lia. lia. }
  rewrite Hover. replace (Z.sgn (Qnum q)) with 1 by (symmetry; apply Z.sgn_pos; lia).
  rewrite Z.mul_1_l. eexists. split; [reflexivity|].
  unfold scaled. replace (0 <=? u) with false by (symmetry; apply Z.leb_gt; exact Hu).
  unfold Qle. cbn [Qnum Qden inject_Z]. rewrite Z2Pos.id by exact Hpow. split; lia.
Qed.

Lemma round_zero q : Qnum q = 0 -> round q = Finite (0 # 1).
Proof. intros H. unfold round. rewrite H. reflexivity. Qed.

(** The percentage of a part within its whole lies between 0 and 100. *)
Lemma percent_bounds part whole :
  0 <= part <= whole ->
  exists p,
    Memory.percent part whole = Return (Finite p) /\
    (0 <= p)%Q /\ (p <= 100 # 1)%Q /\
    (whole <= 0 -> p = 0 # 1).
Proof.
  intros [H0 H1]. unfold Memory.percent.
  destruct (Z.ltb_spec 0 whole) as [Hw|Hw].
  2:{ exists (0 # 1). split; [reflexivity|]. repeat split; unfold Qle; cbn; lia. }
  unfold true_div. replace (whole =? 0) with false by (symmetry; apply Z.eqb_neq; lia).
  rewrite (Z.sgn_pos whole), Z.mul_1_l, (Z.abs_eq whole) by lia.
  assert (Hq : exists q, round (part # Z.to_pos whole) = Finite q /\
                         (0 <= q)%Q /\ (q <= inject_Z 1)%Q).
  { destruct (Z.eq_dec part 0) as [->|Hp].
    - exists (0 # 1). split; [reflexivity|]. split; unfold Qle; cbn; lia.
    - apply round_le; cbn [Qnum Qden]; [lia| |lia]. rewrite Z2Pos.id; lia. }
  destruct Hq as (q & -> & Hq0 & Hq1). cbn [bind fmul].
  assert (Hp : exists p, round (q * inject_Z 100) = Finite p /\
                         (0 <= p)%Q /\ (p <= inject_Z 100)%Q).
  { unfold Qle in Hq0, Hq1. cbn in Hq0, Hq1.
    destruct (Z.eq_dec (Qnum q) 0) as [Hz|Hz].
    - rewrite round_zero by (cbn; lia). exists (0 # 1).
      split; [reflexivity|]. split; unfold Qle; cbn; lia.
    - apply round_le; cbn [Qnum Qden Qmult inject_Z]; [lia| |lia].
      rewrite Pos.mul_1_r. lia. }
  destruct Hp as (p & -> & Hp0 & Hp1). exists p.
  split; [reflexivity|]. split; [exact Hp0|]. split; [exact Hp1|]. lia.
Qed.

End Rounding.

(* ===================================================================== *)
(** ** Errors and bounds *)
(* ===================================================================== *)

Section ErrorsAndBounds.
Import Text Utils Handlers Cases.

(** X26: [keen_get] lets an exception through in two cases only: the
    request itself fails with an exception that is not a [RequestException];
    or the status is not 4xx or 5xx and [r.json()] raises an exception that is
    neither a [ValueError] nor a [RequestException], as the parser does on a
    body nested too deeply. *)
Theorem keen_get_raises_iff cfg net path w e :
  fst (keen_get cfg net path w) = Raise e <->
  (net (sent_requests w) (query cfg path) = Fails e /\ is_RequestException e = false) \/
  (exists r,
     net (sent_requests w) (query cfg path) = Responds r /\
     ~ (400 <= status_code r < 600) /\
     body r = Raise e /\
     is_ValueError e = false /\ is_RequestException e = false).
Proof.
  destruct (keen_get_cases cfg net path w) as (_ & _ & _ & _ & ->).
  destruct (net (sent_requests w) (query cfg path)) as [e'|r].
  - destruct (is_RequestException e') eqn:E.
    + split; [discriminate|]. intros [[[= ->] H]|(r & H & _)]; congruence.
    + split; [intros [= ->]; auto|]. intros [[[= ->] _]|(r & H & _)];
        [reflexivity|discriminate H].
  - split.
    + intros H. right. exists r. split; [reflexivity|].
      destruct ((400 <=? status_code r) && (status_code r <? 600)) eqn:Est;
        [discriminate H|].
      split.
      { intros Hst. rewrite status_is_error in Est by exact Hst. discriminate Est. }
      destruct (body r) as [e'|v]; [|discriminate H].
      destruct (is_ValueError e' || is_RequestException e') eqn:Ev; [discriminate H|].
      injection H as ->. apply orb_false_iff in Ev. tauto.
    + intros [[H _]|(r' & [= <-] & Hst & -> & Hv & Hr)]; [discriminate H|].
      rewrite status_is_no_error by exact Hst. rewrite Hv, Hr. reflexivity.
Qed.

Lemma map_result_raises {A B} (f : A -> result B) (l : list A) x e :
  In x l -> f x = Raise e -> exists e', map_result f l = Raise e'.
Proof.
  intros Hin Hx. induction l as [|y l IH]; [destruct Hin|].
  cbn [map_result]. destruct (f y) as [e0|b] eqn:Ey; [eauto|].
  destruct Hin as [->|Hin]; [congruence|].
  destruct (IH Hin) as [e' ->]. eauto.
Qed.

(** X27: one host entry that is not a mapping blanks the whole device
    list: the sort raises on it and [update_clients] stores the empty
    list. *)
Theorem update_clients_blanked_by_bad_entry cfg net w r o hosts h :
  net (sent_requests w) (query cfg "device-list") = Responds r ->
  ~ (400 <= status_code r < 600) ->
  body r = Return (JObj o) ->
  assoc "host" o = Some (JArr hosts) ->
  In h hosts ->
  is_dict h = false ->
  ACTIVE_CLIENTS (snd (update_clients cfg net w)) = [].
Proof.
  intros Hnet Hst Hbody Hhost Hin Hh.
  destruct (keen_get_cases cfg net "device-list" w) as (_ & _ & _ & _ & Hf).
  rewrite Hnet, Hbody in Hf.
  replace ((400 <=? status_code r) && (status_code r <? 600)) with false in Hf.
  2:{ symmetry. apply andb_false_iff.
      destruct (Z.leb_spec 400 (status_code r)); [right|left; reflexivity].
      apply Z.ltb_ge. lia. }
  unfold update_clients, try_except, mbind, lift.
  destruct (keen_get cfg net "device-list" w) as [res w1]. cbn in Hf. subst res.
  destruct (truthy (JObj o)); cbn [negb]; [|reflexivity].
  cbn [get]. rewrite Hhost.
  destruct (truthy (JArr hosts)); cbn [negb]; [|reflexivity].
  cbn [iter bind]. unfold sorted.
  destruct (map_result_raises
              (fun x => bind (ip_sort x) (fun k => Return (k, x))) hosts h AttributeError Hin)
    as [e' ->]; [|reflexivity].
  destruct h; try reflexivity. discriminate Hh.
Qed.

Lemma update_clients_blanked_by_bad_entry_witness :
  always (device_list [device "AA:00:00:00:00:05" "10.0.0.5" (JBool true); JStr "x"])
    (sent_requests initial) (query cfg0 "device-list")
    = Responds (device_list [device "AA:00:00:00:00:05" "10.0.0.5" (JBool true); JStr "x"]) /\
  In (JStr "x") [device "AA:00:00:00:00:05" "10.0.0.5" (JBool true); JStr "x"] /\
  is_dict (JStr "x") = false /\
  ACTIVE_CLIENTS
    (snd (update_clients cfg0
            (always (device_list
                       [device "AA:00:00:00:00:05" "10.0.0.5" (JBool true); JStr "x"]))
            initial)) = [].
Proof.
  assert (Hin : In (JStr "x")
                  [device "AA:00:00:00:00:05" "10.0.0.5" (JBool true); JStr "x"])
    by (right; left; reflexivity).
  assert (Hst : ~ (400 <= status_code
                     (device_list [device "AA:00:00:00:00:05" "10.0.0.5" (JBool true);
                                   JStr "x"]) < 600)) by (cbn; lia).
  split; [reflexivity|]. split; [exact Hin|]. split; [reflexivity|].
  exact (update_clients_blanked_by_bad_entry cfg0 _ initial
           (device_list [device "AA:00:00:00:00:05" "10.0.0.5" (JBool true); JStr "x"])
           _ _ (JStr "x") eq_refl Hst eq_refl eq_refl Hin eq_refl).
Defined.

Lemma check_device_outbox_length cfg deliver d w :
  (length (outbox (snd (check_device cfg deliver d w)))
   <= length (outbox w) + length (ALLOWED_USERS cfg))%nat.
Proof.
  destruct (device_key d) as [e|k] eqn:Ek.
  - unfold device_key in Ek. unfold check_device, mbind, lift.
    destruct (getitem d "mac") as [e'|m]; cbn in *; [lia|].
    rewrite Ek. cbn. lia.
  - destruct (device_key_inv d k Ek) as (m & cur & Hm & Hk & Hc).
    destruct (check_device_ok cfg deliver d m k cur w Hm Hk Hc)
      as (n & w' & _ & _ & -> & _ & Ho & _).
    cbn [snd]. rewrite Ho, length_app.
    destruct (changed _ cur); [rewrite length_map|cbn]; lia.
Qed.

Lemma for_each_outbox_length cfg deliver l w :
  (length (outbox (snd (for_each l (check_device cfg deliver) w)))
   <= length (outbox w) + length (ALLOWED_USERS cfg) * length l)%nat.
Proof.
  revert w. induction l as [|d l IH]; intros w; cbn [for_each length]; [cbn; lia|].
  pose proof (check_device_outbox_length cfg deliver d w) as H1.
  unfold mbind.
  destruct (check_device cfg deliver d w) as [[e|[]] w1]; cbn [snd] in *; [lia|].
  specialize (IH w1). lia.
Qed.

(** X28: a turn of the loop hands at most one message per listed device
    and allowed user to the chat API. *)
Theorem cycle_message_bound cfg net deliver w :
  (length (outbox (snd (cycle cfg net deliver w)))
   <= length (outbox w) +
      length (ALLOWED_USERS cfg) * length (ACTIVE_CLIENTS (snd (cycle cfg net deliver w))))%nat.
Proof.
  destruct (cycle_fields cfg net deliver w) as (w0 & _ & _ & Ho & -> & _ & ->).
  rewrite <- Ho. apply for_each_outbox_length.
Qed.

(** X29: the accounting of a mapping lets through the [OverflowError] of a
    quotient too large for a float, from either of its two ways; any other
    exception comes out of the fallback: the combined string is present and
    does not parse, and one of the two separate fields cannot be made an
    integer. *)
Theorem memory_usage_raises_in_fallback_only o e :
  fst (Memory.memory_usage (JObj o)) = Raise e ->
  e = OverflowError \/
  exists v e',
    assoc "memory" o = Some v /\
    Memory.parse_combined v = Raise e' /\
    (int (match assoc "memtotal" o with Some t => t | None => JNum 0 end) = Raise e \/
     int (match assoc "memfree" o with Some f => f | None => JNum 0 end) = Raise e).
Proof.
  unfold Memory.memory_usage, Memory.read. cbn [get].
  destruct (assoc "memory" o) as [v|] eqn:Ev.
  2:{ intros H. left. vm_compute in H. discriminate H. }
  destruct (Memory.parse_combined v) as [e'|[used total]] eqn:Ep; cbn [bind fst snd].
  2:{ destruct (Memory.account used total) as [e1|u] eqn:Ea; [|discriminate].
      pose proof (account_raises _ _ _ Ea) as ->. cbn. intros [= <-]. left. reflexivity. }
  rewrite (parse_combined_raises v e' Ep).
  intros H.
  destruct (int (match assoc "memtotal" o with Some t => t | None => JNum 0 end))
    as [e1|t] eqn:Et; cbn [fst] in H.
  { right. exists v, e'. split; [reflexivity|]. split; [exact Ep|]. left. congruence. }
  destruct (int (match assoc "memfree" o with Some f => f | None => JNum 0 end))
    as [e2|f] eqn:Ef; cbn [fst] in H.
  { right. exists v, e'. split; [reflexivity|]. split; [exact Ep|]. right. congruence. }
  left. apply (account_raises _ _ _ H).
Qed.

Lemma memory_usage_raises_in_fallback_only_witness :
  fst (Memory.memory_usage (JObj [("memory", JStr "n/a"); ("memtotal", JStr "many")]))
    = Raise ValueError /\
  (ValueError = OverflowError \/
   exists v e',
     assoc "memory" [("memory", JStr "n/a"); ("memtotal", JStr "many")] = Some v /\
     Memory.parse_combined v = Raise e' /\
     (int (match assoc "memtotal" [("memory", JStr "n/a"); ("memtotal", JStr "many")] with
           | Some t => t | None => JNum 0 end) = Raise ValueError \/
      int (match assoc "memfree" [("memory", JStr "n/a"); ("memtotal", JStr "many")] with
           | Some f => f | None => JNum 0 end) = Raise ValueError)).
Proof.
  assert (H : fst (Memory.memory_usage
                     (JObj [("memory", JStr "n/a"); ("memtotal", JStr "many")]))
              = Raise ValueError) by (vm_compute; reflexivity).
  split; [exact H|].
  exact (memory_usage_raises_in_fallback_only
           [("memory", JStr "n/a"); ("memtotal", JStr "many")] ValueError H).
Defined.

(** X30: when the used amount lies between zero and the total, the
    percentage is a finite float between 0 and 100, and no division raises;
    it is 0 when the total is not positive, no division taking place.  The
    percentage of an accounting that returns is this one. *)
Theorem memory_percent_bounds used_kb total_kb :
  0 <= used_kb <= total_kb ->
  exists p,
    Memory.percent used_kb total_kb = Return (Finite p) /\
    (0 <= p)%Q /\
    (p <= 100 # 1)%Q /\
    (total_kb <= 0 -> p = Qmake 0 1) /\
    (forall u, Memory.account used_kb total_kb = Return u ->
               Memory.mem_percent u = Finite p).
Proof.
  intros H. destruct (percent_bounds used_kb total_kb H) as (p & Hp & H0 & H1 & Hz).
  exists p. repeat (split; [assumption|]).
  intros u. unfold Memory.account. rewrite Hp.
  destruct (true_div used_kb 1024); cbn [bind]; [discriminate|].
  destruct (true_div total_kb 1024); cbn [bind]; [discriminate|].
  intros [= <-]. reflexivity.
Qed.

Lemma memory_percent_bounds_witness :
  0 <= 255592 <= 524288 /\
  exists p,
    Memory.percent 255592 524288 = Return (Finite p) /\
    (0 <= p)%Q /\ (p <= 100 # 1)%Q.
Proof.
  assert (H : 0 <= 255592 <= 524288) by lia.
  split; [exact H|].
  destruct (memory_percent_bounds 255592 524288 H) as (p & Hp & H1 & H2 & _).
  exists p. auto.
Defined.

End ErrorsAndBounds.
